(** * autoe2e: the run-lifecycle orchestrator, embedded and verified

    Shallow embedding of the Python package [autoe2e]:
    - [docker_runner.py]: the health-check evaluators [_check_http] and
      [_check_tcp], the readiness poller [wait_for_health], the compose
      commands and [collect_artifacts];
    - [ansible_runner.py] / [docker_runner.py]: the two backend classes, as
      the tables of the methods they define, and [_find_playbooks_dir];
    - [reporter.py]: [parse_junit_xml], [generate_summary], [write_summary];
    - [runner.py]: [build_pytest_args];
    - [config.py]: the typed health checks and [get_health_checks];
    - [cli.py]: the commands [run], [up], [test] and [down].

    Conventions.  Python [int] is [Z].  Time is an integral number of clock
    ticks ([Z]); [timeout] and [interval] are given in the same ticks.  A
    Python [dict] with string keys is a [gmap string _].  Text is ASCII, one
    character per byte.  A call that may raise returns an [outcome];
    [sys.exit] is the outcome [Exit].  What the outside world answers
    (network probes, playbooks, the test engine, the shell) is read from an
    oracle that the definitions take as a parameter. *)

From Stdlib Require Import ZArith Lia Ascii String.
From stdpp Require Import base option list gmap strings.

Local Open Scope string_scope.
Local Open Scope list_scope.
Local Open Scope Z_scope.

(** ** Python values, exceptions and outcomes *)

Module Py.

(** The values a health-check record or a call argument can hold. *)
Inductive pyval : Type :=
  | PNone
  | PBool (b : bool)
  | PInt (z : Z)
  | PStr (s : string).

#[global] Instance pyval_eq_dec : EqDecision pyval.
Proof. solve_decision. Defined.

(** What can go wrong below the HTTP or socket call. *)
Inductive transport_error : Type :=
  | Timeout
  | ConnectionRefused
  | DNSFailure
  | OtherTransport.

(** The exceptions of the model.  Each of them is a subclass of Python's
    [Exception]; [SystemExit], which is not, is the outcome [Exit]. *)
Inductive exn : Type :=
  | KeyError (key : string)
  | ValueError
  | TypeError
  | AttributeError (name : string)
  | ParseError
  | TransportError (e : transport_error).

Inductive outcome (A : Type) : Type :=
  | Ret (a : A)
  | Raise (e : exn)
  | Exit (code : Z).

Arguments Ret {A} a.
Arguments Raise {A} e.
Arguments Exit {A} code.

(** [x == y] where [x] is an [int]: [bool] is a subclass of [int], no other
    modelled value equals an integer. *)
Definition int_eq (x : Z) (v : pyval) : bool :=
  match v with
  | PInt z => x =? z
  | PBool b => x =? (if b then 1 else 0)
  | PNone | PStr _ => false
  end.

(** [v == s] where [s] is a string literal. *)
Definition str_eq (v : option pyval) (s : string) : bool :=
  match v with
  | Some (PStr s') => bool_decide (s' = s)
  | _ => false
  end.

End Py.

Import Py.

(** ** docker_runner.py: health checks and the readiness poller *)

Module Health.

(** A health-check record is a plain [dict]. *)
Abbreviation check := (gmap string pyval).

Inductive http_reply : Type :=
  | HttpResponse (status_code : Z)
  | HttpFail (e : transport_error).

Inductive tcp_reply : Type :=
  | ConnectResult (errno : Z)
  | ConnectFail (e : transport_error).

(** The network, seen from the probes: what a request started at a given time
    answers, and how long it takes to answer. *)
Record Network : Type := {
  http_get : pyval -> Z -> http_reply * Z;
  tcp_connect_ex : pyval -> pyval -> Z -> tcp_reply * Z
}.

Inductive probe_kind : Type := Http | Tcp.

Inductive event : Type :=
  | EvProbe (kind : probe_kind) (c : check) (passed : bool)
  | EvSleep (secs : Z).

(** The clock and what has happened so far, oldest event first. *)
Record pstate : Type := {
  now : Z;
  trace : list event
}.

Definition advance (dt : Z) (w : pstate) : pstate :=
  {| now := now w + dt; trace := trace w |}.

Definition emit (ev : event) (w : pstate) : pstate :=
  {| now := now w; trace := trace w ++ [ev] |}.

(** [time.sleep(secs)]: a negative length is a [ValueError]. *)
Definition sleep (secs : Z) (w : pstate) : outcome unit * pstate :=
  if secs <? 0 then (Raise ValueError, w)
  else (Ret tt, emit (EvSleep secs) (advance secs w)).

(** [try: ... except Exception: return False].  [SystemExit] is not an
    [Exception] and passes through. *)
Definition except_Exception_return_False
    (r : outcome bool * pstate) : outcome bool * pstate :=
  match r with
  | (Ret b, w) => (Ret b, w)
  | (Raise _, w) => (Ret false, w)
  | (Exit code, w) => (Exit code, w)
  end.

Section Probes.

Variable net : Network.

(** The body of the [try] of [_check_http]. *)
Definition _check_http_try (c : check) (w : pstate) : outcome bool * pstate :=
  match c !! "url" with
  | None => (Raise (KeyError "url"), w)
  | Some url =>
      let '(reply, dt) := http_get net url (now w) in
      let w1 := advance dt w in
      match reply with
      | HttpFail e => (Raise (TransportError e), w1)
      | HttpResponse status_code =>
          let expected := default (PInt 200) (c !! "expected_status") in
          (Ret (int_eq status_code expected), w1)
      end
  end.

Definition _check_http (c : check) (w : pstate) : outcome bool * pstate :=
  except_Exception_return_False (_check_http_try c w).

(** The body of the [try] of [_check_tcp]. *)
Definition _check_tcp_try (c : check) (w : pstate) : outcome bool * pstate :=
  match c !! "host" with
  | None => (Raise (KeyError "host"), w)
  | Some host =>
      match c !! "port" with
      | None => (Raise (KeyError "port"), w)
      | Some port =>
          let '(reply, dt) := tcp_connect_ex net host port (now w) in
          let w1 := advance dt w in
          match reply with
          | ConnectFail e => (Raise (TransportError e), w1)
          | ConnectResult result => (Ret (result =? 0), w1)
          end
      end
  end.

Definition _check_tcp (c : check) (w : pstate) : outcome bool * pstate :=
  except_Exception_return_False (_check_tcp_try c w).

(** One probe as the poller runs it; the result is recorded in the trace. *)
Definition probe (kind : probe_kind) (c : check) (w : pstate)
    : outcome bool * pstate :=
  match (match kind with Http => _check_http c w | Tcp => _check_tcp c w end) with
  | (Ret b, w1) => (Ret b, emit (EvProbe kind c b) w1)
  | r => r
  end.

(** Which branch of the [if]/[elif] of the poller a record takes: a record
    whose ["type"] is neither ["http"] nor ["tcp"] takes none. *)
Definition check_kind (c : check) : option probe_kind :=
  if str_eq (c !! "type") "http" then Some Http
  else if str_eq (c !! "type") "tcp" then Some Tcp
  else None.

(** The [for] loop of one round: [all_passed] and the state after it.  The
    [break] leaves the loop with [all_passed = False]. *)
Fixpoint run_round (health_checks : list check) (w : pstate)
    : outcome bool * pstate :=
  match health_checks with
  | [] => (Ret true, w)
  | c :: rest =>
      if str_eq (c !! "type") "http" then
        match probe Http c w with
        | (Ret true, w1) => run_round rest w1
        | (Ret false, w1) => (Ret false, w1)
        | r => r
        end
      else if str_eq (c !! "type") "tcp" then
        match probe Tcp c w with
        | (Ret true, w1) => run_round rest w1
        | (Ret false, w1) => (Ret false, w1)
        | r => r
        end
      else run_round rest w
  end.

(** The [while] loop.  [None] when [fuel] iterations were not enough. *)
Fixpoint poll (fuel : nat) (health_checks : list check) (timeout interval : Z)
    (start_time : Z) (w : pstate) : option (outcome bool * pstate) :=
  match fuel with
  | O => None
  | S fuel' =>
      if now w - start_time <? timeout then
        match run_round health_checks w with
        | (Ret true, w1) => Some (Ret true, w1)
        | (Ret false, w1) =>
            match sleep interval w1 with
            | (Ret _, w2) => poll fuel' health_checks timeout interval start_time w2
            | (Raise e, w2) => Some (Raise e, w2)
            | (Exit code, w2) => Some (Exit code, w2)
            end
        | r => Some r
        end
      else Some (Ret false, w)
  end.

Definition wait_for_health (fuel : nat) (health_checks : list check)
    (timeout interval : Z) (w : pstate) : option (outcome bool * pstate) :=
  let start_time := now w in
  poll fuel health_checks timeout interval start_time w.

End Probes.

(** *** Vocabulary of the statements about the poller *)

(** A record the poller does not probe: its ["type"] (absent, or any value)
    is neither ["http"] nor ["tcp"]. *)
Definition unrecognised (c : check) : Prop :=
  c !! "type" <> Some (PStr "http") /\ c !! "type" <> Some (PStr "tcp").

(** The records of a list that are probed, with the probe each one gets, in
    list order. *)
Definition recognised (health_checks : list check) : list (probe_kind * check) :=
  omap (fun c => (fun kind => (kind, c)) <$> check_kind c) health_checks.

Definition probe_event (kc : probe_kind * check) (passed : bool) : event :=
  EvProbe kc.1 kc.2 passed.

(** The events of a round in which the first [n] probed records pass and,
    unless [all_passed], the next one fails and ends the round. *)
Definition round_events (health_checks : list check) (n : nat)
    (all_passed : bool) : list event :=
  zip_with probe_event (recognised health_checks)
    (replicate n true ++ (if all_passed then [] else [false])).

Definition passed_round (health_checks : list check) (evs : list event) : Prop :=
  evs = round_events health_checks (length (recognised health_checks)) true.

Definition failed_round (health_checks : list check) (evs : list event) : Prop :=
  exists n, (n < length (recognised health_checks))%nat /\
            evs = round_events health_checks n false.

(** The lengths of the sleeps of a trace, oldest first. *)
Definition sleeps (tr : list event) : list Z :=
  omap (fun ev => match ev with EvSleep secs => Some secs | EvProbe _ _ _ => None end) tr.

(** The time one probe can take: what the network says for some request,
    or nothing when the record lacks a field and no request is made. *)
Definition is_latency (net : Network) (dt : Z) : Prop :=
  dt = 0 \/
  (exists url t, dt = (http_get net url t).2) \/
  (exists host port t, dt = (tcp_connect_ex net host port t).2).

(** Every probe answers after at least [lo] and at most [hi] ticks. *)
Definition latency_within (net : Network) (lo hi : Z) : Prop :=
  (forall url t, lo <= (http_get net url t).2 <= hi) /\
  (forall host port t, lo <= (tcp_connect_ex net host port t).2 <= hi).

(** No probe makes the clock go back. *)
Definition latency_nonneg (net : Network) : Prop :=
  (forall url t, 0 <= (http_get net url t).2) /\
  (forall host port t, 0 <= (tcp_connect_ex net host port t).2).

(** No round started at or after [from] and before [deadline] passes. *)
Definition never_ready (net : Network) (health_checks : list check)
    (from deadline : Z) : Prop :=
  forall w, from <= now w < deadline ->
            (run_round net health_checks w).1 = Ret false.

(** The timing property as the specification words it: when no round ever
    passes, the poller returns false after an elapsed time in [T, T+I). *)
Definition timeout_window_claim (net : Network) (health_checks : list check)
    (timeout interval : Z) (w : pstate) : Prop :=
  (forall w0, (run_round net health_checks w0).1 = Ret false) ->
  exists fuel w',
    wait_for_health net fuel health_checks timeout interval w
      = Some (Ret false, w') /\
    timeout <= now w' - now w < timeout + interval.

(** *** Sample networks and records *)

Definition tcp_check : check :=
  list_to_map [("type", PStr "tcp"); ("host", PStr "db"); ("port", PInt 5432)].

Definition http_check : check :=
  list_to_map [("type", PStr "http"); ("url", PStr "http://localhost:8080/health")].

Definition grpc_check : check :=
  list_to_map [("type", PStr "grpc"); ("host", PStr "db")].

(** Every connection is refused, after [latency] ticks. *)
Definition refusing (latency : Z) : Network :=
  {| http_get := fun _ _ => (HttpFail ConnectionRefused, latency);
     tcp_connect_ex := fun _ _ _ => (ConnectResult 111, latency) |}.

(** TCP connections started at [t_ready] or later succeed, earlier ones are
    refused; a probe started at [t] takes [latency t] ticks. *)
Definition listening_from (t_ready : Z) (latency : Z -> Z) : Network :=
  {| http_get := fun _ t => (HttpFail ConnectionRefused, latency t);
     tcp_connect_ex := fun _ _ t =>
       (ConnectResult (if t_ready <=? t then 0 else 111), latency t) |}.

(** Everything answers at once: HTTP with status 200, TCP with success. *)
Definition all_up : Network :=
  {| http_get := fun _ _ => (HttpResponse 200, 0);
     tcp_connect_ex := fun _ _ _ => (ConnectResult 0, 0) |}.

Definition at_time (t : Z) : pstate := {| now := t; trace := [] |}.

End Health.

(** ** The two backend classes: which methods they define *)

Module Backends.

(** A parameter of a method (after [self]) and whether it has a default. *)
Record param : Type := {
  p_name : string;
  p_has_default : bool
}.

Inductive ret_type : Type := RetInt | RetStr | RetBool | RetNone | RetPath | RetOther.

(** A signature: the parameters that take a positional or a keyword
    argument, whether [*args] follows them, and the parameters after it,
    which take a keyword only. *)
Record method : Type := {
  m_params : list param;
  m_varargs : bool;
  m_kwonly : list param;
  m_returns : ret_type
}.

Definition req (n : string) : param := {| p_name := n; p_has_default := false |}.
Definition opt (n : string) : param := {| p_name := n; p_has_default := true |}.

(** [def name(self, params) -> returns]. *)
Definition def (params : list param) (returns : ret_type) : method :=
  {| m_params := params; m_varargs := false; m_kwonly := [];
     m_returns := returns |}.

(** A class is the dictionary of the methods its body defines. *)
Abbreviation class := (gmap string method).

(** [class AnsibleRunner] of ansible_runner.py. *)
Definition AnsibleRunner : class :=
  list_to_map [
    ("__init__", def [opt "playbooks_dir"] RetNone);
    ("_find_playbooks_dir", def [] RetPath);
    ("_resolve_path", def [req "path"] RetStr);
    ("run_playbook",
      def [req "playbook"; opt "extra_vars"; opt "verbose"] RetInt);
    ("up",
      def [req "compose_file"; req "run_id"; req "health_checks";
           opt "timeout_secs"; opt "env_file"] RetInt);
    ("down",
      def [req "compose_file"; req "run_id"; opt "remove_volumes"] RetInt);
    ("collect_artifacts",
      def [req "compose_file"; req "run_id"; req "artifacts_dir";
           opt "services"] RetInt);
    ("status", def [req "compose_file"] RetInt)
  ].

(** [class DockerRunner] of docker_runner.py. *)
Definition DockerRunner : class :=
  list_to_map [
    ("__init__", def [req "compose_file"; req "run_id"] RetNone);
    ("_run_compose",
      {| m_params := []; m_varargs := true; m_kwonly := [opt "capture"];
         m_returns := RetOther |});
    ("up", def [] RetInt);
    ("down", def [opt "remove_volumes"] RetInt);
    ("ps", def [] RetStr);
    ("logs", def [opt "service"] RetStr);
    ("wait_for_health",
      def [req "health_checks"; opt "timeout"; opt "interval"] RetBool);
    ("_check_http", def [req "check"] RetBool);
    ("_check_tcp", def [req "check"] RetBool);
    ("collect_artifacts", def [req "artifacts_dir"; opt "services"] RetNone)
  ].

(** The operations the Environment Controller contract names. *)
Definition capability_set : list string :=
  ["up"; "down"; "status"; "logs"; "collect_artifacts"].

(** Attribute lookup on an instance: a missing method is an
    [AttributeError]. *)
Definition getattr (cls : class) (name : string) : outcome method :=
  match cls !! name with
  | Some m => Ret m
  | None => Raise (AttributeError name)
  end.

Definition provides (cls : class) (name : string) : bool :=
  bool_decide (is_Some (cls !! name)).

(** Whether the arguments of a call fit a signature.  The [nargs]
    positional arguments fill the first parameters (more of them need
    [*args]); each keyword has to name a parameter that is still open; and
    no parameter without default may stay open.  (A keyword is not written
    twice in one call.) *)
Definition binds (m : method) (nargs : nat) (kwargs : list string) : bool :=
  let open := drop nargs (m_params m) ++ m_kwonly m in
  (m_varargs m || bool_decide (nargs <= length (m_params m))%nat) &&
  forallb (fun k => bool_decide (k ∈ p_name <$> open)) kwargs &&
  forallb (fun p => p_has_default p || bool_decide (p_name p ∈ kwargs)) open.

(** [obj.name(a1, ..., an, k1=..., ...)]: [AttributeError] when the class
    has no such method, [TypeError] when the arguments do not fit its
    signature, else the kind of value returned. *)
Definition call (cls : class) (name : string) (nargs : nat)
    (kwargs : list string) : outcome ret_type :=
  match getattr cls name with
  | Ret m => if binds m nargs kwargs then Ret (m_returns m) else Raise TypeError
  | Raise e => Raise e
  | Exit code => Exit code
  end.

(** The calls that cli.py makes on its backend, from [AnsibleRunner()] on:
    the method, the number of positional arguments and the keywords. *)
Definition cli_calls : list (string * nat * list string) :=
  [ ("__init__", 0%nat, []);
    ("up", 0%nat,
     ["compose_file"; "run_id"; "health_checks"; "timeout_secs"; "env_file"]);
    ("collect_artifacts", 0%nat,
     ["compose_file"; "run_id"; "artifacts_dir"; "services"]);
    ("down", 2%nat, []);
    ("down", 0%nat, ["compose_file"; "run_id"; "remove_volumes"]);
    ("status", 1%nat, []) ].

(** The contract as the specification words it: each of the two classes
    provides every operation of the capability set. *)
Definition provides_capability_set (cls : class) : Prop :=
  forall op, op ∈ capability_set -> provides cls op = true.

Definition interchangeable_claim : Prop :=
  provides_capability_set AnsibleRunner /\ provides_capability_set DockerRunner.

(** The operations of the capability set that both classes define. *)
Definition shared_capabilities : list string :=
  filter (fun op => provides AnsibleRunner op && provides DockerRunner op = true)
    capability_set.

End Backends.

(** ** reporter.py: the result file and the run summary *)

Module Report.

(** *** The pieces of Python and of [xml.etree.ElementTree] that are used *)

#[global] Instance outcome_ret : MRet outcome := fun _ a => Ret a.
#[global] Instance outcome_bind : MBind outcome := fun _ _ f m =>
  match m with
  | Ret a => f a
  | Raise e => Raise e
  | Exit code => Exit code
  end.

(** An [Element]: tag, attribute dictionary, child elements in document
    order. *)
#[warnings="-register-all"]
Inductive Element : Type :=
  | Elem (tag : string) (attrib : gmap string string) (children : list Element).

Definition tag (e : Element) : string := let 'Elem t _ _ := e in t.
Definition attrib (e : Element) : gmap string string := let 'Elem _ a _ := e in a.
Definition children (e : Element) : list Element := let 'Elem _ _ c := e in c.

(** [e.findall(t)] for a plain tag [t]: the direct children with that tag. *)
Definition findall (e : Element) (t : string) : list Element :=
  filter (fun c => tag c = t) (children e).

(** [e.find(t)]: the first of them, or [None]. *)
Definition find (e : Element) (t : string) : option Element :=
  head (findall e t).

(** [e.get(key)]. *)
Definition get (e : Element) (key : string) : option string := attrib e !! key.

(** The truth value of an [Element] is that of [len(e)]: an element without
    children is false. *)
Definition truthy (e : Element) : bool :=
  match children e with [] => false | _ :: _ => true end.

(** [x or y] where [x] is the result of [find]. *)
Definition or_else (x : option Element) (y : Element) : Element :=
  match x with
  | Some e => if truthy e then e else y
  | None => y
  end.

(** White space in ASCII text.  [s.strip()] removes the characters for which
    [str.isspace] holds: tab to carriage return, the four separators 28 to
    31, and the space. *)
Definition is_space (a : ascii) : bool :=
  let n := Z.of_nat (nat_of_ascii a) in
  (9 <=? n) && (n <=? 13) || (28 <=? n) && (n <=? 32).

Fixpoint drop_spaces (l : list ascii) : list ascii :=
  match l with
  | a :: l' => if is_space a then drop_spaces l' else l
  | [] => []
  end.

Definition strip (l : list ascii) : list ascii :=
  rev (drop_spaces (rev (drop_spaces l))).

(** [int] skips less around a numeral: tab to carriage return and the
    space, not the separators 28 to 31. *)
Definition is_int_space (a : ascii) : bool :=
  let n := Z.of_nat (nat_of_ascii a) in
  (9 <=? n) && (n <=? 13) || (n =? 32).

Fixpoint drop_int_spaces (l : list ascii) : list ascii :=
  match l with
  | a :: l' => if is_int_space a then drop_int_spaces l' else l
  | [] => []
  end.

Definition int_strip (l : list ascii) : list ascii :=
  rev (drop_int_spaces (rev (drop_int_spaces l))).

Definition digit_of (a : ascii) : option Z :=
  let n := Z.of_nat (nat_of_ascii a) in
  if (48 <=? n) && (n <=? 57) then Some (n - 48) else None.

Fixpoint parse_digits (acc : Z) (after_digit : bool) (l : list ascii) : option Z :=
  match l with
  | [] => if after_digit then Some acc else None
  | a :: l' =>
      if bool_decide (a = "_"%char) then
        if after_digit then parse_digits acc false l' else None
      else
        match digit_of a with
        | Some d => parse_digits (10 * acc + d) true l'
        | None => None
        end
  end.

(** The integer a string [s] of ASCII characters denotes for [int]:
    surrounding white space, an optional sign, decimal digits, single
    underscores between digits.  This is [int(s)] as long as [s] has no more
    digits than the interpreter converts. *)
Definition py_int (s : string) : outcome Z :=
  let parsed :=
    match int_strip (list_ascii_of_string s) with
    | a :: l =>
        if bool_decide (a = "-"%char) then Z.opp <$> parse_digits 0 false l
        else if bool_decide (a = "+"%char) then parse_digits 0 false l
        else parse_digits 0 false (a :: l)
    | [] => None
    end in
  match parsed with
  | Some z => Ret z
  | None => Raise ValueError
  end.

(** [sys.int_info.default_max_str_digits]: the most digits, leading zeros
    included, that [int] converts. *)
Definition int_max_str_digits : nat := 4300.

Definition count_digits (s : string) : nat :=
  length (filter (fun a => is_Some (digit_of a)) (list_ascii_of_string s)).

(** [int(s)] as the interpreter runs it: a string with more digits than the
    limit is a [ValueError], like a string that is no numeral. *)
Definition py_int_checked (s : string) : outcome Z :=
  if (int_max_str_digits <? count_digits s)%nat then Raise ValueError
  else py_int s.

(** [int(e.get(key, 0))]. *)
Definition int_attr (e : Element) (key : string) : outcome Z :=
  match get e key with
  | Some s => py_int_checked s
  | None => Ret 0
  end.

(** [str(x)] inside an f-string, for [x] a string or [None]. *)
Definition format_opt (x : option string) : string :=
  match x with
  | Some s => s
  | None => "None"
  end.

(** [s[:n]]. *)
Definition slice_to (n : nat) (s : string) : string := substring 0 n s.

(** *** The data written and read *)

Record failure_entry : Type := {
  name : string;
  reason : string
}.

Record test_results : Type := {
  total : Z;
  passed : Z;
  failed : Z;
  failures : list failure_entry
}.

(** What is stored at [reports/junit.xml], when something is: a document
    that [ET.parse] accepts, or one that it rejects. *)
Inductive junit_file : Type :=
  | Document (root : Element)
  | Malformed.

Record Summary : Type := {
  s_run_id : string;
  timestamp : option Z;
  exit_code : Z;
  environment_bring_up_time_seconds : option Z;
  test_runtime_seconds : option Z;
  total_tests : Z;
  s_passed : Z;
  s_failed : Z;
  s_failures : list failure_entry
}.

Record Reporter : Type := {
  run_id : string;
  start_time : option Z;
  env_ready_time : option Z;
  test_end_time : option Z
}.

(** *** parse_junit_xml *)

(** The body of the [for testcase] loop: the list after this test case. *)
Definition add_failure (failures : list failure_entry) (testcase : Element)
    : list failure_entry :=
  let failure := find testcase "failure" in
  let error := find testcase "error" in
  if bool_decide (failure <> None) || bool_decide (error <> None) then
    let elem := if bool_decide (failure <> None) then failure else error in
    failures ++ [ {|
      name := format_opt (get testcase "classname") ++ "." ++
              format_opt (get testcase "name");
      reason := match elem with
                | Some el => slice_to 200 (default "" (get el "message"))
                | None => ""
                end |} ]
  else failures.

Definition parse_junit_xml (junit : option junit_file) : outcome test_results :=
  match junit with
  | None => Ret {| total := 0; passed := 0; failed := 0; failures := [] |}
  | Some Malformed => Raise ParseError
  | Some (Document root) =>
      let testsuite := or_else (find root "testsuite") root in
      total ← int_attr testsuite "tests";
      failures_count ← int_attr testsuite "failures";
      errors_count ← int_attr testsuite "errors";
      let failures := foldl add_failure [] (findall testsuite "testcase") in
      mret {| total := total;
              passed := total - failures_count - errors_count;
              failed := failures_count + errors_count;
              failures := failures |}
  end.

(** *** generate_summary *)

Definition generate_summary (self : Reporter) (junit : option junit_file)
    (exit_code : Z) : outcome Summary :=
  test_results ← parse_junit_xml junit;
  let env_time :=
    match start_time self, env_ready_time self with
    | Some t0, Some t1 => Some (t1 - t0)
    | _, _ => None
    end in
  let test_time :=
    match env_ready_time self, test_end_time self with
    | Some t1, Some t2 => Some (t2 - t1)
    | _, _ => None
    end in
  mret {| s_run_id := run_id self;
          timestamp := start_time self;
          exit_code := exit_code;
          environment_bring_up_time_seconds := env_time;
          test_runtime_seconds := test_time;
          total_tests := total test_results;
          s_passed := passed test_results;
          s_failed := failed test_results;
          s_failures := failures test_results |}.

(** *** Vocabulary of the statements about the report *)

(** The [failure] child of a test case, else its [error] child. *)
Definition failing_child (testcase : Element) : option Element :=
  match find testcase "failure" with
  | Some el => Some el
  | None => find testcase "error"
  end.

(** The entry the report holds for a test case with failing child [el]. *)
Definition entry_for (testcase el : Element) : failure_entry :=
  {| name := format_opt (get testcase "classname") ++ "." ++
             format_opt (get testcase "name");
     reason := slice_to 200 (default "" (get el "message")) |}.

(** A result file that [parse_junit_xml] reads without raising. *)
Definition readable (junit : option junit_file) : Prop :=
  exists r, parse_junit_xml junit = Ret r.

(** *** A sample result file: five tests, one failure, no error *)

Definition testcase_elem (classname name : string) (kids : list Element) : Element :=
  Elem "testcase" (list_to_map [("classname", classname); ("name", name)]) kids.

Definition sample_report : Element :=
  Elem "testsuites" ∅ [
    Elem "testsuite"
      (list_to_map [("name", "pytest"); ("tests", "5"); ("failures", "1");
                    ("errors", "0"); ("skipped", "0")])
      [ testcase_elem "tests.test_health" "test_health_ok" [];
        testcase_elem "tests.test_crud" "test_create_item" [];
        testcase_elem "tests.test_crud" "test_update_item"
          [Elem "failure" (list_to_map [("message", "assert 404 == 200")]) []];
        testcase_elem "tests.test_crud" "test_delete_item" [];
        testcase_elem "tests.test_negative" "test_not_found" [] ] ].

(** A suite element that declares counts but holds no test case. *)
Definition childless_suite_report : Element :=
  Elem "testsuites" ∅ [
    Elem "testsuite"
      (list_to_map [("tests", "5"); ("failures", "1"); ("errors", "0")]) [] ].

End Report.

(** ** cli.py: the [run] command *)

Module Workflow.

Import Report.

Inductive collect_mode : Type := on_fail | always.

#[global] Instance collect_mode_eq_dec : EqDecision collect_mode.
Proof. solve_decision. Defined.

(** The fields of [SpecConfig] that [run] reads. *)
Record SpecConfig : Type := {
  compose_file : string;
  health_checks : list Health.check;
  services : option (list string);
  timeout : Z;
  env_file : option string;
  artifacts_collect : collect_mode
}.

(** What the outside world answers during one run: the exit code of each
    external command and the time it takes, the token [uuid4] draws, and what
    the test engine leaves at [reports/junit.xml] given what was there. *)
Record Env : Type := {
  uuid_hex : string;
  up_exit : Z;
  up_secs : Z;
  test_exit : Z;
  test_secs : Z;
  test_junit : option junit_file -> option junit_file;
  collect_exit : Z;
  collect_secs : Z;
  down_exit : Z;
  down_secs : Z
}.

Inductive event : Type :=
  | EvUp (run_id : string) (timeout_secs : Z)
  | EvCollectArtifacts (run_id : string) (artifacts_dir : string)
  | EvTest (suite : string) (parallel : option Z)
  | EvWriteSummary (summary : Summary)
  | EvDown (run_id : string).

(** The clock, the calls made so far (oldest first), and the two files of
    the artifacts directory that the run reads or writes. *)
Record world : Type := {
  now : Z;
  trace : list event;
  junit_xml : option junit_file;
  summary_json : option Summary
}.

Definition M (A : Type) : Type := world -> outcome A * world.

#[global] Instance M_ret : MRet M := fun _ a w => (Ret a, w).
#[global] Instance M_bind : MBind M := fun _ _ f m w =>
  match m w with
  | (Ret a, w1) => f a w1
  | (Raise e, w1) => (Raise e, w1)
  | (Exit code, w1) => (Exit code, w1)
  end.

Definition emit (ev : event) : M unit := fun w =>
  (Ret tt, {| now := now w; trace := trace w ++ [ev];
              junit_xml := junit_xml w; summary_json := summary_json w |}).

Definition elapse (secs : Z) : M unit := fun w =>
  (Ret tt, {| now := now w + secs; trace := trace w;
              junit_xml := junit_xml w; summary_json := summary_json w |}).

Definition datetime_now : M Z := fun w => (Ret (now w), w).

(** [sys.exit(code)]. *)
Definition sys_exit {A : Type} (code : Z) : M A := fun w => (Exit code, w).

(** [uuid.uuid4().hex[:12]]. *)
Definition generate_run_id (env : Env) : M string :=
  mret (slice_to 12 (uuid_hex env)).

(** *** [pathlib] on a POSIX system *)

(** A pure path: its root (nothing, one slash, or two) and the parts after
    it. *)
Record PurePath : Type := {
  anchor : string;
  parts : list string
}.

(** [s.split("/")]; [cur] holds, last character first, the piece being
    read. *)
Fixpoint split_slash (cur : list ascii) (l : list ascii) : list string :=
  match l with
  | [] => [string_of_list_ascii (rev cur)]
  | a :: l' =>
      if bool_decide (a = "/"%char)
      then string_of_list_ascii (rev cur) :: split_slash [] l'
      else split_slash (a :: cur) l'
  end.

(** [s.lstrip("/")]. *)
Fixpoint lstrip_slash (l : list ascii) : list ascii :=
  match l with
  | a :: l' => if bool_decide (a = "/"%char) then lstrip_slash l' else l
  | [] => []
  end.

(** The root and the rest of a string: exactly two leading slashes are a
    root of their own, any other number of them is the root ["/"]. *)
Definition splitroot (s : string) : string * list ascii :=
  let l := list_ascii_of_string s in
  let stripped := lstrip_slash l in
  match (length l - length stripped)%nat with
  | O => ("", l)
  | S (S O) => ("//", stripped)
  | _ => ("/", stripped)
  end.

(** [Path(s)]: empty pieces and the pieces ["."] are dropped. *)
Definition Path (s : string) : PurePath :=
  let '(root, rel) := splitroot s in
  {| anchor := root;
     parts := filter (fun x => x <> "" /\ x <> ".") (split_slash [] rel) |}.

(** [p / key] for a string [key]: a [key] with a root replaces [p]. *)
Definition truediv (p : PurePath) (key : string) : PurePath :=
  let q := Path key in
  if bool_decide (anchor q = "") then
    {| anchor := anchor p; parts := parts p ++ parts q |}
  else q.

Fixpoint join_slash (pieces : list string) : string :=
  match pieces with
  | [] => ""
  | [piece] => piece
  | piece :: rest => piece +:+ "/" +:+ join_slash rest
  end.

(** [str(p)]: the path without root and parts is written ["."]. *)
Definition str_Path (p : PurePath) : string :=
  let s := anchor p +:+ join_slash (parts p) in
  if bool_decide (s = "") then "." else s.

(** [Path(artifacts_dir) if artifacts_dir else Path("artifacts") / run_id]:
    [None] and [""] are false. *)
Definition artifacts_path_of (artifacts_dir : option string) (run_id : string)
    : PurePath :=
  match artifacts_dir with
  | Some s =>
      if bool_decide (s = "") then truediv (Path "artifacts") run_id else Path s
  | None => truediv (Path "artifacts") run_id
  end.

(** [x or y] on an optional integer: [None] and [0] are false. *)
Definition int_or (x : option Z) (y : Z) : Z :=
  match x with
  | Some z => if z =? 0 then y else z
  | None => y
  end.

(** *** The collaborators, as the calls [run] makes on them *)

Definition mark_start (self : Reporter) : M Reporter :=
  t ← datetime_now;
  mret {| run_id := run_id self; start_time := Some t;
          env_ready_time := env_ready_time self;
          test_end_time := test_end_time self |}.

Definition mark_env_ready (self : Reporter) : M Reporter :=
  t ← datetime_now;
  mret {| run_id := run_id self; start_time := start_time self;
          env_ready_time := Some t;
          test_end_time := test_end_time self |}.

Definition mark_test_end (self : Reporter) : M Reporter :=
  t ← datetime_now;
  mret {| run_id := run_id self; start_time := start_time self;
          env_ready_time := env_ready_time self;
          test_end_time := Some t |}.

(** [Reporter.write_summary]: an exception of [generate_summary] leaves the
    file unwritten. *)
Definition write_summary (self : Reporter) (exit_code : Z) : M unit := fun w =>
  match generate_summary self (junit_xml w) exit_code with
  | Ret summary =>
      (Ret tt, {| now := now w; trace := trace w ++ [EvWriteSummary summary];
                  junit_xml := junit_xml w; summary_json := Some summary |})
  | Raise e => (Raise e, w)
  | Exit code => (Exit code, w)
  end.

(** [AnsibleRunner.up]: the exit code of the playbook [up.yml]. *)
Definition ansible_up (env : Env) (run_id : string) (timeout_secs : Z) : M Z :=
  _ ← emit (EvUp run_id timeout_secs);
  _ ← elapse (up_secs env);
  mret (up_exit env).

(** [AnsibleRunner.collect_artifacts]: the exit code of
    [collect_artifacts.yml]. *)
Definition ansible_collect_artifacts (env : Env) (run_id artifacts_dir : string)
    : M Z :=
  _ ← emit (EvCollectArtifacts run_id artifacts_dir);
  _ ← elapse (collect_secs env);
  mret (collect_exit env).

(** [AnsibleRunner.down]: the exit code of [down.yml]. *)
Definition ansible_down (env : Env) (run_id : string) : M Z :=
  _ ← emit (EvDown run_id);
  _ ← elapse (down_secs env);
  mret (down_exit env).

(** What pytest's [--junit-xml] does to [reports/junit.xml]. *)
Definition leave_junit (env : Env) : M unit := fun w =>
  (Ret tt, {| now := now w; trace := trace w;
              junit_xml := test_junit env (junit_xml w);
              summary_json := summary_json w |}).

(** [TestRunner.run]: the exit code of pytest, which leaves its result
    file. *)
Definition runner_run (env : Env) (suite : string) (parallel : option Z) : M Z :=
  _ ← emit (EvTest suite parallel);
  _ ← elapse (test_secs env);
  _ ← leave_junit env;
  mret (test_exit env).

(** *** run *)

(** The command [run] from its first line to its last, but for line 140,
    which types the health checks ahead of [up] and can raise: that step
    needs the models of config.py and is added in [Cli.run_command].  The
    directories that [run] and [write_summary] make on the way are not part
    of the world. *)
Definition run (env : Env) (config : SpecConfig) (suite : string)
    (parallel : option Z) (artifacts_dir : option string) (timeout : option Z)
    (keep_on_fail : bool) : M unit :=
  run_id ← generate_run_id env;
  let artifacts_path := artifacts_path_of artifacts_dir run_id in
  let reporter := {| run_id := run_id; start_time := None;
                     env_ready_time := None; test_end_time := None |} in
  reporter ← mark_start reporter;
  let final_exit_code := 0 in
  let should_teardown := true in
  (* Step 1: bring up environment *)
  up_exit ← ansible_up env run_id (int_or timeout (Workflow.timeout config));
  if negb (up_exit =? 0) then
    let final_exit_code := 2 in
    _ ← ansible_collect_artifacts env run_id (str_Path artifacts_path);
    _ ← write_summary reporter final_exit_code;
    _ ← (if negb keep_on_fail
         then _ ← ansible_down env run_id; mret tt
         else mret tt);
    sys_exit final_exit_code
  else
    reporter ← mark_env_ready reporter;
    (* Step 2: run tests *)
    test_exit ← runner_run env suite parallel;
    reporter ← mark_test_end reporter;
    let '(final_exit_code, should_teardown) :=
      if negb (test_exit =? 0)
      then (1, if keep_on_fail then false else should_teardown)
      else (final_exit_code, should_teardown) in
    (* Collect artifacts *)
    let collect_mode := artifacts_collect config in
    _ ← (if negb (final_exit_code =? 0) || bool_decide (collect_mode = always)
         then _ ← ansible_collect_artifacts env run_id (str_Path artifacts_path);
              mret tt
         else mret tt);
    (* Write summary *)
    _ ← write_summary reporter final_exit_code;
    (* Step 3: tear down *)
    _ ← (if should_teardown
         then _ ← ansible_down env run_id; mret tt
         else mret tt);
    sys_exit final_exit_code.

(** The world a run starts in: nothing called yet, no summary, and whatever
    the artifacts directory already holds as result file. *)
Definition initial_world (t0 : Z) (junit : option junit_file) : world :=
  {| now := t0; trace := []; junit_xml := junit; summary_json := None |}.

(** *** Vocabulary of the statements about [run] *)

Definition is_collect (ev : event) : bool :=
  match ev with EvCollectArtifacts _ _ => true | _ => false end.

Definition is_down (ev : event) : bool :=
  match ev with EvDown _ => true | _ => false end.

Definition calls_collect (tr : list event) : bool := existsb is_collect tr.
Definition calls_down (tr : list event) : bool := existsb is_down tr.

(** The summaries written, oldest first. *)
Definition summaries (tr : list event) : list Summary :=
  omap (fun ev => match ev with EvWriteSummary s => Some s | _ => None end) tr.

(** The result file as it is when [run] writes the summary: what the test
    engine left if the environment came up, what was there before if not. *)
Definition junit_at_summary (env : Env) (junit0 : option junit_file)
    : option junit_file :=
  if up_exit env =? 0 then test_junit env junit0 else junit0.

(** The same world, where [down] returns [code]. *)
Definition with_down_exit (code : Z) (env : Env) : Env :=
  {| uuid_hex := uuid_hex env;
     up_exit := up_exit env; up_secs := up_secs env;
     test_exit := test_exit env; test_secs := test_secs env;
     test_junit := test_junit env;
     collect_exit := collect_exit env; collect_secs := collect_secs env;
     down_exit := code; down_secs := down_secs env |}.

(** The environment-failure scenario as the specification words it: whatever
    the retention flag, exit code 2, artifacts collected, environment torn
    down, one summary without bring-up time and with no tests. *)
Definition env_failure_claim (env : Env) (config : SpecConfig) (suite : string)
    (parallel : option Z) (artifacts_dir : option string) (timeout : option Z)
    (keep_on_fail : bool) (t0 : Z) : Prop :=
  up_exit env <> 0 ->
  exists s w,
    run env config suite parallel artifacts_dir timeout keep_on_fail
        (initial_world t0 None)
      = (Exit 2, w) /\
    calls_collect (trace w) = true /\
    calls_down (trace w) = true /\
    summaries (trace w) = [s] /\
    exit_code s = 2 /\
    environment_bring_up_time_seconds s = None /\
    total_tests s = 0.

(** The test-failure scenario as the specification words it: teardown is
    skipped exactly when the retention flag is set, the artifacts are
    collected, and the summary, with exit code 1, is written. *)
Definition test_failure_claim (env : Env) (config : SpecConfig) (suite : string)
    (parallel : option Z) (artifacts_dir : option string) (timeout : option Z)
    (keep_on_fail : bool) (t0 : Z) (junit0 : option junit_file) : Prop :=
  up_exit env = 0 -> test_exit env <> 0 ->
  let w := (run env config suite parallel artifacts_dir timeout keep_on_fail
                (initial_world t0 junit0)).2 in
  (calls_down (trace w) = false <-> keep_on_fail = true) /\
  calls_collect (trace w) = true /\
  exists s, summaries (trace w) = [s] /\ exit_code s = 1.

(** The scenario of the passing run as the specification words it: with the
    policy [on_fail] nothing is collected, [down] is called, exit code 0. *)
Definition passing_run_claim (env : Env) (config : SpecConfig) (suite : string)
    (parallel : option Z) (artifacts_dir : option string) (timeout : option Z)
    (keep_on_fail : bool) (t0 : Z) (junit0 : option junit_file) : Prop :=
  up_exit env = 0 -> test_exit env = 0 -> artifacts_collect config = on_fail ->
  let r := run env config suite parallel artifacts_dir timeout keep_on_fail
               (initial_world t0 junit0) in
  calls_collect (trace r.2) = false /\
  calls_down (trace r.2) = true /\
  r.1 = Exit 0.

(** *** Sample runs *)

Definition sample_config (mode : collect_mode) : SpecConfig :=
  {| compose_file := "demo/docker-compose.yml";
     health_checks := [Health.http_check];
     services := None;
     timeout := 120;
     env_file := None;
     artifacts_collect := mode |}.

(** [up] returns [up_code], the tests return [test_code] and leave the
    sample report, [down] returns [down_code]. *)
Definition sample_env (up_code test_code down_code : Z) : Env :=
  {| uuid_hex := "3f2a9c0d7b1e4f568a9b0c1d2e3f4a5b";
     up_exit := up_code; up_secs := 30;
     test_exit := test_code; test_secs := 12;
     test_junit := fun _ => Some (Document sample_report);
     collect_exit := 0; collect_secs := 2;
     down_exit := down_code; down_secs := 5 |}.

(** The environment comes up, the tests return [test_code], and the test
    engine leaves a result file that is no XML document (one cut short, say). *)
Definition truncated_env (test_code : Z) : Env :=
  {| uuid_hex := "3f2a9c0d7b1e4f568a9b0c1d2e3f4a5b";
     up_exit := 0; up_secs := 30;
     test_exit := test_code; test_secs := 12;
     test_junit := fun _ => Some Malformed;
     collect_exit := 0; collect_secs := 2;
     down_exit := 0; down_secs := 5 |}.

End Workflow.

(** ** More vocabulary for the poller *)

Module PollerVocabulary.

Import Health.

(** Every round started at [t_ready] or later passes. *)
Definition ready_from (net : Network) (health_checks : list check)
    (t_ready : Z) : Prop :=
  forall w, t_ready <= now w -> (run_round net health_checks w).1 = Ret true.

(** The number of rounds of a completed run of the poller with [k] failed
    rounds: the passing round, when there is one, comes on top. *)
Definition rounds_run (k : nat) (result : bool) : Z :=
  Z.of_nat k + (if result then 1 else 0).

End PollerVocabulary.

(** ** More vocabulary for the report and for [run] *)

Module RunVocabulary.

Import Report Workflow.

(** The exit code [run] decides on from the two exit codes it looks at. *)
Definition decided_exit_code (env : Env) : Z :=
  if negb (up_exit env =? 0) then 2
  else if negb (test_exit env =? 0) then 1
  else 0.

(** Whether [run] collects the artifacts, and whether it tears down. *)
Definition collects (env : Env) (config : SpecConfig) : bool :=
  negb (decided_exit_code env =? 0) || bool_decide (artifacts_collect config = always).

Definition tears_down (env : Env) (keep_on_fail : bool) : bool :=
  negb (keep_on_fail && negb (decided_exit_code env =? 0)).

(** The time the calls of a run take, one after the other. *)
Definition run_duration (env : Env) (config : SpecConfig) (keep_on_fail : bool) : Z :=
  up_secs env
  + (if up_exit env =? 0 then test_secs env else 0)
  + (if collects env config then collect_secs env else 0)
  + (if tears_down env keep_on_fail then down_secs env else 0).



End RunVocabulary.

(** ** runner.py: the command line of the test engine *)

Module Runner.

Import Report.

(** A [pathlib.Path], as its parts; [p / name] for a plain [name] adds a
    part. *)
Abbreviation path := (list string).

Definition joinpath (p : path) (name : string) : path := p ++ [name].

Fixpoint join_parts (parts : list string) : string :=
  match parts with
  | [] => ""
  | [part] => part
  | part :: rest => part +:+ "/" +:+ join_parts rest
  end.

(** [str(p)]: the parts joined by slashes, after the root if there is one;
    the path without parts is the current directory. *)
Definition str_path (p : path) : string :=
  match p with
  | [] => "."
  | "/" :: rest => "/" +:+ join_parts rest
  | _ => join_parts p
  end.

(** [str(n)] for an integer: the decimal digits, most significant first,
    after a minus sign when [n] is negative. *)
Definition digit_char (d : Z) : ascii := ascii_of_nat (Z.to_nat (48 + d)).

Fixpoint digits_of (fuel : nat) (n : Z) (acc : list ascii) : list ascii :=
  match fuel with
  | O => acc
  | S fuel' =>
      let acc' := digit_char (n mod 10) :: acc in
      if n <? 10 then acc' else digits_of fuel' (n / 10) acc'
  end.

Definition str_int (n : Z) : string :=
  if n <? 0
  then string_of_list_ascii ("-"%char :: digits_of (S (Z.to_nat (- n))) (- n) [])
  else string_of_list_ascii (digits_of (S (Z.to_nat n)) n []).

(** The characters [str] writes for the digits. *)
Definition is_digit_char (c : ascii) : Prop :=
  exists d, 0 <= d < 10 /\ c = digit_char d.

(** The fields [__init__] sets: [artifacts_dir or Path("artifacts")] (a
    [Path] is never false). *)
Record TestRunner : Type := {
  suite : string;
  parallel : option Z;
  artifacts_dir : path
}.

Definition TestRunner_init (suite : string) (parallel : option Z)
    (artifacts_dir : option path) : TestRunner :=
  {| suite := suite; parallel := parallel;
     artifacts_dir := default ["artifacts"] artifacts_dir |}.

(** Where the result file is: the same expression in
    [TestRunner.build_pytest_args] and in [Reporter.parse_junit_xml]. *)
Definition junit_path (artifacts_dir : path) : path :=
  joinpath (joinpath artifacts_dir "reports") "junit.xml".

(** [build_pytest_args], as the list it returns (on the way it creates the
    directory of the result file); [executable] is [sys.executable]. *)
Definition build_pytest_args (executable : string) (self : TestRunner)
    (test_path : string) : list string :=
  let args := [executable; "-m"; "pytest"; test_path; "-v"] in
  (* Suite selection via markers *)
  let args :=
    if negb (bool_decide (suite self = "")) && negb (bool_decide (suite self = "all"))
    then args ++ ["-m"; suite self] else args in
  (* Parallel execution *)
  let args :=
    match parallel self with
    | Some n => if negb (n =? 0) && (1 <? n) then args ++ ["-n"; str_int n] else args
    | None => args
    end in
  (* JUnit XML output *)
  args ++ ["--junit-xml"; str_path (junit_path (artifacts_dir self))].

(** A suite element with the three counts written by [str]. *)
Definition counted_suite (t f e : Z) (testcases : list Element) : Element :=
  Elem "testsuite"
    (list_to_map [("tests", str_int t); ("failures", str_int f);
                  ("errors", str_int e)])
    testcases.

(** A count attribute as the test engine writes it: the numeral of [n], or
    no attribute at all when [n] is 0. *)
Definition count_attr (e : Element) (key : string) (n : Z) : Prop :=
  get e key = Some (str_int n) \/ (get e key = None /\ n = 0).

End Runner.

(** ** config.py: the typed health checks *)

Module Config.

Import Health.

(** [HttpHealthCheck] and [TcpHealthCheck]; the [type] field of each can hold
    one value only and is not stored. *)
Record HttpHealthCheck : Type := {
  url : string;
  expected_status : Z
}.

Record TcpHealthCheck : Type := {
  host : string;
  port : Z
}.

Inductive HealthCheck : Type :=
  | HttpModel (c : HttpHealthCheck)
  | TcpModel (c : TcpHealthCheck).

(** How pydantic turns an input into the value of a [str] or of an [int]
    field, [None] when it rejects the input.  Which inputs it converts
    depends on its version and mode and is left open. *)
Record Pydantic : Type := {
  validate_str : pyval -> option string;
  validate_int : pyval -> option Z
}.

Section Models.

Variable pydantic : Pydantic.

(** A field [type: Literal[lit] = lit]: absent, or exactly that string. *)
Definition literal_ok (input : option pyval) (lit : string) : bool :=
  match input with
  | None => true
  | Some v => bool_decide (v = PStr lit)
  end.

(** A required field. *)
Definition required {A : Type} (validate : pyval -> option A)
    (input : option pyval) : option A :=
  match input with
  | Some v => validate v
  | None => None
  end.

(** A field with a default. *)
Definition optional {A : Type} (validate : pyval -> option A) (dflt : A)
    (input : option pyval) : option A :=
  match input with
  | Some v => validate v
  | None => Some dflt
  end.

(** The constructor of [HttpHealthCheck] on the entries of the record: keys
    that are no field are ignored; a [ValidationError] is a [ValueError].
    The keys of a record are strings here; with a key that is none, which
    YAML can deliver, unpacking the record into the keywords of the call is
    a [TypeError] before pydantic sees anything, and that is outside this
    model. *)
Definition HttpHealthCheck_init (check : check) : outcome HttpHealthCheck :=
  match literal_ok (check !! "type") "http",
        required (validate_str pydantic) (check !! "url"),
        optional (validate_int pydantic) 200 (check !! "expected_status") with
  | true, Some u, Some s => Ret {| url := u; expected_status := s |}
  | _, _, _ => Raise ValueError
  end.

(** The constructor of [TcpHealthCheck] on the entries of the record. *)
Definition TcpHealthCheck_init (check : check) : outcome TcpHealthCheck :=
  match literal_ok (check !! "type") "tcp",
        required (validate_str pydantic) (check !! "host"),
        required (validate_int pydantic) (check !! "port") with
  | true, Some h, Some p => Ret {| host := h; port := p |}
  | _, _, _ => Raise ValueError
  end.

(** The loop of [get_health_checks]: [checks] is the list built so far. *)
Fixpoint get_health_checks_from (health_checks : list check)
    (checks : list HealthCheck) : outcome (list HealthCheck) :=
  match health_checks with
  | [] => Ret checks
  | check :: rest =>
      if str_eq (check !! "type") "tcp" then
        match TcpHealthCheck_init check with
        | Ret c => get_health_checks_from rest (checks ++ [TcpModel c])
        | Raise e => Raise e
        | Exit code => Exit code
        end
      else
        match HttpHealthCheck_init check with
        | Ret c => get_health_checks_from rest (checks ++ [HttpModel c])
        | Raise e => Raise e
        | Exit code => Exit code
        end
  end.

Definition get_health_checks (health_checks : list check)
    : outcome (list HealthCheck) :=
  get_health_checks_from health_checks [].

End Models.

(** [c.model_dump()]. *)
Definition model_dump (c : HealthCheck) : check :=
  match c with
  | HttpModel h =>
      list_to_map [("type", PStr "http"); ("url", PStr (url h));
                   ("expected_status", PInt (expected_status h))]
  | TcpModel t =>
      list_to_map [("type", PStr "tcp"); ("host", PStr (host t));
                   ("port", PInt (port t))]
  end.

(** [[c.model_dump() for c in config.get_health_checks()]], as the commands
    [up] and [run] compute it. *)
Definition dump_health_checks (pydantic : Pydantic) (health_checks : list check)
    : outcome (list check) :=
  match get_health_checks pydantic health_checks with
  | Ret checks => Ret (model_dump <$> checks)
  | Raise e => Raise e
  | Exit code => Exit code
  end.

(** A record that is complete for the probe it gets: the poller knows its
    type and the fields the probe reads are there. *)
Definition complete (c : check) : Prop :=
  (check_kind c = Some Http /\ is_Some (c !! "url")) \/
  (check_kind c = Some Tcp /\ is_Some (c !! "host") /\ is_Some (c !! "port")).

(** A record that no conversion of field values can make valid: a type
    that is neither ["http"] nor ["tcp"], a TCP record without host or port,
    another record without URL. *)
Definition hopeless (c : check) : Prop :=
  (exists v, c !! "type" = Some v /\ v <> PStr "http" /\ v <> PStr "tcp") \/
  (c !! "type" = Some (PStr "tcp") /\ (c !! "host" = None \/ c !! "port" = None)) \/
  (c !! "type" <> Some (PStr "tcp") /\ c !! "url" = None).

(** A validation that takes strings and integers as they are and rejects
    everything else. *)
Definition strict : Pydantic :=
  {| validate_str := fun v => match v with PStr s => Some s | _ => None end;
     validate_int := fun v => match v with PInt z => Some z | _ => None end |}.

End Config.

(** ** cli.py: the other commands *)

Module Cli.

Import Report Workflow Config.

(** An [outcome] computed without touching the world. *)
Definition lift {A : Type} (o : outcome A) : M A := fun w => (o, w).

(** The command [up]. *)
Definition up (pydantic : Pydantic) (env : Env) (config : SpecConfig)
    (timeout : option Z) : M unit :=
  run_id ← generate_run_id env;
  health_checks ← lift (dump_health_checks pydantic (health_checks config));
  exit_code ← ansible_up env run_id (int_or timeout (Workflow.timeout config));
  sys_exit exit_code.

(** The command [test]. *)
Definition test (env : Env) (suite : string) (parallel : option Z) : M unit :=
  run_id ← generate_run_id env;
  exit_code ← runner_run env suite parallel;
  sys_exit exit_code.

(** The command [down]: the run id is the fixed string ["cleanup"] (the flag
    for the volumes goes to the playbook and is not part of the model). *)
Definition down (env : Env) (config : SpecConfig) : M unit :=
  exit_code ← ansible_down env "cleanup";
  sys_exit exit_code.

(** The command [run] from its first line: the health checks are typed
    (which may raise) after the start is marked and before [up] is called;
    nothing has been called by then, and the rest is [Workflow.run]. *)
Definition run_command (pydantic : Pydantic) (env : Env) (config : SpecConfig)
    (suite : string) (parallel : option Z) (artifacts_dir : option string)
    (timeout : option Z) (keep_on_fail : bool) : M unit :=
  health_checks ← lift (dump_health_checks pydantic (health_checks config));
  run env config suite parallel artifacts_dir timeout keep_on_fail.

(** The claim about the summary as the specification words it: on every
    path of the command the summary is written exactly once. *)
Definition summary_once_claim (pydantic : Pydantic) (env : Env)
    (config : SpecConfig) (suite : string) (parallel : option Z)
    (artifacts_dir : option string) (timeout : option Z) (keep_on_fail : bool)
    (t0 : Z) (junit0 : option junit_file) : Prop :=
  exists s,
    summaries
      (trace (run_command pydantic env config suite parallel artifacts_dir
                timeout keep_on_fail (initial_world t0 junit0)).2)
    = [s].

(** A configuration with a health check of a type that does not exist. *)
Definition grpc_config : SpecConfig :=
  {| compose_file := "demo/docker-compose.yml";
     health_checks := [Health.http_check; Health.grpc_check];
     services := None;
     timeout := 120;
     env_file := None;
     artifacts_collect := on_fail |}.

End Cli.

(** ** ansible_runner.py: where the playbooks are *)

Module Ansible.

Import Runner.

(** [p.parent]: the root and the empty path are their own parent. *)
Definition parent (p : path) : path :=
  match p with
  | ["/"] => p
  | _ => removelast p
  end.

(** The [for] loop of [_find_playbooks_dir]: the first candidate that
    exists. *)
Fixpoint first_existing (exists_ : path -> bool) (candidates : list path)
    : option path :=
  match candidates with
  | [] => None
  | candidate :: rest =>
      if exists_ candidate then Some candidate
      else first_existing exists_ rest
  end.

Definition playbook_candidates (pkg_dir cwd : path) : list path :=
  [ joinpath pkg_dir "playbooks";
    joinpath (parent (parent pkg_dir)) "playbooks";
    joinpath cwd "playbooks" ].

(** [_find_playbooks_dir]; [pkg_dir] is the directory of the module,
    [exists_] what [Path.exists] answers. *)
Definition _find_playbooks_dir (exists_ : path -> bool) (pkg_dir cwd : path)
    : path :=
  match first_existing exists_ (playbook_candidates pkg_dir cwd) with
  | Some candidate => candidate
  | None => joinpath cwd "playbooks"
  end.

End Ansible.

(** ** docker_runner.py: the compose commands and the artifact tree *)

Module Docker.

Import Report Runner.

Record CompletedProcess : Type := {
  returncode : Z;
  stdout : string;
  stderr : string
}.

(** What [subprocess.run] answers to a command line. *)
Abbreviation Shell := (list string -> CompletedProcess).

Record DockerRunner : Type := {
  compose_file : string;
  run_id : string;
  project_name : string
}.

Definition DockerRunner_init (compose_file run_id : string) : DockerRunner :=
  {| compose_file := compose_file; run_id := run_id;
     project_name := "autoe2e-" +:+ run_id |}.

(** The command line [_run_compose] builds. *)
Definition compose_cmd (self : DockerRunner) (args : list string) : list string :=
  ["docker"; "compose"; "-f"; compose_file self; "-p"; project_name self] ++ args.

Definition _run_compose (sh : Shell) (self : DockerRunner) (args : list string)
    : CompletedProcess :=
  sh (compose_cmd self args).

Definition up_args : list string := ["up"; "-d"; "--build"; "--wait"].

Definition down_args (remove_volumes : bool) : list string :=
  let args := ["down"; "--remove-orphans"] in
  if remove_volumes then args ++ ["--volumes"] else args.

Definition ps_args : list string := ["ps"; "-a"].

Definition logs_args (service : option string) : list string :=
  let args := ["logs"; "--no-color"] in
  match service with
  | Some s => if bool_decide (s = "") then args else args ++ [s]
  | None => args
  end.

Definition up (sh : Shell) (self : DockerRunner) : Z :=
  returncode (_run_compose sh self up_args).

Definition down (sh : Shell) (self : DockerRunner) (remove_volumes : bool) : Z :=
  returncode (_run_compose sh self (down_args remove_volumes)).

Definition ps (sh : Shell) (self : DockerRunner) : string :=
  stdout (_run_compose sh self ps_args).

Definition logs (sh : Shell) (self : DockerRunner) (service : option string)
    : string :=
  let result := _run_compose sh self (logs_args service) in
  stdout result +:+ stderr result.

(** *** The file system, as far as [collect_artifacts] uses it *)

(** A JSON value, as [json.loads] returns it. *)
#[warnings="-register-all"]
Inductive json : Type :=
  | JNull
  | JBool (b : bool)
  | JNumber (z : Z)
  | JString (s : string)
  | JArray (items : list json)
  | JObject (members : list (string * json)).

(** The dictionary [metadata]; [docker_version] is the parsed output of
    [docker version], or its text when that is no JSON. *)
Record metadata : Type := {
  m_run_id : string;
  collected_at : Z;
  compose_version : string;
  docker_version : json + string
}.

(** What a file holds: text, or the JSON dump of a [metadata]. *)
Inductive content : Type :=
  | Text (s : string)
  | MetadataJson (m : metadata).

Inductive node : Type :=
  | Dir
  | File (c : content).

(** The paths that exist.  The current directory (the path without parts)
    and the root are directories that always exist. *)
Abbreviation fs := (gmap path node).

Inductive os_error : Type :=
  | FileNotFoundError
  | FileExistsError
  | NotADirectoryError
  | IsADirectoryError
  | SameFileError.

Definition is_dir (t : fs) (p : path) : bool :=
  bool_decide (p = []) || bool_decide (p = ["/"]) ||
  match t !! p with Some Dir => true | _ => false end.

(** [p.mkdir(parents=True, exist_ok=True)], on the ancestors of [p] from the
    outermost one: [done] is the part of the path already handled.  A file in
    the way is an error: [FileExistsError] at [p] itself,
    [NotADirectoryError] above it. *)
Fixpoint mkdir_from (done todo : path) (t : fs) : os_error + fs :=
  match todo with
  | [] => inr t
  | part :: rest =>
      let p := done ++ [part] in
      if is_dir t p then mkdir_from p rest t
      else
        match t !! p with
        | Some _ =>
            inl (match rest with [] => FileExistsError | _ => NotADirectoryError end)
        | None => mkdir_from p rest (<[p := Dir]> t)
        end
  end.

Definition mkdir_parents (p : path) (t : fs) : os_error + fs :=
  mkdir_from [] p t.

(** The error of opening a path [todo] below [done] that is not there: on
    the way down from [done], a regular file where a directory has to be is
    a [NotADirectoryError], a name that is missing a [FileNotFoundError]. *)
Fixpoint missing_from (done todo : path) (t : fs) : os_error :=
  match todo with
  | [] => FileNotFoundError
  | [_] => FileNotFoundError
  | part :: rest =>
      let p := done ++ [part] in
      match t !! p with
      | Some (File _) => NotADirectoryError
      | Some Dir => missing_from p rest t
      | None => if is_dir t p then missing_from p rest t else FileNotFoundError
      end
  end.

(** [p.write_text(s)] and the like: the directory of [p] must be there, and
    [p] must not be a directory. *)
Definition write_file (p : path) (c : content) (t : fs) : os_error + fs :=
  if negb (is_dir t (removelast p)) then inl (missing_from [] p t)
  else if is_dir t p then inl IsADirectoryError
  else inr (<[p := File c]> t).

(** [shutil.copy(src, dst)] for a [dst] that names the new file. *)
Definition copy_file (src dst : path) (t : fs) : os_error + fs :=
  match t !! src with
  | Some (File c) =>
      if bool_decide (src = dst) then inl SameFileError
      else if is_dir t dst then
        write_file (dst ++ [List.last src ""]) c t
      else write_file dst c t
  | Some Dir => inl IsADirectoryError
  | None =>
      if is_dir t src then inl IsADirectoryError
      else inl (missing_from [] src t)
  end.

(** A computation on the file system that stops at the first error, with the
    file system as it is then. *)
Definition F (A : Type) : Type := fs -> (os_error + A) * fs.

#[global] Instance F_ret : MRet F := fun _ a t => (inr a, t).
#[global] Instance F_bind : MBind F := fun _ _ f m t =>
  match m t with
  | (inr a, t1) => f a t1
  | (inl e, t1) => (inl e, t1)
  end.

(** An operation that changes the file system or fails without changing
    it. *)
Definition change (op : fs -> os_error + fs) : F unit := fun t =>
  match op t with
  | inr t1 => (inr tt, t1)
  | inl e => (inl e, t)
  end.

(** *** collect_artifacts *)

Section Collect.

(** The commands, [json.loads] ([None] when it raises), how [Path] splits
    the name of the compose file, and the time of [datetime.now()]. *)
Variable sh : Shell.
Variable json_loads : string -> option json.
Variable Path_of : string -> path.
Variable datetime_now : Z.

(** [s.strip()]. *)
Definition str_strip (s : string) : string :=
  string_of_list_ascii (strip (list_ascii_of_string s)).

Definition collect_artifacts (self : DockerRunner) (artifacts_dir : path)
    (services : option (list string)) : F unit :=
  (* Create directories *)
  _ ← change (mkdir_parents (joinpath artifacts_dir "logs"));
  _ ← change (mkdir_parents (joinpath artifacts_dir "reports"));
  _ ← change (mkdir_parents (joinpath artifacts_dir "env"));
  _ ← change (mkdir_parents (joinpath artifacts_dir "compose"));
  (* Collect logs *)
  let logs := logs sh self None in
  _ ← change (write_file (joinpath (joinpath artifacts_dir "logs") "all.log")
                (Text logs));
  (* Copy compose file *)
  _ ← change (copy_file (Path_of (compose_file self))
                (joinpath (joinpath artifacts_dir "compose") "docker-compose.yml"));
  (* Container states *)
  let ps_output := ps sh self in
  _ ← change (write_file
                (joinpath (joinpath artifacts_dir "env") "container_states.txt")
                (Text ps_output));
  (* Docker versions *)
  let docker_version := sh ["docker"; "version"; "--format"; "json"] in
  let compose_version := sh ["docker"; "compose"; "version"; "--short"] in
  let metadata :=
    {| m_run_id := run_id self;
       collected_at := datetime_now;
       compose_version := str_strip (stdout compose_version);
       docker_version :=
         match json_loads (stdout docker_version) with
         | Some j => inl j
         | None => inr (str_strip (stdout docker_version))
         end |} in
  change (write_file (joinpath (joinpath artifacts_dir "env") "metadata.json")
            (MetadataJson metadata)).

End Collect.

(** *** Vocabulary of the statements about the artifact tree *)

(** The four files of the tree. *)
Definition artifact_files (artifacts_dir : path) : list path :=
  [ artifacts_dir ++ ["logs"; "all.log"];
    artifacts_dir ++ ["compose"; "docker-compose.yml"];
    artifacts_dir ++ ["env"; "container_states.txt"];
    artifacts_dir ++ ["env"; "metadata.json"] ].

(** The four directories of the tree. *)
Definition artifact_dirs (artifacts_dir : path) : list path :=
  [ artifacts_dir ++ ["logs"]; artifacts_dir ++ ["reports"];
    artifacts_dir ++ ["env"]; artifacts_dir ++ ["compose"] ].

(** Nothing is in the way of the tree: no file where a directory of the tree
    or one above it has to be, no directory where a file of the tree has to
    be. *)
Definition tree_free (t : fs) (artifacts_dir : path) : Prop :=
  (forall d q, d ∈ artifact_dirs artifacts_dir -> q `prefix_of` d ->
               forall c, t !! q <> Some (File c)) /\
  (forall f, f ∈ artifact_files artifacts_dir -> is_dir t f = false).

(** [t'] is [t] with some directories added at [allowed] paths: what was
    there stays, and nothing else is new. *)
Definition grows (t t' : fs) (allowed : path -> Prop) : Prop :=
  (forall q n, t !! q = Some n -> t' !! q = Some n) /\
  (forall q n, t' !! q = Some n -> t !! q = Some n \/ (n = Dir /\ allowed q)).

(** The paths at or above a directory of the tree. *)
Definition tree_dir (artifacts_dir : path) (q : path) : Prop :=
  exists d, d ∈ artifact_dirs artifacts_dir /\ q `prefix_of` d.

(** The tree as [collect_artifacts] leaves it on top of [t]. *)
Definition with_artifacts (artifacts_dir : path) (log compose states meta : content)
    (t : fs) : fs :=
  <[artifacts_dir ++ ["env"; "metadata.json"] := File meta]>
  (<[artifacts_dir ++ ["env"; "container_states.txt"] := File states]>
   (<[artifacts_dir ++ ["compose"; "docker-compose.yml"] := File compose]>
    (<[artifacts_dir ++ ["logs"; "all.log"] := File log]> t))).

(** The metadata written. *)
Definition metadata_of (sh : Shell) (json_loads : string -> option json)
    (datetime_now : Z) (self : DockerRunner) : metadata :=
  {| m_run_id := run_id self;
     collected_at := datetime_now;
     compose_version :=
       str_strip (stdout (sh ["docker"; "compose"; "version"; "--short"]));
     docker_version :=
       match json_loads (stdout (sh ["docker"; "version"; "--format"; "json"])) with
       | Some j => inl j
       | None => inr (str_strip (stdout (sh ["docker"; "version"; "--format"; "json"])))
       end |}.

(** *** A sample *)

Definition sample_shell : Shell := fun cmd =>
  {| returncode := 0;
     stdout := "out of " +:+ List.last cmd "";
     stderr := "" |}.

Definition sample_runner : DockerRunner :=
  DockerRunner_init "docker-compose.yml" "3f2a9c0d7b1e".

Definition sample_fs : fs :=
  list_to_map [ (["docker-compose.yml"], File (Text "services: {}"));
                (["artifacts"], Dir);
                (["artifacts"; "reports"], Dir);
                (["artifacts"; "reports"; "junit.xml"], File (Text "<testsuites/>")) ].

Definition sample_path_of (s : string) : path := [s].

End Docker.


(** ** Facts about the poller *)

Module HealthFacts.
Import Health.

Section Poller.

Variable net : Network.

Lemma check_http_returns c w :
  exists b w1, _check_http net c w = (Ret b, w1) /\ trace w1 = trace w /\
               exists dt, now w1 = now w + dt /\ is_latency net dt.
Proof.
  unfold _check_http, _check_http_try.
  destruct (c !! "url") as [url|]; cbn.
  - destruct (http_get net url (now w)) as [reply dt] eqn:Hget.
    assert (Hdt : is_latency net dt).
    { right; left. exists url, (now w). by rewrite Hget. }
    destruct reply; cbn; eauto 10.
  - exists false, w. repeat split. exists 0. split; [lia | by left].
Qed.

Lemma check_tcp_returns c w :
  exists b w1, _check_tcp net c w = (Ret b, w1) /\ trace w1 = trace w /\
               exists dt, now w1 = now w + dt /\ is_latency net dt.
Proof.
  assert (Hz : is_latency net 0) by (by left).
  unfold _check_tcp, _check_tcp_try.
  destruct (c !! "host") as [host|]; cbn.
  - destruct (c !! "port") as [port|]; cbn.
    + destruct (tcp_connect_ex net host port (now w)) as [reply dt] eqn:Hget.
      assert (Hdt : is_latency net dt).
      { right; right. exists host, port, (now w). by rewrite Hget. }
      destruct reply; cbn; eauto 10.
    + exists false, w. repeat split. exists 0. split; [lia | done].
  - exists false, w. repeat split. exists 0. split; [lia | done].
Qed.

Lemma probe_returns kind c w :
  exists b w1, probe net kind c w = (Ret b, emit (EvProbe kind c b) w1) /\
               trace w1 = trace w /\
               exists dt, now w1 = now w + dt /\ is_latency net dt.
Proof.
  unfold probe.
  destruct kind;
    [destruct (check_http_returns c w) as (b & w1 & -> & Ht & Hn)
    |destruct (check_tcp_returns c w) as (b & w1 & -> & Ht & Hn)];
    exists b, w1; auto.
Qed.

Lemma run_round_cons c rest w :
  run_round net (c :: rest) w =
    match check_kind c with
    | Some kind =>
        match probe net kind c w with
        | (Ret true, w1) => run_round net rest w1
        | (Ret false, w1) => (Ret false, w1)
        | r => r
        end
    | None => run_round net rest w
    end.
Proof.
  unfold check_kind. cbn [run_round].
  destruct (str_eq (c !! "type") "http"); [done|].
  by destruct (str_eq (c !! "type") "tcp").
Qed.

Lemma recognised_cons c rest :
  recognised (c :: rest) =
    match check_kind c with
    | Some kind => (kind, c) :: recognised rest
    | None => recognised rest
    end.
Proof. unfold recognised. cbn. by destruct (check_kind c). Qed.

(** A round never raises; its events are the probes of the recognised
    records, in order, up to the first one that fails. *)
Lemma run_round_events checks : forall w,
  exists ok w' n,
    run_round net checks w = (Ret ok, w') /\
    trace w' = trace w ++ round_events checks n ok /\
    (if ok then n = length (recognised checks)
     else (n < length (recognised checks))%nat).
Proof.
  induction checks as [|c rest IH]; intros w.
  - exists true, w, 0%nat. cbn. by rewrite app_nil_r.
  - rewrite run_round_cons. unfold round_events. rewrite recognised_cons.
    destruct (check_kind c) as [kind|].
    + destruct (probe_returns kind c w) as (b & w1 & -> & Ht & _).
      destruct b.
      * destruct (IH (emit (EvProbe kind c true) w1)) as (ok & w' & n & -> & Htr & Hn).
        exists ok, w', (S n). split; [done|]. split.
        -- rewrite Htr. cbn. rewrite Ht, <- app_assoc. reflexivity.
        -- destruct ok; cbn; lia.
      * exists false, (emit (EvProbe kind c false) w1), 0%nat.
        split; [done|]. cbn. rewrite Ht, zip_with_nil_r. split; [reflexivity | lia].
    + apply IH.
Qed.


(** The clock during a round. *)
Lemma run_round_clock_lower checks : forall w,
  latency_nonneg net -> now w <= now (run_round net checks w).2.
Proof.
  intros w [Hh Ht]. revert w.
  assert (Hlat : forall dt, is_latency net dt -> 0 <= dt).
  { intros dt [->|[(url & t & ->)|(host & port & t & ->)]]; [lia|apply Hh|apply Ht]. }
  induction checks as [|c rest IH]; intros w; [cbn; lia|].
  rewrite run_round_cons. destruct (check_kind c) as [kind|]; [|apply IH].
  destruct (probe_returns kind c w) as (b & w1 & -> & _ & dt & Hn & Hdt).
  apply Hlat in Hdt.
  destruct b; cbn.
  - specialize (IH (emit (EvProbe kind c true) w1)). cbn in IH. lia.
  - lia.
Qed.

Lemma run_round_clock_upper checks L : forall w,
  latency_within net 0 L ->
  now (run_round net checks w).2 <= now w + L * Z.of_nat (length (recognised checks)).
Proof.
  intros w [Hh Ht]. revert w.
  assert (HL : 0 <= L) by (specialize (Hh PNone 0); lia).
  assert (Hlat : forall dt, is_latency net dt -> dt <= L).
  { intros dt [->|[(url & t & ->)|(host & port & t & ->)]];
      [lia|apply Hh|apply Ht]. }
  induction checks as [|c rest IH]; intros w; [cbn; lia|].
  rewrite run_round_cons, recognised_cons.
  destruct (check_kind c) as [kind|]; [|apply IH].
  destruct (probe_returns kind c w) as (b & w1 & -> & _ & dt & Hn & Hdt).
  apply Hlat in Hdt.
  destruct b; cbn [snd length].
  - specialize (IH (emit (EvProbe kind c true) w1)). cbn in IH. cbn. nia.
  - cbn. nia.
Qed.

Lemma sleep_returns interval w :
  0 <= interval ->
  sleep interval w = (Ret tt, emit (EvSleep interval) (advance interval w)).
Proof. intros H. unfold sleep. by destruct (Z.ltb_spec interval 0); [lia|]. Qed.

(** More fuel does not change a result. *)
Lemma poll_fuel_S fuel checks T I start : forall w r,
  poll net fuel checks T I start w = Some r ->
  poll net (S fuel) checks T I start w = Some r.
Proof.
  induction fuel as [|fuel IH]; intros w r H; [discriminate|].
  cbn [poll] in H |- *.
  destruct (now w - start <? T); [|done].
  destruct (run_round net checks w) as [[[]| |] w1]; try done.
  destruct (sleep I w1) as [[| |] w2]; try done.
  by apply IH.
Qed.

Lemma poll_fuel_mono fuel fuel' checks T I start w r :
  (fuel <= fuel')%nat ->
  poll net fuel checks T I start w = Some r ->
  poll net fuel' checks T I start w = Some r.
Proof.
  induction 1 as [|fuel' _ IH]; [done|]. intros H. by apply poll_fuel_S, IH.
Qed.

(** The loop ends: every iteration moves the clock by [interval] at least. *)
Lemma poll_terminates checks T I start :
  0 < I -> latency_nonneg net ->
  forall fuel w,
    start + T - now w <= I * Z.of_nat fuel ->
    exists b w', poll net (S fuel) checks T I start w = Some (Ret b, w').
Proof.
  intros HI Hlat. induction fuel as [|fuel IH]; intros w Hw.
  - cbn [poll]. destruct (Z.ltb_spec (now w - start) T); [lia|]. eauto.
  - remember (S fuel) as k. cbn [poll]. subst k.
    destruct (Z.ltb_spec (now w - start) T); [|eauto].
    pose proof (run_round_clock_lower checks w Hlat) as Hclk.
    destruct (run_round_events checks w) as (ok & w1 & n & Hr & _).
    rewrite Hr in Hclk |- *. cbn in Hclk.
    destruct ok; [eauto|].
    rewrite sleep_returns by lia.
    apply IH. cbn. lia.
Qed.

(** The shape of every completed run of the loop: failed rounds, each
    followed by one sleep of [interval], then a passing round or nothing. *)
Lemma poll_shape checks T I start : forall fuel w b w',
  poll net fuel checks T I start w = Some (Ret b, w') ->
  exists rounds last,
    trace w' = trace w ++ concat ((fun r => r ++ [EvSleep I]) <$> rounds) ++ last /\
    Forall (failed_round checks) rounds /\
    (if b then passed_round checks last else last = []).
Proof.
  induction fuel as [|fuel IH]; intros w b w' H; [discriminate|].
  cbn [poll] in H.
  destruct (now w - start <? T).
  - destruct (run_round_events checks w) as (ok & w1 & n & Hr & Htr & Hn).
    rewrite Hr in H. destruct ok.
    + injection H as <- <-. exists [], (round_events checks n true).
      cbn. split; [done|]. split; [constructor|]. unfold passed_round. by subst n.
    + unfold sleep in H. destruct (I <? 0); [discriminate|].
      apply IH in H as (rounds & last & Htr' & Hall & Hlast).
      exists (round_events checks n false :: rounds), last.
      split; [|split; [|done]].
      * rewrite Htr'. cbn. rewrite Htr. by rewrite <- !app_assoc.
      * constructor; [by exists n|done].
  - injection H as <- <-. exists [], []. cbn. rewrite app_nil_r.
    repeat split; constructor.
Qed.


Lemma poll_timeout_result checks T I start :
  latency_nonneg net -> never_ready net checks start (start + T) ->
  forall fuel w b w',
    start <= now w ->
    poll net fuel checks T I start w = Some (Ret b, w') ->
    b = false /\ T <= now w' - start.
Proof.
  intros Hlat Hnever. induction fuel as [|fuel IH]; intros w b w' Hw H; [discriminate|].
  cbn [poll] in H.
  destruct (Z.ltb_spec (now w - start) T).
  - pose proof (Hnever w ltac:(lia)) as Hfail.
    pose proof (run_round_clock_lower checks w Hlat) as Hclk.
    destruct (run_round net checks w) as [r w1]. cbn in Hfail, Hclk. subst r.
    unfold sleep in H. destruct (Z.ltb_spec I 0); [discriminate|].
    apply IH in H; [done|]. cbn. lia.
  - injection H as <- <-. split; [done | lia].
Qed.

Lemma poll_timeout_upper checks T I L start :
  0 <= I -> latency_within net 0 L ->
  let bound := start + T + I + L * Z.of_nat (length (recognised checks)) in
  forall fuel w w',
    now w < bound ->
    poll net fuel checks T I start w = Some (Ret false, w') ->
    now w' < bound.
Proof.
  intros HI Hlat bound. induction fuel as [|fuel IH]; intros w w' Hw H; [discriminate|].
  cbn [poll] in H.
  destruct (Z.ltb_spec (now w - start) T).
  - pose proof (run_round_clock_upper checks L w Hlat) as Hclk.
    destruct (run_round net checks w) as [[[]| |] w1]; try discriminate.
    cbn in Hclk. rewrite sleep_returns in H by done.
    apply IH in H; [done|]. unfold bound. cbn. lia.
  - by injection H as <-.
Qed.

(** When no round started before the deadline passes, the poller returns
    false, not before the deadline, and not later than one round and one
    sleep after it. *)
Lemma wait_for_health_times_out checks T I w :
  0 < I -> latency_nonneg net ->
  never_ready net checks (now w) (now w + T) ->
  exists fuel w',
    wait_for_health net fuel checks T I w = Some (Ret false, w') /\
    T <= now w' - now w /\
    (forall L, 0 <= T -> latency_within net 0 L ->
       now w' - now w < T + I + L * Z.of_nat (length (recognised checks))).
Proof.
  intros HI Hlat Hnever. unfold wait_for_health.
  destruct (poll_terminates checks T I (now w) HI Hlat (Z.to_nat T) w)
    as (b & w' & Hrun); [nia|].
  destruct (poll_timeout_result checks T I (now w) Hlat Hnever _ w b w'
              ltac:(lia) Hrun) as [-> Hlo].
  exists (S (Z.to_nat T)), w'. split; [done|]. split; [done|].
  intros L HT HL.
  assert (0 <= L) by (destruct HL as [HL _]; specialize (HL PNone 0); lia).
  pose proof (poll_timeout_upper checks T I L (now w) ltac:(lia) HL (S (Z.to_nat T)) w w') as Hup.
  cbn in Hup. specialize (Hup ltac:(nia) Hrun). lia.
Qed.

Lemma sleeps_app tr1 tr2 : sleeps (tr1 ++ tr2) = sleeps tr1 ++ sleeps tr2.
Proof. unfold sleeps. apply omap_app. Qed.

Lemma sleeps_round_events checks n ok : sleeps (round_events checks n ok) = [].
Proof.
  unfold round_events.
  generalize (replicate n true ++ (if ok then [] else [false])).
  induction (recognised checks) as [|kc l IH]; intros [|b bs]; cbn; auto.
Qed.

Lemma sleeps_failed_rounds checks I rounds :
  Forall (failed_round checks) rounds ->
  sleeps (concat ((fun r => r ++ [EvSleep I]) <$> rounds))
    = replicate (length rounds) I.
Proof.
  induction 1 as [|r rounds (n & _ & ->) _ IH]; [done|].
  cbn. rewrite !sleeps_app, sleeps_round_events, IH. done.
Qed.

Lemma unrecognised_kind c : unrecognised c <-> check_kind c = None.
Proof.
  unfold unrecognised, check_kind, str_eq.
  destruct (c !! "type") as [[| | |s]|]; cbn; try (split; [done|]; intros _; split; done).
  repeat case_bool_decide; subst; split; try done; try (intros [? ?]; congruence).
  intros _. split; congruence.
Qed.

Lemma run_round_unrecognised checks w :
  Forall unrecognised checks -> run_round net checks w = (Ret true, w).
Proof.
  induction 1 as [|c rest Hc _ IH]; [done|].
  rewrite run_round_cons. apply unrecognised_kind in Hc. by rewrite Hc.
Qed.

End Poller.

(** C5: one evaluation of a health check, HTTP or TCP, returns a boolean and
    never raises: whatever the body of the [try] raises becomes [False], in
    particular every transport error of the request or of the connection
    attempt. *)
Theorem health_check_never_raises (net : Network) (c : check) (w : pstate) :
  (exists b w', _check_http net c w = (Ret b, w')) /\
  (exists b w', _check_tcp net c w = (Ret b, w')) /\
  (forall e w', _check_http_try net c w = (Raise e, w') ->
                _check_http net c w = (Ret false, w')) /\
  (forall e w', _check_tcp_try net c w = (Raise e, w') ->
                _check_tcp net c w = (Ret false, w')) /\
  (forall url e dt,
     c !! "url" = Some url -> http_get net url (now w) = (HttpFail e, dt) ->
     _check_http net c w = (Ret false, advance dt w)) /\
  (forall host port e dt,
     c !! "host" = Some host -> c !! "port" = Some port ->
     tcp_connect_ex net host port (now w) = (ConnectFail e, dt) ->
     _check_tcp net c w = (Ret false, advance dt w)).
Proof.
  split; [|split; [|split; [|split; [|split]]]].
  - destruct (check_http_returns net c w) as (b & w' & H & _). eauto.
  - destruct (check_tcp_returns net c w) as (b & w' & H & _). eauto.
  - intros e w' H. unfold _check_http. by rewrite H.
  - intros e w' H. unfold _check_tcp. by rewrite H.
  - intros url e dt Hurl Hget. unfold _check_http, _check_http_try.
    by rewrite Hurl, Hget.
  - intros host port e dt Hhost Hport Hget. unfold _check_tcp, _check_tcp_try.
    by rewrite Hhost, Hport, Hget.
Qed.

Lemma tcp_check_fields :
  tcp_check !! "type" = Some (PStr "tcp") /\
  tcp_check !! "host" = Some (PStr "db") /\
  tcp_check !! "port" = Some (PInt 5432).
Proof. by vm_compute. Qed.

Lemma http_check_fields :
  http_check !! "type" = Some (PStr "http") /\
  http_check !! "url" = Some (PStr "http://localhost:8080/health") /\
  http_check !! "expected_status" = None.
Proof. by vm_compute. Qed.

Lemma health_check_never_raises_witness :
  _check_http (refusing 3) http_check (at_time 0) = (Ret false, at_time 3) /\
  _check_tcp (listening_from 12 (fun _ => 1)) (delete "port" tcp_check) (at_time 0)
    = (Ret false, at_time 0).
Proof.
  destruct (health_check_never_raises (refusing 3) http_check (at_time 0))
    as (_ & _ & _ & _ & Hhttp & _).
  destruct (health_check_never_raises (listening_from 12 (fun _ => 1))
              (delete "port" tcp_check) (at_time 0))
    as (_ & _ & _ & Htcp & _).
  split.
  - apply (Hhttp (PStr "http://localhost:8080/health") ConnectionRefused 3);
      vm_compute; reflexivity.
  - apply (Htcp (KeyError "port")). vm_compute. reflexivity.
Defined.

(** C3: the poller evaluates the checks of a round in list order and ends
    the round at the first failing check; a round in which every check
    passes makes it return true at once, with no sleep (none at all when
    this is the first round); after each failed round it sleeps [interval],
    once, before the next round. *)
Theorem wait_for_health_rounds (net : Network) (checks : list check)
    (timeout interval : Z) :
  (forall w, exists all_passed w' n,
     run_round net checks w = (Ret all_passed, w') /\
     trace w' = trace w ++ round_events checks n all_passed /\
     (if all_passed then n = length (recognised checks)
      else (n < length (recognised checks))%nat)) /\
  (forall w w1 fuel,
     0 < timeout -> run_round net checks w = (Ret true, w1) ->
     wait_for_health net (S fuel) checks timeout interval w = Some (Ret true, w1) /\
     sleeps (trace w1) = sleeps (trace w)) /\
  (forall fuel w b w',
     wait_for_health net fuel checks timeout interval w = Some (Ret b, w') ->
     exists rounds last,
       trace w' = trace w ++
                  concat ((fun r => r ++ [EvSleep interval]) <$> rounds) ++ last /\
       Forall (failed_round checks) rounds /\
       (if b then passed_round checks last else last = []) /\
       sleeps (trace w') = sleeps (trace w) ++ replicate (length rounds) interval) /\
  (0 < interval -> latency_nonneg net ->
   forall w, exists fuel b w',
     wait_for_health net fuel checks timeout interval w = Some (Ret b, w')).
Proof.
  split; [|split; [|split]].
  - apply run_round_events.
  - intros w w1 fuel HT Hr. unfold wait_for_health. cbn [poll].
    rewrite Z.sub_diag. destruct (Z.ltb_spec 0 timeout); [|lia].
    rewrite Hr. split; [done|].
    destruct (run_round_events net checks w) as (ok & w' & n & Hr' & Htr & _).
    rewrite Hr in Hr'. injection Hr' as <- <-.
    by rewrite Htr, sleeps_app, sleeps_round_events, app_nil_r.
  - intros fuel w b w' H.
    apply poll_shape in H as (rounds & last & Htr & Hall & Hlast).
    exists rounds, last. repeat (split; [done|]).
    rewrite Htr, !sleeps_app, (sleeps_failed_rounds _ _ _ Hall).
    assert (sleeps last = []) as ->.
    { destruct b; [rewrite Hlast; apply sleeps_round_events | by subst]. }
    by rewrite app_nil_r.
  - intros HI Hlat w.
    destruct (poll_terminates net checks timeout interval (now w) HI Hlat
                (Z.to_nat timeout) w) as (b & w' & H); [nia|].
    by exists (S (Z.to_nat timeout)), b, w'.
Qed.

Lemma refusing_latency_nonneg : latency_nonneg (refusing 3).
Proof. split; intros; cbn; lia. Defined.

Lemma wait_for_health_rounds_witness :
  (exists w1,
     wait_for_health all_up 1 [http_check; tcp_check] 120 5 (at_time 0)
       = Some (Ret true, w1) /\
     sleeps (trace w1) = sleeps (trace (at_time 0))) /\
  (exists rounds last,
     [EvProbe Tcp tcp_check false; EvSleep 5;
      EvProbe Tcp tcp_check false; EvSleep 5]
       = [] ++ concat ((fun r => r ++ [EvSleep 5]) <$> rounds) ++ last /\
     Forall (failed_round [tcp_check]) rounds /\
     last = [] /\
     [5; 5] = [] ++ replicate (length rounds) 5) /\
  (exists fuel b w',
     wait_for_health (refusing 3) fuel [tcp_check] 10 5 (at_time 0)
       = Some (Ret b, w')).
Proof.
  destruct (wait_for_health_rounds all_up [http_check; tcp_check] 120 5)
    as (_ & Hfirst & _ & _).
  destruct (wait_for_health_rounds (refusing 3) [tcp_check] 10 5)
    as (_ & _ & Hshape & Htotal).
  split; [|split].
  - eexists. apply Hfirst; [lia | vm_compute; reflexivity].
  - apply (Hshape 3%nat (at_time 0) false
             {| now := 16;
                trace := [EvProbe Tcp tcp_check false; EvSleep 5;
                          EvProbe Tcp tcp_check false; EvSleep 5] |}).
    vm_compute. reflexivity.
  - apply Htotal; [lia | apply refusing_latency_nonneg].
Defined.

(** C10: a record whose ["type"] is neither ["http"] nor ["tcp"] is skipped
    by the round (it is not probed and does not fail the round); so with only
    such records, and a timeout that lets a first round start, the poller
    returns true in that round without any probe or sleep, whatever the
    network answers. *)
Theorem unrecognised_checks_pass (net : Network) :
  (forall c rest w,
     unrecognised c -> run_round net (c :: rest) w = run_round net rest w) /\
  (forall checks timeout interval fuel w,
     Forall unrecognised checks -> 0 < timeout ->
     wait_for_health net (S fuel) checks timeout interval w = Some (Ret true, w)).
Proof.
  split.
  - intros c rest w Hc. rewrite run_round_cons.
    apply unrecognised_kind in Hc. by rewrite Hc.
  - intros checks timeout interval fuel w Hall HT.
    unfold wait_for_health. cbn [poll].
    rewrite Z.sub_diag. destruct (Z.ltb_spec 0 timeout); [|lia].
    by rewrite run_round_unrecognised.
Qed.

Lemma grpc_check_unrecognised : unrecognised grpc_check.
Proof. split; vm_compute; discriminate. Defined.

Lemma unrecognised_checks_pass_witness :
  run_round (refusing 3) [grpc_check; tcp_check] (at_time 0)
    = run_round (refusing 3) [tcp_check] (at_time 0) /\
  wait_for_health (refusing 3) 1 [grpc_check; grpc_check] 120 5 (at_time 0)
    = Some (Ret true, at_time 0).
Proof.
  destruct (unrecognised_checks_pass (refusing 3)) as [Hskip Hall].
  split.
  - apply Hskip, grpc_check_unrecognised.
  - apply Hall; [|lia].
    repeat constructor; apply grpc_check_unrecognised.
Defined.

Lemma listening_never_ready t_ready latency deadline :
  deadline <= t_ready ->
  never_ready (listening_from t_ready latency) [tcp_check] 0 deadline.
Proof.
  intros Hd w Hw. cbn [run_round].
  destruct tcp_check_fields as (Hty & Hhost & Hport).
  unfold probe, _check_tcp, _check_tcp_try.
  rewrite Hty, Hhost, Hport. cbn.
  by destruct (Z.leb_spec t_ready (now w)); [lia|].
Qed.

(** C4, as the code has it: for a positive interval and probes that take
    time, when no round started before the deadline passes, the poller
    terminates and returns false after an elapsed time of at least [T] and,
    for [T >= 0] and probes that take at most [L] ticks each, less than
    [T + I + L * n] for [n] probed checks (so in [T, T+I) when probes take
    no time).  With timeout 10, interval 5 and one TCP check that passes
    from time 12 on, it returns false. *)
Theorem wait_for_health_timeout :
  (forall (net : Network) (checks : list check) (T I : Z) (w : pstate),
     0 < I -> latency_nonneg net ->
     never_ready net checks (now w) (now w + T) ->
     exists fuel w',
       wait_for_health net fuel checks T I w = Some (Ret false, w') /\
       T <= now w' - now w /\
       (forall L, 0 <= T -> latency_within net 0 L ->
          now w' - now w < T + I + L * Z.of_nat (length (recognised checks))) /\
       (0 <= T -> latency_within net 0 0 -> T <= now w' - now w < T + I)) /\
  (forall latency : Z -> Z,
     (forall t, 0 <= latency t) ->
     exists fuel w',
       wait_for_health (listening_from 12 latency) fuel [tcp_check] 10 5 (at_time 0)
         = Some (Ret false, w')).
Proof.
  split.
  - intros net checks T I w HI Hlat Hnever.
    destruct (wait_for_health_times_out net checks T I w HI Hlat Hnever)
      as (fuel & w' & Hrun & Hlo & Hup).
    exists fuel, w'. split; [exact Hrun|]. split; [exact Hlo|]. split; [exact Hup|].
    intros HT Hzero. specialize (Hup 0 HT Hzero). lia.
  - intros latency Hlat.
    destruct (wait_for_health_times_out (listening_from 12 latency) [tcp_check]
                10 5 (at_time 0)) as (fuel & w' & Hrun & _).
    + lia.
    + split; intros; cbn; apply Hlat.
    + apply listening_never_ready. cbn. lia.
    + eauto.
Qed.

Lemma wait_for_health_timeout_witness :
  (exists fuel w',
     wait_for_health (refusing 0) fuel [tcp_check] 10 5 (at_time 0)
       = Some (Ret false, w') /\
     10 <= now w' - 0 < 10 + 5) /\
  (exists fuel w',
     wait_for_health (listening_from 12 (fun _ => 1)) fuel [tcp_check] 10 5 (at_time 0)
       = Some (Ret false, w')).
Proof.
  destruct wait_for_health_timeout as [Hgen Hinst].
  split.
  - destruct (Hgen (refusing 0) [tcp_check] 10 5 (at_time 0))
      as (fuel & w' & Hrun & _ & _ & Hwin).
    + lia.
    + split; intros; cbn; lia.
    + intros w _. vm_compute. reflexivity.
    + exists fuel, w'. split; [exact Hrun|]. apply Hwin; [lia|].
      split; intros; cbn; lia.
  - apply Hinst. intros; lia.
Defined.

(** C4, as the specification words it, fails when probes take time: with
    timeout 10, interval 5 and a connection refused after 3 ticks, the poller
    returns after 16 ticks, outside [10, 15). *)
Lemma timeout_window_exceeded :
  ~ timeout_window_claim (refusing 3) [tcp_check] 10 5 (at_time 0).
Proof.
  intros Hclaim. destruct Hclaim as (fuel & w' & Hrun & _ & Hhi).
  { intros w0. vm_compute. reflexivity. }
  assert (H3 : wait_for_health (refusing 3) 3 [tcp_check] 10 5 (at_time 0)
               = Some (Ret false,
                       {| now := 16;
                          trace := [EvProbe Tcp tcp_check false; EvSleep 5;
                                    EvProbe Tcp tcp_check false; EvSleep 5] |})).
  { vm_compute. reflexivity. }
  unfold wait_for_health in *.
  apply (poll_fuel_mono _ fuel (max fuel 3)) in Hrun; [|lia].
  apply (poll_fuel_mono _ 3%nat (max fuel 3)) in H3; [|lia].
  rewrite Hrun in H3. injection H3 as ->. cbn in Hhi. lia.
Qed.

End HealthFacts.

(** ** Facts about the report *)

Module ReportFacts.
Import Report.

Lemma slice_to_length n s : (String.length (slice_to n s) <= n)%nat.
Proof.
  unfold slice_to. revert s.
  induction n as [|n IH]; intros [|a s]; cbn; try lia.
  specialize (IH s). lia.
Qed.

Lemma slice_to_prefix n s : exists rest, s = (slice_to n s ++ rest)%string.
Proof.
  unfold slice_to. revert s.
  induction n as [|n IH]; intros [|a s]; cbn.
  - by exists "".
  - by exists (String a s).
  - by exists "".
  - destruct (IH s) as [rest Hrest]. exists rest.
    change (String a s = String a (substring 0 n s ++ rest)%string). congruence.
Qed.

Lemma slice_to_short n s : (String.length s <= n)%nat -> slice_to n s = s.
Proof.
  unfold slice_to. revert s.
  induction n as [|n IH]; intros [|a s]; cbn; intros H; try done; try lia.
  rewrite IH; [done | lia].
Qed.

(** One turn of the loop over the test cases. *)
Lemma add_failure_spec failures testcase :
  add_failure failures testcase =
    match failing_child testcase with
    | Some el => failures ++ [entry_for testcase el]
    | None => failures
    end.
Proof.
  unfold add_failure, failing_child, entry_for.
  destruct (find testcase "failure") as [el|]; cbn.
  - done.
  - destruct (find testcase "error") as [el|]; cbn; done.
Qed.

(** The loop: one entry per test case with a failing child, in document
    order. *)
Lemma foldl_add_failure testcases : forall failures,
  foldl add_failure failures testcases =
    failures ++ omap (fun tc => entry_for tc <$> failing_child tc) testcases.
Proof.
  induction testcases as [|tc rest IH]; intros failures; cbn.
  - by rewrite app_nil_r.
  - rewrite IH, add_failure_spec.
    destruct (failing_child tc); cbn; [by rewrite <- app_assoc | done].
Qed.

(** An element without children is false, so a suite element that holds no
    test case is passed over and the counts are read from the root. *)
Lemma or_else_childless root a rest :
  children root = Elem "testsuite" a [] :: rest ->
  or_else (find root "testsuite") root = root.
Proof.
  intros Hc. unfold find, findall. rewrite Hc.
  rewrite filter_cons_True by done. done.
Qed.

Lemma childless_suite_counts :
  parse_junit_xml (Some (Document childless_suite_report))
    = Ret {| total := 0; passed := 0; failed := 0; failures := [] |}.
Proof. vm_compute. reflexivity. Qed.

(** C6: without a result file the summary of the tests is all zeros and no
    failures; with a result file whose suite element has counts t, f and e,
    [failed] is f + e and [passed] is t - f - e, and the failures are, in
    document order, one entry per test case with a failure or error child:
    its class name and its name joined by a dot, and the first 200
    characters of the message; five tests with one failure and no error
    give [passed = 4] and [failed = 1]. *)
Theorem parse_junit_xml_results :
  parse_junit_xml None
    = Ret {| total := 0; passed := 0; failed := 0; failures := [] |} /\
  (forall root t f e,
     let testsuite := or_else (find root "testsuite") root in
     int_attr testsuite "tests" = Ret t ->
     int_attr testsuite "failures" = Ret f ->
     int_attr testsuite "errors" = Ret e ->
     parse_junit_xml (Some (Document root))
       = Ret {| total := t; passed := t - f - e; failed := f + e;
                failures := omap (fun tc => entry_for tc <$> failing_child tc)
                                 (findall testsuite "testcase") |}) /\
  (forall tc el classname casename,
     get tc "classname" = Some classname -> get tc "name" = Some casename ->
     name (entry_for tc el) = (classname ++ "." ++ casename)%string) /\
  (forall tc el,
     (String.length (reason (entry_for tc el)) <= 200)%nat /\
     (exists rest,
        default "" (get el "message") = (reason (entry_for tc el) ++ rest)%string) /\
     ((String.length (default "" (get el "message")) <= 200)%nat ->
      reason (entry_for tc el) = default "" (get el "message"))) /\
  (exists failures,
     parse_junit_xml (Some (Document sample_report))
       = Ret {| total := 5; passed := 4; failed := 1; failures := failures |}).
Proof.
  split; [done|]. split; [|split; [|split]].
  - intros root t f e testsuite Ht Hf He. cbn [parse_junit_xml].
    fold testsuite. rewrite Ht, Hf, He. cbn.
    unfold mret, outcome_ret. by rewrite foldl_add_failure.
  - intros tc el classname casename Hc Hn. cbn. by rewrite Hc, Hn.
  - intros tc el. cbn. split; [apply slice_to_length|].
    split; [apply slice_to_prefix | apply slice_to_short].
  - eexists. vm_compute. reflexivity.
Qed.

Lemma parse_junit_xml_results_witness :
  parse_junit_xml (Some (Document sample_report))
    = Ret {| total := 5; passed := 5 - 1 - 0; failed := 1 + 0;
             failures := [ {| name := "tests.test_crud.test_update_item";
                              reason := "assert 404 == 200" |} ] |}.
Proof.
  destruct parse_junit_xml_results as (_ & Hcounts & _).
  apply (Hcounts sample_report 5 1 0); vm_compute; reflexivity.
Defined.

End ReportFacts.

(** ** Facts about the run *)

Module WorkflowFacts.
Import Report Workflow.

Ltac unfold_run :=
  unfold run, initial_world, generate_run_id, mark_start, mark_env_ready,
    mark_test_end, ansible_up, ansible_collect_artifacts, ansible_down,
    runner_run, leave_junit, write_summary, emit, elapse, datetime_now,
    sys_exit;
  unfold mbind, M_bind, mret, M_ret; cbn.


(** The return code of [down] is not looked at. *)
Lemma run_ignores_down_exit code env config suite parallel artifacts_dir timeout keep_on_fail w :
  run (with_down_exit code env) config suite parallel artifacts_dir timeout keep_on_fail w
  = run env config suite parallel artifacts_dir timeout keep_on_fail w.
Proof. reflexivity. Qed.

(** C1, as the code has it: when [up] returns nonzero and no result file is
    there, the run exits with code 2 after collecting the artifacts and
    writing one summary, with exit code 2, no bring-up time and no tests; it
    calls [down] exactly when the retention flag is not set. *)
Theorem run_env_failure env config suite parallel artifacts_dir timeout keep_on_fail t0 :
  up_exit env <> 0 ->
  exists s w,
    run env config suite parallel artifacts_dir timeout keep_on_fail (initial_world t0 None)
      = (Exit 2, w) /\
    calls_collect (trace w) = true /\
    calls_down (trace w) = negb keep_on_fail /\
    summaries (trace w) = [s] /\
    summary_json w = Some s /\
    exit_code s = 2 /\
    environment_bring_up_time_seconds s = None /\
    total_tests s = 0.
Proof.
  intros Hup. apply Z.eqb_neq in Hup.
  unfold_run. rewrite Hup. cbn.
  destruct keep_on_fail; cbn; do 2 eexists; repeat split.
Qed.

Lemma run_env_failure_witness :
  exists s w,
    run (sample_env 1 0 0) (sample_config on_fail) "all" None None None false
        (initial_world 0 None) = (Exit 2, w) /\
    calls_collect (trace w) = true /\
    calls_down (trace w) = true /\
    summaries (trace w) = [s] /\
    summary_json w = Some s /\
    exit_code s = 2 /\
    environment_bring_up_time_seconds s = None /\
    total_tests s = 0.
Proof.
  apply (run_env_failure (sample_env 1 0 0) (sample_config on_fail) "all"
           None None None false 0).
  cbn. lia.
Defined.

(** C1, as the specification words it, fails with the retention flag set:
    [down] is not called. *)
Lemma env_failure_keeps_environment :
  ~ env_failure_claim (sample_env 1 0 0) (sample_config on_fail) "all"
      None None None true 0.
Proof.
  intros Hclaim.
  destruct Hclaim as (s & w & Hrun & _ & Hdown & _); [cbn; lia|].
  vm_compute in Hrun. injection Hrun as <-. vm_compute in Hdown. discriminate.
Qed.

Lemma sample_report_readable : readable (Some (Document sample_report)).
Proof. eexists. vm_compute. reflexivity. Defined.

End WorkflowFacts.

(** ** The two backends against the capability set *)

Module BackendFacts.
Import Backends.

(** The five operations of the contract are not all defined by both
    classes: [AnsibleRunner] has no [logs]. *)
Lemma ansible_runner_has_no_logs : ~ interchangeable_claim.
Proof.
  intros [Hansible _]. specialize (Hansible "logs").
  assert (Hin : "logs" ∈ capability_set).
  { unfold capability_set. rewrite !elem_of_cons. auto. }
  apply Hansible in Hin. vm_compute in Hin. discriminate.
Qed.

(** What arguments that fit a signature look like. *)
Lemma binds_spec m nargs kwargs :
  binds m nargs kwargs = true ->
  (m_varargs m = true \/ (nargs <= length (m_params m))%nat) /\
  (forall k, k ∈ kwargs -> k ∈ p_name <$> drop nargs (m_params m) ++ m_kwonly m) /\
  (forall p, p ∈ drop nargs (m_params m) ++ m_kwonly m ->
             p_has_default p = false -> p_name p ∈ kwargs).
Proof.
  unfold binds. rewrite !andb_true_iff, orb_true_iff, !forallb_forall.
  intros [[Hn Hk] Hp]. split; [|split].
  - destruct Hn as [Hn | Hn]; [by left | right]. by apply bool_decide_eq_true in Hn.
  - intros k Hin. apply list_elem_of_In, Hk in Hin.
    by apply bool_decide_eq_true in Hin.
  - intros p Hin Hreq. apply list_elem_of_In, Hp in Hin.
    rewrite Hreq in Hin. by apply bool_decide_eq_true in Hin.
Qed.

Lemma call_binds cls op m nargs kwargs r :
  cls !! op = Some m -> call cls op nargs kwargs = Ret r ->
  binds m nargs kwargs = true.
Proof.
  unfold call, getattr. intros ->. by destruct (binds m nargs kwargs).
Qed.

Ltac signature H :=
  match type of H with
  | call ?cls ?op _ _ = Ret _ =>
      let m := eval vm_compute in (cls !! op) in
      match m with
      | Some ?m' =>
          let Hm := fresh in
          assert (Hm : cls !! op = Some m') by (vm_compute; reflexivity);
          apply (call_binds _ _ _ _ _ _ Hm), binds_spec in H; clear Hm
      end
  end.

Ltac absurd_keyword H :=
  apply list_elem_of_In in H; cbn in H; intuition discriminate.

(** Even a shared operation is not called the same way on both classes: no
    arguments, positional or keyword, fit both signatures. *)
Lemma no_common_call op nargs kwargs :
  op ∈ shared_capabilities ->
  ~ (exists r1 r2, call AnsibleRunner op nargs kwargs = Ret r1 /\
                   call DockerRunner op nargs kwargs = Ret r2).
Proof.
  intros Hop (r1 & r2 & H1 & H2).
  assert (Hs : shared_capabilities = ["up"; "down"; "collect_artifacts"])
    by (vm_compute; reflexivity).
  rewrite Hs in Hop.
  rewrite !elem_of_cons, elem_of_nil in Hop.
  destruct Hop as [-> | [-> | [-> | []]]].
  - signature H1. signature H2.
    destruct H1 as (_ & _ & Hreq), H2 as (Hn & Hkw & _).
    destruct Hn as [Hn | Hn]; [discriminate Hn|].
    destruct nargs as [|nargs]; [|cbn in Hn; lia].
    specialize (Hreq (req "compose_file") ltac:(cbn; rewrite !elem_of_cons; auto)
                     eq_refl).
    apply Hkw in Hreq. absurd_keyword Hreq.
  - signature H1. signature H2.
    destruct H1 as (_ & _ & Hreq), H2 as (Hn & Hkw & _).
    destruct Hn as [Hn | Hn]; [discriminate Hn|].
    do 2 (destruct nargs as [|nargs];
          [specialize (Hreq (req "run_id") ltac:(cbn; rewrite !elem_of_cons; auto)
                            eq_refl);
           apply Hkw in Hreq; absurd_keyword Hreq|]).
    cbn in Hn. lia.
  - signature H1. signature H2.
    destruct H1 as (_ & _ & Hreq), H2 as (Hn & Hkw & _).
    destruct Hn as [Hn | Hn]; [discriminate Hn|].
    destruct nargs as [|nargs].
    { specialize (Hreq (req "compose_file") ltac:(cbn; rewrite !elem_of_cons; auto)
                       eq_refl).
      apply Hkw in Hreq. absurd_keyword Hreq. }
    destruct nargs as [|nargs].
    { specialize (Hreq (req "run_id") ltac:(cbn; rewrite !elem_of_cons; auto)
                       eq_refl).
      apply Hkw in Hreq. absurd_keyword Hreq. }
    destruct nargs as [|nargs].
    { specialize (Hreq (req "artifacts_dir")
                       ltac:(cbn; rewrite !elem_of_cons; auto) eq_refl).
      apply Hkw in Hreq. absurd_keyword Hreq. }
    cbn in Hn. lia.
Qed.

(** C2, as the code has it: of the capability set, both classes define
    [up], [down] and [collect_artifacts]; [status] is defined by
    [AnsibleRunner] only and [logs] by [DockerRunner] only (which lists the
    containers under the name [ps]).  The three shared names do not make the
    classes interchangeable either: no arguments fit both signatures of one
    of them, each call that cli.py makes is accepted by [AnsibleRunner] and
    raises on [DockerRunner], and [collect_artifacts] returns an exit code
    from the one and [None] from the other. *)
Theorem backends_shared_capabilities :
  shared_capabilities = ["up"; "down"; "collect_artifacts"] /\
  filter (fun op => provides AnsibleRunner op = true) capability_set
    = ["up"; "down"; "status"; "collect_artifacts"] /\
  filter (fun op => provides DockerRunner op = true) capability_set
    = ["up"; "down"; "logs"; "collect_artifacts"] /\
  getattr AnsibleRunner "logs" = Raise (AttributeError "logs") /\
  getattr DockerRunner "status" = Raise (AttributeError "status") /\
  provides DockerRunner "ps" = true /\
  (forall op nargs kwargs,
     op ∈ shared_capabilities ->
     ~ (exists r1 r2, call AnsibleRunner op nargs kwargs = Ret r1 /\
                      call DockerRunner op nargs kwargs = Ret r2)) /\
  Forall (fun '(op, nargs, kwargs) =>
            (exists r, call AnsibleRunner op nargs kwargs = Ret r) /\
            (exists e, call DockerRunner op nargs kwargs = Raise e))
         cli_calls /\
  call AnsibleRunner "collect_artifacts" 3 [] = Ret RetInt /\
  call DockerRunner "collect_artifacts" 1 [] = Ret RetNone.
Proof.
  do 6 (split; [vm_compute; reflexivity|]).
  split; [exact no_common_call|].
  split; [|split; vm_compute; reflexivity].
  unfold cli_calls. repeat constructor; eexists; vm_compute; reflexivity.
Qed.

Lemma backends_shared_capabilities_witness :
  ~ (exists r1 r2,
       call AnsibleRunner "down" 2 [] = Ret r1 /\
       call DockerRunner "down" 2 [] = Ret r2).
Proof.
  destruct backends_shared_capabilities as (Hs & _ & _ & _ & _ & _ & Hcall & _).
  apply (Hcall "down" 2%nat []).
  rewrite Hs, !elem_of_cons. auto.
Defined.

End BackendFacts.

(** ** More facts about the poller and the health checks *)

Module PollerMore.
Import Health PollerVocabulary HealthFacts.

Section Poller.

Variable net : Network.

Lemma run_round_result checks w :
  exists ok w1, run_round net checks w = (Ret ok, w1).
Proof. destruct (run_round_events net checks w) as (ok & w1 & n & H & _). eauto. Qed.

Lemma latency_within_nonneg L : latency_within net 0 L -> latency_nonneg net.
Proof. intros [Hh Ht]. split; intros; [apply Hh | apply Ht]. Qed.

(** Once rounds pass from [t_ready] on, a loop that still has time for one
    more round after [t_ready] ends with true. *)
Lemma poll_ready checks T I L start t_ready :
  0 < I -> latency_within net 0 L -> ready_from net checks t_ready ->
  t_ready <= start \/ t_ready + I + L * Z.of_nat (length (recognised checks)) <= start + T ->
  let B := L * Z.of_nat (length (recognised checks)) in
  forall fuel w,
    t_ready - now w <= I * Z.of_nat fuel ->
    start <= now w -> now w - start < T ->
    now w < Z.max start t_ready + I + B ->
    exists w', poll net (S fuel) checks T I start w = Some (Ret true, w') /\
               now w' < Z.max start t_ready + I + 2 * B.
Proof.
  intros HI HL Hready Hroom B.
  pose proof (latency_within_nonneg L HL) as Hnn.
  induction fuel as [|fuel IH]; intros w Hfuel Hstart Hcond Hbound.
  - cbn [poll]. destruct (Z.ltb_spec (now w - start) T); [|lia].
    pose proof (Hready w ltac:(lia)) as Hpass.
    pose proof (run_round_clock_upper net checks L w HL) as Hup.
    destruct (run_round net checks w) as [r w1]. cbn in Hpass, Hup. subst r.
    exists w1. split; [done|]. fold B in Hup. lia.
  - remember (S fuel) as k. cbn [poll]. subst k.
    destruct (Z.ltb_spec (now w - start) T); [|lia].
    pose proof (run_round_clock_upper net checks L w HL) as Hup.
    pose proof (run_round_clock_lower net checks w Hnn) as Hlo.
    fold B in Hup.
    destruct (run_round_result checks w) as (ok & w1 & Hr).
    rewrite Hr in Hup, Hlo |- *. cbn in Hup, Hlo.
    destruct ok.
    + exists w1. split; [done | lia].
    + assert (now w < t_ready).
      { destruct (Z.lt_ge_cases (now w) t_ready) as [|Hge]; [done|].
        pose proof (Hready w Hge) as Hpass. rewrite Hr in Hpass. discriminate. }
      rewrite sleep_returns by lia.
      apply IH; cbn; fold B in Hroom; lia.
Qed.

(** The failed rounds of a completed run: each one started before the
    timeout, and at least [interval] after the one before. *)
Lemma poll_sleeps_bound checks T I start :
  0 < I -> latency_nonneg net ->
  forall fuel w b w',
    start <= now w ->
    poll net fuel checks T I start w = Some (Ret b, w') ->
    exists k : nat,
      sleeps (trace w') = sleeps (trace w) ++ replicate k I /\
      (rounds_run k b = 0 \/
       (rounds_run k b - 1) * I < T - (now w - start)) /\
      now w + I * Z.of_nat k <= now w'.
Proof.
  intros HI Hnn. induction fuel as [|fuel IH]; intros w b w' Hstart H; [discriminate|].
  cbn [poll] in H.
  destruct (Z.ltb_spec (now w - start) T).
  - pose proof (run_round_clock_lower net checks w Hnn) as Hlo.
    destruct (run_round_events net checks w) as (ok & w1 & n & Hr & Htr & _).
    rewrite Hr in H, Hlo. cbn in Hlo. destruct ok.
    + injection H as <- <-. exists 0%nat.
      rewrite Htr, sleeps_app, sleeps_round_events. split; [done|].
      split; [|lia]. right. unfold rounds_run. cbn. lia.
    + rewrite sleep_returns in H by lia.
      apply IH in H as (k & Hsl & Hk & Hel); [|cbn; lia].
      cbn [now emit advance] in Hk, Hel.
      exists (S k). split; [|split].
      * rewrite Hsl. cbn. rewrite sleeps_app, Htr, sleeps_app, sleeps_round_events.
        cbn. by rewrite app_nil_r, <- app_assoc.
      * right. unfold rounds_run in *.
        destruct Hk as [Hk|Hk]; destruct b; nia.
      * nia.
  - injection H as <- <-. exists 0%nat. split; [by rewrite app_nil_r|].
    split; [|lia]. left. unfold rounds_run. cbn. lia.
Qed.

End Poller.

(** X1: when every round started at [t_ready] or later passes, and the
    timeout leaves room for one more round after [t_ready], the poller
    returns true, at the latest one sleep and two rounds after [t_ready]. *)
Theorem wait_for_health_becomes_ready (net : Network) (checks : list check)
    (T I L t_ready : Z) (w : pstate) :
  0 < I -> 0 < T -> latency_within net 0 L ->
  ready_from net checks t_ready ->
  t_ready <= now w \/
    t_ready + I + L * Z.of_nat (length (recognised checks)) <= now w + T ->
  exists fuel w',
    wait_for_health net fuel checks T I w = Some (Ret true, w') /\
    now w' < Z.max (now w) t_ready + I
             + 2 * (L * Z.of_nat (length (recognised checks))).
Proof.
  intros HI HT HL Hready Hroom. unfold wait_for_health.
  assert (0 <= L) by (destruct HL as [HL _]; specialize (HL PNone 0); lia).
  destruct (poll_ready net checks T I L (now w) t_ready HI HL Hready Hroom
              (Z.to_nat (t_ready - now w)) w) as (w' & Hrun & Hbound);
    try nia.
  eauto.
Qed.

Lemma listening_ready_from t_ready latency :
  ready_from (listening_from t_ready latency) [tcp_check] t_ready.
Proof.
  intros w Hw. cbn [run_round].
  destruct tcp_check_fields as (Hty & Hhost & Hport).
  unfold probe, _check_tcp, _check_tcp_try.
  rewrite Hty, Hhost, Hport. cbn.
  by destruct (Z.leb_spec t_ready (now w)); [|lia].
Qed.

Lemma wait_for_health_becomes_ready_witness :
  exists fuel w',
    wait_for_health (listening_from 12 (fun _ => 1)) fuel [tcp_check] 30 5 (at_time 0)
      = Some (Ret true, w') /\
    now w' < Z.max 0 12 + 5 + 2 * (1 * 1).
Proof.
  apply (wait_for_health_becomes_ready (listening_from 12 (fun _ => 1))
           [tcp_check] 30 5 1 12 (at_time 0)).
  - lia.
  - lia.
  - split; intros; cbn; lia.
  - apply listening_ready_from.
  - right. vm_compute. discriminate.
Defined.

(** X2: a completed run of the poller with [k] failed rounds has slept [k]
    times [interval] and has taken at least [k] intervals; its rounds number
    at most the intervals that start before the timeout: round [r] (from 1)
    needs [(r - 1) * interval < timeout]. *)
Theorem wait_for_health_round_budget (net : Network) (checks : list check)
    (T I : Z) (fuel : nat) (w w' : pstate) (b : bool) :
  0 < I -> latency_nonneg net ->
  wait_for_health net fuel checks T I w = Some (Ret b, w') ->
  exists k : nat,
    sleeps (trace w') = sleeps (trace w) ++ replicate k I /\
    (rounds_run k b = 0 \/ (rounds_run k b - 1) * I < T) /\
    I * Z.of_nat k <= now w' - now w.
Proof.
  intros HI Hnn Hrun. unfold wait_for_health in Hrun.
  destruct (poll_sleeps_bound net checks T I (now w) HI Hnn fuel w b w'
              ltac:(lia) Hrun) as (k & Hsl & Hk & Hel).
  exists k. split; [done|]. split; lia.
Qed.

Lemma wait_for_health_round_budget_witness :
  exists k : nat,
    [5; 5] = [] ++ replicate k 5 /\
    (rounds_run k false = 0 \/ (rounds_run k false - 1) * 5 < 10) /\
    5 * Z.of_nat k <= 16 - 0.
Proof.
  apply (wait_for_health_round_budget (refusing 3) [tcp_check] 10 5 3
           (at_time 0)
           {| now := 16;
              trace := [EvProbe Tcp tcp_check false; EvSleep 5;
                        EvProbe Tcp tcp_check false; EvSleep 5] |} false).
  - lia.
  - apply refusing_latency_nonneg.
  - vm_compute. reflexivity.
Defined.

(** X3: degenerate timing parameters.  With a timeout of zero or less the
    poller returns false at once, without a probe, whatever the checks; with
    a negative interval it raises [ValueError] as soon as a round fails (the
    sleep is refused), while a first round that passes still returns true. *)
Theorem wait_for_health_degenerate (net : Network) (checks : list check)
    (T I : Z) (fuel : nat) (w : pstate) :
  (T <= 0 ->
   wait_for_health net (S fuel) checks T I w = Some (Ret false, w)) /\
  (0 < T -> I < 0 -> forall w1,
   run_round net checks w = (Ret false, w1) ->
   wait_for_health net (S fuel) checks T I w = Some (Raise ValueError, w1)) /\
  (0 < T -> I < 0 -> forall w1,
   run_round net checks w = (Ret true, w1) ->
   wait_for_health net (S fuel) checks T I w = Some (Ret true, w1)).
Proof.
  unfold wait_for_health. cbn [poll]. rewrite Z.sub_diag.
  split; [|split].
  - intros HT. by destruct (Z.ltb_spec 0 T); [lia|].
  - intros HT HI w1 Hr. destruct (Z.ltb_spec 0 T); [|lia].
    rewrite Hr. unfold sleep. by destruct (Z.ltb_spec I 0); [|lia].
  - intros HT HI w1 Hr. destruct (Z.ltb_spec 0 T); [|lia]. by rewrite Hr.
Qed.

Lemma wait_for_health_degenerate_witness :
  wait_for_health all_up 1 [http_check] 0 5 (at_time 0)
    = Some (Ret false, at_time 0) /\
  wait_for_health (refusing 3) 1 [tcp_check] 10 (-1) (at_time 0)
    = Some (Raise ValueError,
            {| now := 3; trace := [EvProbe Tcp tcp_check false] |}) /\
  wait_for_health all_up 1 [tcp_check] 10 (-1) (at_time 0)
    = Some (Ret true,
            {| now := 0; trace := [EvProbe Tcp tcp_check true] |}).
Proof.
  split; [|split].
  - apply (wait_for_health_degenerate all_up [http_check] 0 5 0 (at_time 0)). lia.
  - apply (wait_for_health_degenerate (refusing 3) [tcp_check] 10 (-1) 0 (at_time 0));
      [lia | lia | vm_compute; reflexivity].
  - apply (wait_for_health_degenerate all_up [tcp_check] 10 (-1) 0 (at_time 0));
      [lia | lia | vm_compute; reflexivity].
Defined.

(** X4: an HTTP check passes exactly when the record has a ["url"], the
    request gets a response, and the status code equals ["expected_status"]
    (200 when the record has none); an expected status given as a string
    matches no response. *)
Theorem check_http_passes_iff (net : Network) (c : check) (w : pstate) :
  ((exists w', _check_http net c w = (Ret true, w')) <->
   (exists url status_code dt,
      c !! "url" = Some url /\
      http_get net url (now w) = (HttpResponse status_code, dt) /\
      int_eq status_code (default (PInt 200) (c !! "expected_status")) = true)) /\
  (c !! "expected_status" = None ->
   ((exists w', _check_http net c w = (Ret true, w')) <->
    (exists url dt, c !! "url" = Some url /\
                    http_get net url (now w) = (HttpResponse 200, dt)))) /\
  (forall s, c !! "expected_status" = Some (PStr s) ->
   exists w', _check_http net c w = (Ret false, w')).
Proof.
  assert (Hmain :
    (exists w', _check_http net c w = (Ret true, w')) <->
    (exists url status_code dt,
       c !! "url" = Some url /\
       http_get net url (now w) = (HttpResponse status_code, dt) /\
       int_eq status_code (default (PInt 200) (c !! "expected_status")) = true)).
  { unfold _check_http, _check_http_try. split.
    - intros [w' H]. destruct (c !! "url") as [url|]; [|discriminate].
      destruct (http_get net url (now w)) as [[status_code|e] dt] eqn:Hget;
        [|discriminate].
      cbv beta iota zeta delta [except_Exception_return_False] in H.
      injection H as Heq _. exists url, status_code, dt.
      split; [reflexivity|]. split; [exact Hget | exact Heq].
    - intros (url & status_code & dt & -> & -> & Heq). cbn. rewrite Heq. eauto. }
  split; [exact Hmain|]. split.
  - intros Hnone. rewrite Hmain, Hnone. cbn. split.
    + intros (url & status_code & dt & Hurl & Hget & Heq).
      apply Z.eqb_eq in Heq. subst. eauto.
    + intros (url & dt & Hurl & Hget). exists url, 200, dt. done.
  - intros s Hs. unfold _check_http, _check_http_try. rewrite Hs.
    destruct (c !! "url") as [url|]; [|cbn; eauto].
    destruct (http_get net url (now w)) as [[status_code|e] dt]; cbn; eauto.
Qed.

Lemma check_http_passes_iff_witness :
  (exists w', _check_http all_up http_check (at_time 0) = (Ret true, w')) /\
  (exists w', _check_http all_up (<["expected_status" := PStr "200"]> http_check)
                (at_time 0) = (Ret false, w')).
Proof.
  destruct (check_http_passes_iff all_up http_check (at_time 0)) as (_ & Hdef & _).
  destruct (check_http_passes_iff all_up
              (<["expected_status" := PStr "200"]> http_check) (at_time 0))
    as (_ & _ & Hstr).
  split.
  - apply Hdef; [vm_compute; reflexivity|].
    exists (PStr "http://localhost:8080/health"), 0.
    split; vm_compute; reflexivity.
  - apply (Hstr "200"). vm_compute. reflexivity.
Defined.

(** X5: a TCP check passes exactly when the record has a ["host"] and a
    ["port"] and the connection attempt returns 0. *)
Theorem check_tcp_passes_iff (net : Network) (c : check) (w : pstate) :
  (exists w', _check_tcp net c w = (Ret true, w')) <->
  (exists host port dt,
     c !! "host" = Some host /\ c !! "port" = Some port /\
     tcp_connect_ex net host port (now w) = (ConnectResult 0, dt)).
Proof.
  unfold _check_tcp, _check_tcp_try. split.
  - intros [w' H]. destruct (c !! "host") as [host|]; [|discriminate].
    destruct (c !! "port") as [port|]; [|discriminate].
    destruct (tcp_connect_ex net host port (now w)) as [[errno|e] dt] eqn:Hget;
      [|discriminate].
    cbv beta iota zeta delta [except_Exception_return_False] in H.
    injection H as Heq _. apply Z.eqb_eq in Heq. subst errno.
    exists host, port, dt. split; [reflexivity|]. split; [reflexivity | exact Hget].
  - intros (host & port & dt & -> & -> & ->). cbn. eauto.
Qed.

Lemma check_tcp_passes_iff_witness :
  exists w', _check_tcp all_up tcp_check (at_time 0) = (Ret true, w').
Proof.
  apply (check_tcp_passes_iff all_up tcp_check (at_time 0)).
  exists (PStr "db"), (PInt 5432), 0. repeat split; vm_compute; reflexivity.
Defined.

End PollerMore.

(** ** More facts about the report *)

Module ReportMore.
Import Report ReportFacts.

Lemma int_attr_not_exit e key code : int_attr e key <> Exit code.
Proof.
  unfold int_attr, py_int_checked, py_int.
  destruct (get e key) as [s|]; [|discriminate].
  destruct (int_max_str_digits <? count_digits s)%nat; [discriminate|].
  by destruct (match int_strip (list_ascii_of_string s) with
               | [] => None
               | a :: l => _
               end).
Qed.

Lemma parse_junit_xml_not_exit junit code : parse_junit_xml junit <> Exit code.
Proof.
  destruct junit as [[root|]|]; cbn [parse_junit_xml]; try discriminate.
  set (testsuite := or_else (find root "testsuite") root).
  pose proof (int_attr_not_exit testsuite "tests") as H1.
  pose proof (int_attr_not_exit testsuite "failures") as H2.
  pose proof (int_attr_not_exit testsuite "errors") as H3.
  destruct (int_attr testsuite "tests") as [t| |c]; cbn;
    [|discriminate | by destruct (H1 c)].
  destruct (int_attr testsuite "failures") as [f| |c]; cbn;
    [|discriminate | by destruct (H2 c)].
  destruct (int_attr testsuite "errors") as [e| |c]; cbn;
    [discriminate | discriminate | by destruct (H3 c)].
Qed.

Lemma omap_length_le {A B} (f : A -> option B) (l : list A) :
  (length (omap f l) <= length l)%nat.
Proof. induction l as [|x l IH]; cbn; [lia|]. destruct (f x); cbn; lia. Qed.

(** X6: of a report with several suites only the first one is read: when
    the first [testsuite] child of the root holds at least one element, the
    counts and the failures are those of the document that holds this suite
    alone; the other children and the attributes of the root change
    nothing. *)
Theorem parse_junit_xml_first_suite (t : string) (a : gmap string string)
    (before after : list Element) (suite : Element) :
  tag suite = "testsuite" -> truthy suite = true ->
  Forall (fun e => tag e <> "testsuite") before ->
  parse_junit_xml (Some (Document (Elem t a (before ++ suite :: after))))
  = parse_junit_xml (Some (Document (Elem "testsuites" ∅ [suite]))).
Proof.
  intros Htag Htruthy Hbefore.
  assert (Hfind : forall t' a' pre post,
            Forall (fun e => tag e <> "testsuite") pre ->
            find (Elem t' a' (pre ++ suite :: post)) "testsuite" = Some suite).
  { intros t' a' pre post Hpre. unfold find, findall. cbn [children].
    induction Hpre as [|e pre He _ IH].
    - rewrite app_nil_l, filter_cons_True by done. done.
    - rewrite <- app_comm_cons, filter_cons_False by done. exact IH. }
  cbn [parse_junit_xml].
  rewrite (Hfind t a before after Hbefore).
  pose proof (Hfind "testsuites" ∅ [] [] ltac:(constructor)) as Hone.
  rewrite app_nil_l in Hone. rewrite Hone.
  unfold or_else. by rewrite Htruthy.
Qed.

Lemma parse_junit_xml_first_suite_witness :
  parse_junit_xml
    (Some (Document
       (Elem "testsuites" (list_to_map [("tests", "12")])
          ([Elem "properties" ∅ []] ++
           Elem "testsuite" (list_to_map [("tests", "1")])
             [testcase_elem "a" "b" []]
           :: [Elem "testsuite" (list_to_map [("tests", "11")]) []]))))
  = parse_junit_xml
      (Some (Document
         (Elem "testsuites" ∅
            [Elem "testsuite" (list_to_map [("tests", "1")])
               [testcase_elem "a" "b" []]]))).
Proof.
  apply parse_junit_xml_first_suite.
  - reflexivity.
  - reflexivity.
  - repeat constructor. vm_compute. discriminate.
Defined.

(** X7: whatever the result file, the results read from it satisfy
    [passed + failed = total], every reason has at most 200 characters, and
    there are at most as many failure entries as the suite read has
    [testcase] children. *)
Theorem parse_junit_xml_invariants (junit : option junit_file) (r : test_results) :
  parse_junit_xml junit = Ret r ->
  passed r + failed r = total r /\
  Forall (fun entry => (String.length (reason entry) <= 200)%nat) (failures r) /\
  (forall root, junit = Some (Document root) ->
     (length (failures r)
      <= length (findall (or_else (find root "testsuite") root) "testcase"))%nat).
Proof.
  destruct junit as [[root|]|]; cbn [parse_junit_xml]; [| discriminate |].
  - set (testsuite := or_else (find root "testsuite") root).
    destruct (int_attr testsuite "tests") as [t| |]; cbn; try discriminate.
    destruct (int_attr testsuite "failures") as [f| |]; cbn; try discriminate.
    destruct (int_attr testsuite "errors") as [e| |]; cbn; try discriminate.
    unfold mret, outcome_ret. intros [= <-]. cbn.
    rewrite foldl_add_failure. cbn.
    split; [lia|]. split.
    + apply Forall_forall. intros entry Hin.
      apply list_elem_of_omap in Hin as (tc & _ & Hentry).
      destruct (failing_child tc) as [el|]; [|discriminate].
      injection Hentry as <-. cbn. apply slice_to_length.
    + intros root' [= <-]. apply omap_length_le.
  - intros [= <-]. cbn. split; [lia|]. split; [constructor|]. discriminate.
Qed.

Lemma parse_junit_xml_invariants_witness :
  4 + 1 = 5 /\
  Forall (fun entry => (String.length (reason entry) <= 200)%nat)
    [ {| name := "tests.test_crud.test_update_item";
         reason := "assert 404 == 200" |} ].
Proof.
  destruct (parse_junit_xml_invariants (Some (Document sample_report))
              {| total := 5; passed := 4; failed := 1;
                 failures := [ {| name := "tests.test_crud.test_update_item";
                                  reason := "assert 404 == 200" |} ] |})
    as (Hsum & Hlen & _).
  - vm_compute. reflexivity.
  - split; [exact Hsum | exact Hlen].
Defined.

End ReportMore.

(** ** More facts about [run] *)

Module RunMore.
Import Report Workflow RunVocabulary WorkflowFacts Config Cli.

Lemma generate_summary_raises self junit code e :
  parse_junit_xml junit = Raise e -> generate_summary self junit code = Raise e.
Proof. intros H. unfold generate_summary. by rewrite H. Qed.

Lemma generate_summary_returns self junit code r :
  parse_junit_xml junit = Ret r ->
  generate_summary self junit code =
    Ret {| s_run_id := run_id self;
           timestamp := start_time self;
           exit_code := code;
           environment_bring_up_time_seconds :=
             match start_time self, env_ready_time self with
             | Some t0, Some t1 => Some (t1 - t0)
             | _, _ => None
             end;
           test_runtime_seconds :=
             match env_ready_time self, test_end_time self with
             | Some t1, Some t2 => Some (t2 - t1)
             | _, _ => None
             end;
           total_tests := total r;
           s_passed := passed r;
           s_failed := failed r;
           s_failures := failures r |}.
Proof. intros H. unfold generate_summary. by rewrite H. Qed.

Ltac split_run :=
  unfold run_duration in *; unfold collects, tears_down in *;
  unfold junit_at_summary, decided_exit_code in *;
  unfold_run;
  destruct (up_exit _ =? 0) eqn:Hup; cbn in *;
  [destruct (test_exit _ =? 0) eqn:Htest; cbn in *; try case_bool_decide; cbn in *|].





(** A name without slash is one part of a path. *)
Lemma split_slash_plain l : forall cur,
  "/"%char ∉ l -> split_slash cur l = [string_of_list_ascii (rev cur ++ l)].
Proof.
  induction l as [|a l IH]; intros cur Hl; cbn [split_slash].
  - by rewrite app_nil_r.
  - apply not_elem_of_cons in Hl as [Ha Hl].
    rewrite bool_decide_eq_false_2 by done.
    rewrite IH by done. cbn [rev]. by rewrite <- app_assoc.
Qed.

Lemma Path_plain name :
  "/"%char ∉ list_ascii_of_string name -> name <> "" -> name <> "." ->
  Path name = {| anchor := ""; parts := [name] |}.
Proof.
  intros Hslash Hne Hdot. unfold Path, splitroot.
  assert (Hstrip : lstrip_slash (list_ascii_of_string name)
                   = list_ascii_of_string name).
  { destruct (list_ascii_of_string name) as [|a l]; [done|].
    apply not_elem_of_cons in Hslash as [Ha _]. cbn.
    by rewrite bool_decide_eq_false_2. }
  rewrite Hstrip, Nat.sub_diag, split_slash_plain by done.
  cbn [rev app]. rewrite string_of_list_ascii_of_string.
  by rewrite filter_cons_True, filter_nil.
Qed.

(** Without [--artifacts-dir] the artifacts go below [artifacts], into the
    directory named by the run id. *)
Lemma artifacts_path_of_default run_id :
  "/"%char ∉ list_ascii_of_string run_id -> run_id <> "" -> run_id <> "." ->
  str_Path (artifacts_path_of None run_id) = "artifacts/" +:+ run_id.
Proof.
  intros Hslash Hne Hdot. unfold artifacts_path_of, truediv.
  rewrite Path_plain by done. cbn [anchor parts].
  rewrite bool_decide_eq_true_2 by done.
  by vm_compute (Path "artifacts").
Qed.

(** X10: the calls of a run whose health checks are typed and whose result
    file can be read, in order: [up], once and first; the tests, exactly when
    [up] returned 0; the collection of artifacts, exactly when the exit code
    is nonzero or the policy is [always]; the summary, once; [down], unless
    the retention flag is set and the exit code is nonzero.  All of them
    carry the same run id, the first twelve characters of the token drawn;
    the artifacts directory is handed on as [pathlib] writes it, which is
    [artifacts/<run id>] when none is given; and the run takes the time of
    the calls made. *)
Theorem run_calls pydantic env config suite parallel artifacts_dir timeout keep_on_fail t0 junit0 typed :
  dump_health_checks pydantic (health_checks config) = Ret typed ->
  readable (junit_at_summary env junit0) ->
  let run_id := slice_to 12 (uuid_hex env) in
  exists s w,
    run_command pydantic env config suite parallel artifacts_dir timeout
        keep_on_fail (initial_world t0 junit0)
      = (Exit (decided_exit_code env), w) /\
    trace w =
      [EvUp run_id (int_or timeout (Workflow.timeout config))]
      ++ (if up_exit env =? 0 then [EvTest suite parallel] else [])
      ++ (if collects env config
          then [EvCollectArtifacts run_id
                  (str_Path (artifacts_path_of artifacts_dir run_id))]
          else [])
      ++ [EvWriteSummary s]
      ++ (if tears_down env keep_on_fail then [EvDown run_id] else []) /\
    s_run_id s = run_id /\
    now w = t0 + run_duration env config keep_on_fail /\
    (artifacts_dir = None ->
     "/"%char ∉ list_ascii_of_string run_id -> run_id <> "" -> run_id <> "." ->
     str_Path (artifacts_path_of artifacts_dir run_id) = "artifacts/" +:+ run_id).
Proof.
  intros Htyped Hread run_id.
  assert (Hpath : artifacts_dir = None ->
            "/"%char ∉ list_ascii_of_string run_id -> run_id <> "" ->
            run_id <> "." ->
            str_Path (artifacts_path_of artifacts_dir run_id)
            = "artifacts/" +:+ run_id).
  { intros ->. apply artifacts_path_of_default. }
  subst run_id.
  unfold run_command, lift. unfold mbind at 1, M_bind at 1. rewrite Htyped.
  split_run;
    match goal with
    | |- context [generate_summary ?r ?j ?c] =>
        destruct Hread as [res Hres];
        rewrite (generate_summary_returns r j c res Hres)
    end;
    destruct keep_on_fail; cbn; do 2 eexists;
    (split; [reflexivity|]); cbn; (split; [reflexivity|]);
    (split; [reflexivity|]); (split; [lia | exact Hpath]).
Qed.

Lemma run_calls_witness :
  exists s w,
    run_command strict (sample_env 0 1 0) (sample_config on_fail) "all" None
        (Some "out/") (Some 0) true (initial_world 100 None) = (Exit 1, w) /\
    trace w =
      [EvUp "3f2a9c0d7b1e" 120; EvTest "all" None;
       EvCollectArtifacts "3f2a9c0d7b1e" "out"; EvWriteSummary s] /\
    s_run_id s = "3f2a9c0d7b1e" /\
    now w = 100 + (30 + 12 + 2 + 0).
Proof.
  destruct (run_calls strict (sample_env 0 1 0) (sample_config on_fail) "all" None
              (Some "out/") (Some 0) true 100 None
              [Config.model_dump
                 (HttpModel {| url := "http://localhost:8080/health";
                               expected_status := 200 |})])
    as (s & w & Hrun & Htrace & Hid & Hnow & _).
  - vm_compute. reflexivity.
  - apply sample_report_readable.
  - exists s, w. split; [exact Hrun|]. split; [exact Htrace|].
    split; [exact Hid | exact Hnow].
Defined.



End RunMore.

(** ** Facts about the command line of the test engine and about numerals *)

Module RunnerFacts.
Import Report Runner.

(** *** The numerals that [str] writes, read by [int] *)

Lemma digit_char_facts d :
  0 <= d < 10 ->
  digit_of (digit_char d) = Some d /\
  is_int_space (digit_char d) = false /\
  digit_char d <> "_"%char /\ digit_char d <> "-"%char /\
  digit_char d <> "+"%char.
Proof.
  intros Hd.
  assert (Hcases : d = 0 \/ d = 1 \/ d = 2 \/ d = 3 \/ d = 4 \/ d = 5 \/ d = 6
                   \/ d = 7 \/ d = 8 \/ d = 9) by lia.
  repeat (destruct Hcases as [-> | Hcases]; [by vm_compute|]).
  subst. by vm_compute.
Qed.

Lemma digits_of_digits fuel : forall n acc,
  0 <= n -> Forall is_digit_char acc ->
  Forall is_digit_char (digits_of fuel n acc).
Proof.
  induction fuel as [|fuel IH]; intros n acc Hn Hacc; cbn; [done|].
  assert (Hd : is_digit_char (digit_char (n mod 10))).
  { exists (n mod 10). split; [|done]. apply Z.mod_pos_bound. lia. }
  destruct (n <? 10); [by constructor|].
  apply IH; [apply Z.div_pos; lia | by constructor].
Qed.

Lemma digits_of_nonempty fuel n acc : digits_of (S fuel) n acc <> [].
Proof.
  revert n acc. induction fuel as [|fuel IH]; intros n acc.
  - cbn. by destruct (n <? 10).
  - remember (S fuel) as k. cbn. subst k. destruct (n <? 10); [done|]. apply IH.
Qed.

(** Reading the digits written for [n] multiplies what was read so far by a
    power of ten and adds [n]. *)
Lemma parse_digits_of fuel : forall n rest,
  0 <= n -> (Z.to_nat n < fuel)%nat ->
  exists p, forall a flag,
    parse_digits a flag (digits_of fuel n rest)
    = parse_digits (a * p + n) true rest.
Proof.
  induction fuel as [|fuel IH]; intros n rest Hn Hfuel; [lia|].
  cbn [digits_of].
  assert (Hmod : 0 <= n mod 10 < 10) by (apply Z.mod_pos_bound; lia).
  destruct (digit_char_facts (n mod 10) Hmod) as (Hdig & _ & Hus & _).
  destruct (Z.ltb_spec n 10).
  - exists 10. intros a flag. cbn [parse_digits].
    rewrite bool_decide_eq_false_2 by done. rewrite Hdig.
    rewrite Z.mod_small by lia. f_equal. lia.
  - destruct (IH (n / 10) (digit_char (n mod 10) :: rest)) as [p Hp].
    + apply Z.div_pos; lia.
    + assert (n / 10 < n) by (apply Z.div_lt; lia).
      assert (0 <= n / 10) by (apply Z.div_pos; lia). lia.
    + exists (p * 10). intros a flag. rewrite Hp. cbn [parse_digits].
      rewrite bool_decide_eq_false_2 by done. rewrite Hdig.
      f_equal. pose proof (Z.div_mod n 10 ltac:(lia)). lia.
Qed.

Lemma drop_int_spaces_id l :
  Forall (fun c => is_int_space c = false) l -> drop_int_spaces l = l.
Proof. intros [|c l' Hc _]; [done|]. cbn. by rewrite Hc. Qed.

Lemma int_strip_id l :
  Forall (fun c => is_int_space c = false) l -> int_strip l = l.
Proof.
  intros H. unfold int_strip. rewrite (drop_int_spaces_id l H).
  rewrite drop_int_spaces_id by (by apply Forall_rev). apply rev_involutive.
Qed.

Lemma digits_no_space l :
  Forall is_digit_char l -> Forall (fun c => is_int_space c = false) l.
Proof.
  intros H. eapply Forall_impl; [exact H|].
  intros c (d & Hd & ->). by apply digit_char_facts.
Qed.

Lemma py_int_str_int n : py_int (str_int n) = Ret n.
Proof.
  unfold py_int, str_int.
  destruct (Z.ltb_spec n 0) as [Hneg|Hpos];
    rewrite list_ascii_of_string_of_list_ascii.
  - pose proof (digits_of_digits (S (Z.to_nat (- n))) (- n) [] ltac:(lia)
                  ltac:(constructor)) as Hdigits.
    rewrite int_strip_id.
    2:{ constructor; [by vm_compute | by apply digits_no_space]. }
    rewrite bool_decide_eq_true_2 by done.
    destruct (parse_digits_of (S (Z.to_nat (- n))) (- n) [] ltac:(lia) ltac:(lia))
      as [p Hp].
    rewrite Hp. cbn. f_equal; lia.
  - pose proof (digits_of_digits (S (Z.to_nat n)) n [] Hpos ltac:(constructor))
      as Hdigits.
    rewrite int_strip_id by (by apply digits_no_space).
    destruct (parse_digits_of (S (Z.to_nat n)) n [] Hpos ltac:(lia)) as [p Hp].
    destruct (digits_of (S (Z.to_nat n)) n []) as [|c l] eqn:Hl.
    { by apply digits_of_nonempty in Hl. }
    apply Forall_cons in Hdigits as [(d & Hd & ->) _].
    destruct (digit_char_facts d Hd) as (_ & _ & _ & Hminus & Hplus).
    rewrite !bool_decide_eq_false_2 by done.
    rewrite Hp. cbn. f_equal; lia.
Qed.

(** How many digits [str] writes: at most [k] below the [k]-th power of
    ten, more than [k] from there on. *)
Lemma digits_of_length_le fuel : forall n acc (k : nat),
  0 <= n < 10 ^ Z.of_nat (S k) ->
  (length (digits_of fuel n acc) <= S k + length acc)%nat.
Proof.
  induction fuel as [|fuel IH]; intros n acc k Hn; cbn [digits_of]; [lia|].
  destruct (Z.ltb_spec n 10); [cbn; lia|].
  destruct k as [|k]; [cbn in Hn; lia|].
  etrans; [apply (IH (n / 10) _ k)|cbn; lia].
  split; [apply Z.div_pos; lia|].
  apply Z.div_lt_upper_bound; [lia|].
  rewrite <- Z.pow_succ_r by lia. rewrite <- Nat2Z.inj_succ. lia.
Qed.

Lemma digits_of_length_gt fuel : forall n acc (k : nat),
  (Z.to_nat n < fuel)%nat -> 10 ^ Z.of_nat k <= n ->
  (S k + length acc <= length (digits_of fuel n acc))%nat.
Proof.
  induction fuel as [|fuel IH]; intros n acc k Hfuel Hn; [lia|].
  assert (0 < 10 ^ Z.of_nat k) by (apply Z.pow_pos_nonneg; lia).
  cbn [digits_of].
  destruct (Z.ltb_spec n 10).
  - destruct k as [|k]; [cbn; lia|].
    rewrite Nat2Z.inj_succ, Z.pow_succ_r in Hn by lia.
    assert (0 < 10 ^ Z.of_nat k) by (apply Z.pow_pos_nonneg; lia). lia.
  - assert (n / 10 < n) by (apply Z.div_lt; lia).
    assert (0 <= n / 10) by (apply Z.div_pos; lia).
    destruct k as [|k].
    + etrans; [|apply (IH (n / 10) _ 0%nat)]; [cbn; lia | lia |].
      cbn. apply Z.div_le_lower_bound; lia.
    + etrans; [|apply (IH (n / 10) _ k)]; [cbn; lia | lia |].
      apply Z.div_le_lower_bound; [lia|].
      rewrite <- Z.pow_succ_r by lia. rewrite <- Nat2Z.inj_succ. lia.
Qed.

Lemma count_digits_all l :
  Forall is_digit_char l -> count_digits (string_of_list_ascii l) = length l.
Proof.
  unfold count_digits. rewrite list_ascii_of_string_of_list_ascii.
  induction 1 as [|c l (d & Hd & ->) _ IH]; [done|].
  destruct (digit_char_facts d Hd) as (Hdig & _).
  rewrite filter_cons_True by (rewrite Hdig; eauto). cbn. by rewrite IH.
Qed.

(** The digits of the numeral of [n] are those of its absolute value. *)
Lemma count_digits_str_int n :
  count_digits (str_int n)
  = length (digits_of (S (Z.to_nat (Z.abs n))) (Z.abs n) []).
Proof.
  unfold str_int. destruct (Z.ltb_spec n 0).
  - rewrite Z.abs_neq by lia.
    pose proof (digits_of_digits (S (Z.to_nat (- n))) (- n) [] ltac:(lia)
                  ltac:(constructor)) as Hdigits.
    rewrite <- (count_digits_all _ Hdigits).
    unfold count_digits. rewrite !list_ascii_of_string_of_list_ascii.
    rewrite filter_cons_False; [done|].
    intros [d Hd]. vm_compute in Hd. discriminate.
  - rewrite Z.abs_eq by lia.
    apply count_digits_all, digits_of_digits; [done | constructor].
Qed.

Lemma py_int_checked_str_int n :
  Z.abs n < 10 ^ Z.of_nat int_max_str_digits ->
  py_int_checked (str_int n) = Ret n.
Proof.
  intros Hn. unfold py_int_checked.
  assert (Hlen : (count_digits (str_int n) <= int_max_str_digits)%nat).
  { rewrite count_digits_str_int.
    pose proof (digits_of_length_le (S (Z.to_nat (Z.abs n))) (Z.abs n) []
                  (pred int_max_str_digits)) as Hle.
    change (S (pred int_max_str_digits)) with int_max_str_digits in Hle.
    rewrite Nat.add_0_r in Hle. apply Hle. lia. }
  apply Nat.ltb_ge in Hlen. rewrite Hlen. apply py_int_str_int.
Qed.

Lemma py_int_checked_too_long n :
  10 ^ Z.of_nat int_max_str_digits <= Z.abs n ->
  py_int_checked (str_int n) = Raise ValueError.
Proof.
  intros Hn. unfold py_int_checked.
  assert (Hlen : (int_max_str_digits < count_digits (str_int n))%nat).
  { rewrite count_digits_str_int.
    pose proof (digits_of_length_gt (S (Z.to_nat (Z.abs n))) (Z.abs n) []
                  int_max_str_digits ltac:(lia) Hn) as Hgt.
    rewrite Nat.add_0_r in Hgt. exact Hgt. }
  apply Nat.ltb_lt in Hlen. by rewrite Hlen.
Qed.

Lemma int_attr_count e key n :
  count_attr e key n -> Z.abs n < 10 ^ Z.of_nat int_max_str_digits ->
  int_attr e key = Ret n.
Proof.
  unfold int_attr. intros [-> | [-> ->]] Hn; [by apply py_int_checked_str_int | done].
Qed.

(** X12: a result file whose suite element has each of the counts [tests],
    [failures] and [errors] written as a decimal numeral of at most 4300
    digits, or left out (then 0), is read without an exception, with exactly
    these counts; a count written with more digits than that is refused by
    [int], and reading the file raises [ValueError]. *)
Theorem parse_junit_xml_reads_numerals :
  (forall root t f e,
     let testsuite := or_else (find root "testsuite") root in
     count_attr testsuite "tests" t ->
     count_attr testsuite "failures" f ->
     count_attr testsuite "errors" e ->
     Z.abs t < 10 ^ Z.of_nat int_max_str_digits ->
     Z.abs f < 10 ^ Z.of_nat int_max_str_digits ->
     Z.abs e < 10 ^ Z.of_nat int_max_str_digits ->
     exists failures,
       parse_junit_xml (Some (Document root))
       = Ret {| total := t; passed := t - f - e; failed := f + e;
                failures := failures |}) /\
  (forall root t,
     let testsuite := or_else (find root "testsuite") root in
     get testsuite "tests" = Some (str_int t) ->
     10 ^ Z.of_nat int_max_str_digits <= Z.abs t ->
     parse_junit_xml (Some (Document root)) = Raise ValueError).
Proof.
  split.
  - intros root t f e testsuite Ht Hf He Htn Hfn Hen.
    cbn [parse_junit_xml]. fold testsuite.
    rewrite (int_attr_count _ _ _ Ht Htn), (int_attr_count _ _ _ Hf Hfn),
      (int_attr_count _ _ _ He Hen).
    cbn. eauto.
  - intros root t testsuite Ht Htn. cbn [parse_junit_xml]. fold testsuite.
    assert (Hraise : int_attr testsuite "tests" = Raise ValueError).
    { unfold int_attr. rewrite Ht. by apply py_int_checked_too_long. }
    by rewrite Hraise.
Qed.

Lemma parse_junit_xml_reads_numerals_witness :
  exists failures,
    parse_junit_xml (Some (Document (counted_suite 120 3 (-1) [])))
    = Ret {| total := 120; passed := 120 - 3 - -1; failed := 3 + -1;
             failures := failures |}.
Proof.
  destruct parse_junit_xml_reads_numerals as [Hread _].
  apply (Hread (counted_suite 120 3 (-1) []) 120 3 (-1));
    try (left; vm_compute; reflexivity);
    unfold Z.lt; vm_compute; reflexivity.
Defined.

(** X13: the command line of the test engine always starts with the
    interpreter, [-m pytest], the test path and [-v], and always ends with
    [--junit-xml] and the path of the result file under the artifacts
    directory.  In between, a marker filter [-m suite] is there exactly when
    the suite is neither empty nor ["all"], and a worker count [-n] exactly
    when [parallel] is greater than 1 (not for 0, 1 or a negative number);
    the count written reads back as [parallel]. *)
Theorem build_pytest_args_shape (executable : string) (self : TestRunner)
    (test_path : string) :
  exists marker workers,
    build_pytest_args executable self test_path
    = [executable; "-m"; "pytest"; test_path; "-v"] ++ marker ++ workers
      ++ ["--junit-xml"; str_path (junit_path (artifacts_dir self))] /\
    (marker = [] \/ marker = ["-m"; suite self]) /\
    (marker = [] <-> suite self = "" \/ suite self = "all") /\
    (workers = [] <-> forall n, parallel self = Some n -> n <= 1) /\
    (forall n, parallel self = Some n -> 1 < n ->
       exists count, workers = ["-n"; count] /\ py_int count = Ret n).
Proof.
  unfold build_pytest_args.
  exists (if negb (bool_decide (suite self = ""))
             && negb (bool_decide (suite self = "all"))
          then ["-m"; suite self] else []).
  exists (match parallel self with
          | Some n => if negb (n =? 0) && (1 <? n) then ["-n"; str_int n] else []
          | None => []
          end).
  split; [|split; [|split; [|split]]].
  - destruct (negb _ && negb _); destruct (parallel self) as [n|];
      try destruct (negb (n =? 0) && (1 <? n)); reflexivity.
  - destruct (negb _ && negb _); auto.
  - destruct (bool_decide_reflect (suite self = "")),
      (bool_decide_reflect (suite self = "all")); cbn;
      split; intros Hm; auto; try discriminate; destruct Hm; contradiction.
  - destruct (parallel self) as [n|]; [|split; [intros _ n; discriminate | done]].
    destruct (Z.eqb_spec n 0), (Z.ltb_spec 1 n); cbn; split; try done;
      try (intros _ m [= <-]; lia);
      intros Hall; specialize (Hall n eq_refl); lia.
  - intros n -> Hn. destruct (Z.eqb_spec n 0), (Z.ltb_spec 1 n); cbn; try lia.
    exists (str_int n). split; [done | apply py_int_str_int].
Qed.

Lemma build_pytest_args_shape_witness :
  exists count,
    count ∈ build_pytest_args "/usr/bin/python3"
              (TestRunner_init "smoke" (Some 4) None) "tests" /\
    py_int count = Ret 4.
Proof.
  destruct (build_pytest_args_shape "/usr/bin/python3"
              (TestRunner_init "smoke" (Some 4) None) "tests")
    as (marker & workers & Hargs & _ & _ & _ & Hworkers).
  destruct (Hworkers 4 eq_refl ltac:(lia)) as (count & Hw & Hcount).
  exists count. split; [|exact Hcount].
  rewrite Hargs, Hw, !elem_of_app, !elem_of_cons. auto 10.
Defined.

End RunnerFacts.

(** ** Facts about the typed health checks and the other commands *)

Module ConfigFacts.
Import Health Config.

Lemma str_eq_true v s : str_eq v s = true <-> v = Some (PStr s).
Proof.
  unfold str_eq. destruct v as [[| | |s']|]; try (split; [discriminate|]; congruence).
  - rewrite bool_decide_eq_true. split; congruence.
Qed.

Lemma model_dump_complete m : complete (model_dump m).
Proof.
  destruct m as [h|t]; [left|right]; cbn.
  - split; [by vm_compute|]. unfold model_dump. eexists. by vm_compute.
  - split; [by vm_compute|]. split; eexists; by vm_compute.
Qed.

Lemma model_dump_kind m :
  check_kind (model_dump m)
  = Some (match m with HttpModel _ => Http | TcpModel _ => Tcp end).
Proof. destruct m; by vm_compute. Qed.

Section Models.

Variable pydantic : Pydantic.

Lemma get_health_checks_from_returns hcs : forall acc models,
  get_health_checks_from pydantic hcs acc = Ret models ->
  exists new,
    models = acc ++ new /\
    Forall2 (fun c m =>
               match m with
               | TcpModel _ => c !! "type" = Some (PStr "tcp")
               | HttpModel _ => c !! "type" <> Some (PStr "tcp")
               end) hcs new.
Proof.
  induction hcs as [|c rest IH]; intros acc models H; cbn in H.
  - injection H as <-. exists []. by rewrite app_nil_r.
  - destruct (str_eq (c !! "type") "tcp") eqn:Htcp.
    + destruct (TcpHealthCheck_init pydantic c) as [t| |]; try discriminate.
      apply IH in H as (new & -> & Hall).
      exists (TcpModel t :: new). rewrite <- app_assoc. split; [done|].
      constructor; [by apply str_eq_true | done].
    + destruct (HttpHealthCheck_init pydantic c) as [h| |]; try discriminate.
      apply IH in H as (new & -> & Hall).
      exists (HttpModel h :: new). rewrite <- app_assoc. split; [done|].
      constructor; [|done]. intros Hty. apply str_eq_true in Hty. congruence.
Qed.

Lemma hopeless_raises c :
  hopeless c ->
  (if str_eq (c !! "type") "tcp"
   then TcpHealthCheck_init pydantic c = Raise ValueError
   else HttpHealthCheck_init pydantic c = Raise ValueError).
Proof.
  unfold TcpHealthCheck_init, HttpHealthCheck_init, literal_ok, required.
  intros [(v & Hv & Hhttp & Htcp) | [(Hty & Hmiss) | (Hty & Hurl)]].
  - rewrite Hv. unfold str_eq.
    destruct v as [| | |s]; rewrite ?bool_decide_eq_false_2 by congruence;
      done.
  - rewrite Hty. cbn. rewrite !bool_decide_eq_true_2 by done.
    destruct Hmiss as [-> | ->]; [done|].
    by destruct (c !! "host") as [v|]; [destruct (validate_str pydantic v)|].
  - destruct (str_eq (c !! "type") "tcp") eqn:Htcp.
    { apply str_eq_true in Htcp. congruence. }
    rewrite Hurl. by destruct (match c !! "type" with Some v => _ | None => _ end).
Qed.

Lemma TcpHealthCheck_init_cases c :
  (exists t, TcpHealthCheck_init pydantic c = Ret t) \/
  TcpHealthCheck_init pydantic c = Raise ValueError.
Proof.
  unfold TcpHealthCheck_init.
  destruct (literal_ok _ _), (required (validate_str pydantic) (c !! "host")),
    (required (validate_int pydantic) (c !! "port")); eauto.
Qed.

Lemma HttpHealthCheck_init_cases c :
  (exists h, HttpHealthCheck_init pydantic c = Ret h) \/
  HttpHealthCheck_init pydantic c = Raise ValueError.
Proof.
  unfold HttpHealthCheck_init.
  destruct (literal_ok _ _), (required (validate_str pydantic) (c !! "url")),
    (optional (validate_int pydantic) 200 (c !! "expected_status")); eauto.
Qed.

(** The loop returns the typed checks or raises a [ValueError]. *)
Lemma get_health_checks_from_cases hcs : forall acc,
  (exists models, get_health_checks_from pydantic hcs acc = Ret models) \/
  get_health_checks_from pydantic hcs acc = Raise ValueError.
Proof.
  induction hcs as [|c rest IH]; intros acc; cbn; [eauto|].
  destruct (str_eq (c !! "type") "tcp").
  - destruct (TcpHealthCheck_init_cases c) as [[t ->] | ->]; [apply IH | by right].
  - destruct (HttpHealthCheck_init_cases c) as [[h ->] | ->]; [apply IH | by right].
Qed.

Lemma get_health_checks_from_hopeless hcs : forall acc,
  Exists hopeless hcs ->
  get_health_checks_from pydantic hcs acc = Raise ValueError.
Proof.
  induction hcs as [|c rest IH]; intros acc Hex.
  - by apply Exists_nil in Hex.
  - apply Exists_cons in Hex as [Hc | Hrest]; cbn.
    + pose proof (hopeless_raises c Hc) as Hr.
      destruct (str_eq (c !! "type") "tcp"); by rewrite Hr.
    + destruct (str_eq (c !! "type") "tcp").
      * destruct (TcpHealthCheck_init_cases c) as [[t ->] | ->]; [by apply IH | done].
      * destruct (HttpHealthCheck_init_cases c) as [[h ->] | ->]; [by apply IH | done].
Qed.

End Models.

Lemma recognised_all (l : list check) :
  Forall (fun c => is_Some (check_kind c)) l ->
  length (recognised l) = length l.
Proof.
  unfold recognised. induction 1 as [|c l [k Hk] _ IH]; [done|].
  cbn. rewrite Hk. cbn. by rewrite IH.
Qed.

(** X14: the records that the commands hand on after typing them are all
    probed by the poller: there are as many as in the configuration, in the
    same order, each with type ["tcp"] if the configured type is ["tcp"] and
    ["http"] otherwise, and each with the fields its probe reads; none of
    them is of a type the poller would skip. *)
Theorem dump_health_checks_recognised (pydantic : Pydantic)
    (hcs dumped : list check) :
  dump_health_checks pydantic hcs = Ret dumped ->
  Forall2 (fun c d =>
             check_kind d
             = Some (if str_eq (c !! "type") "tcp" then Tcp else Http))
          hcs dumped /\
  Forall complete dumped /\
  Forall (fun d => ~ unrecognised d) dumped /\
  length (recognised dumped) = length hcs.
Proof.
  unfold dump_health_checks, get_health_checks. intros H.
  destruct (get_health_checks_from pydantic hcs []) as [models| |] eqn:Hget;
    try discriminate.
  injection H as <-.
  apply get_health_checks_from_returns in Hget as (new & -> & Hall).
  cbn [app].
  assert (Hkinds : Forall2 (fun c d =>
             check_kind d
             = Some (if str_eq (c !! "type") "tcp" then Tcp else Http))
          hcs (model_dump <$> new)).
  { induction Hall as [|c m hcs' new' Hcm _ IH]; cbn; constructor; [|exact IH].
    rewrite model_dump_kind. destruct m.
    - destruct (str_eq (c !! "type") "tcp") eqn:Hs; [|done].
      apply str_eq_true in Hs. done.
    - rewrite (proj2 (str_eq_true _ _) Hcm). done. }
  assert (Hcomplete : Forall complete (model_dump <$> new)).
  { apply Forall_fmap, Forall_forall. intros m _. apply model_dump_complete. }
  assert (Hsome : Forall (fun d => is_Some (check_kind d)) (model_dump <$> new)).
  { apply Forall_fmap, Forall_forall. intros m _. cbn.
    rewrite model_dump_kind. eauto. }
  repeat split; try done.
  - eapply Forall_impl; [exact Hsome|]. intros d [k Hk] Hun.
    apply HealthFacts.unrecognised_kind in Hun. congruence.
  - rewrite recognised_all by done.
    apply Forall2_length in Hkinds. done.
Qed.

Lemma dump_health_checks_recognised_witness :
  length (recognised
            [model_dump (HttpModel {| url := "http://localhost:8080/health";
                                      expected_status := 200 |});
             model_dump (TcpModel {| host := "db"; port := 5432 |})])
  = length [delete "type" http_check; tcp_check].
Proof.
  apply (dump_health_checks_recognised strict
           [delete "type" http_check; tcp_check]).
  vm_compute. reflexivity.
Defined.

(** A record without type is typed as an HTTP check. *)
Lemma get_health_checks_from_untyped (pydantic : Pydantic) (hcs : list check)
    (c : check) (models : list HealthCheck) : forall acc,
  c ∈ hcs -> c !! "type" = None ->
  get_health_checks_from pydantic hcs acc = Ret models ->
  exists h, HttpModel h ∈ models /\
            Some (url h) = c !! "url" ≫= validate_str pydantic.
Proof.
  induction hcs as [|c0 rest IH]; intros acc Hin Hty Hget;
    [by apply elem_of_nil in Hin|].
  cbn in Hget.
  apply elem_of_cons in Hin as [<- | Hin].
  - rewrite Hty in Hget. cbn in Hget.
    unfold HttpHealthCheck_init in Hget. rewrite Hty in Hget. cbn in Hget.
    destruct (required (validate_str pydantic) (c !! "url")) as [u|] eqn:Hu;
      [|discriminate].
    destruct (optional (validate_int pydantic) 200 (c !! "expected_status"))
      as [st|]; [|discriminate].
    exists {| url := u; expected_status := st |}. split.
    + apply get_health_checks_from_returns in Hget as (new & -> & _).
      rewrite !elem_of_app, elem_of_cons. auto.
    + cbn. unfold required in Hu. by destruct (c !! "url").
  - destruct (str_eq (c0 !! "type") "tcp").
    + destruct (TcpHealthCheck_init pydantic c0); try discriminate.
      by apply (IH _ Hin Hty Hget).
    + destruct (HttpHealthCheck_init pydantic c0); try discriminate.
      by apply (IH _ Hin Hty Hget).
Qed.

(** X15: for records with string keys, typing the health checks raises a
    [ValidationError] (a [ValueError]) whenever some record has a type that
    is neither ["http"] nor ["tcp"], is a TCP record without host or port, or
    is another record without URL, whatever pydantic converts.  So a record
    with a type that the poller would pass over never gets as far as the
    poller, while a record without type is taken for an HTTP check. *)
Theorem get_health_checks_rejects (pydantic : Pydantic) (hcs : list check) :
  (Exists hopeless hcs ->
   get_health_checks pydantic hcs = Raise ValueError /\
   dump_health_checks pydantic hcs = Raise ValueError) /\
  (forall c, c ∈ hcs -> unrecognised c -> is_Some (c !! "type") ->
             dump_health_checks pydantic hcs = Raise ValueError) /\
  (forall c models, c ∈ hcs -> c !! "type" = None ->
     get_health_checks pydantic hcs = Ret models ->
     exists h, HttpModel h ∈ models /\
               Some (url h) = c !! "url" ≫= validate_str pydantic).
Proof.
  assert (Hraise : Exists hopeless hcs ->
            get_health_checks pydantic hcs = Raise ValueError /\
            dump_health_checks pydantic hcs = Raise ValueError).
  { intros Hex. unfold dump_health_checks, get_health_checks.
    by rewrite get_health_checks_from_hopeless. }
  split; [exact Hraise|]. split.
  - intros c Hin [Hhttp Htcp] [v Hv]. apply Hraise, Exists_exists.
    exists c. split; [done|]. left. exists v. split; [done|].
    split; congruence.
  - intros c models Hin Hty Hget.
    by apply (get_health_checks_from_untyped pydantic hcs c models [] Hin Hty).
Qed.

Lemma grpc_check_hopeless : hopeless grpc_check.
Proof.
  left. exists (PStr "grpc"). split; [by vm_compute|]. split; congruence.
Defined.

Lemma get_health_checks_rejects_witness :
  get_health_checks strict [http_check; grpc_check] = Raise ValueError /\
  dump_health_checks strict [http_check; grpc_check] = Raise ValueError.
Proof.
  destruct (get_health_checks_rejects strict [http_check; grpc_check])
    as [Hraise _].
  apply Hraise.
  apply Exists_cons. right. apply Exists_cons. left. apply grpc_check_hopeless.
Defined.

End ConfigFacts.

Module CliFacts.
Import Report Workflow Config Cli ConfigFacts.

Lemma slice_to_exact n s :
  (n <= String.length s)%nat -> String.length (slice_to n s) = n.
Proof.
  unfold slice_to. revert s.
  induction n as [|n IH]; intros [|a s]; cbn; intros H; try done; try lia.
  rewrite IH; [done | lia].
Qed.



(** X17: the command [down] makes one call, [down] with the run id
    ["cleanup"], and exits with the code it returns.  That id is never the
    id under which [up] or [run] started an environment: theirs has twelve
    characters whenever the token drawn has at least twelve. *)
Theorem down_command_run_id (pydantic : Pydantic) (env : Env)
    (config : SpecConfig) (timeout : option Z) (w : world) :
  (exists w',
     Cli.down env config w = (Exit (down_exit env), w') /\
     trace w' = trace w ++ [EvDown "cleanup"]) /\
  ((12 <= String.length (uuid_hex env))%nat ->
   forall run_id timeout_secs w',
     (Cli.up pydantic env config timeout w).2 = w' ->
     EvUp run_id timeout_secs ∈ trace w' -> EvUp run_id timeout_secs ∉ trace w ->
     String.length run_id = 12%nat /\ run_id <> "cleanup").
Proof.
  split.
  - unfold Cli.down, ansible_down, emit, elapse, sys_exit.
    unfold mbind, M_bind, mret, M_ret. cbn. eauto.
  - intros Hlen run_id timeout_secs w' Hw' Hin Hnot.
    assert (Hrid : run_id = slice_to 12 (uuid_hex env)).
    { subst w'. revert Hin.
      unfold Cli.up, lift, generate_run_id, ansible_up, emit, elapse, sys_exit.
      unfold mbind, M_bind, mret, M_ret. cbn.
      destruct (dump_health_checks pydantic (health_checks config)); cbn;
        try done.
      rewrite elem_of_app, elem_of_cons, elem_of_nil.
      intros [Hin | [Hin | []]]; [done | congruence]. }
    subst run_id. rewrite slice_to_exact by done.
    split; [done|]. intros Heq.
    pose proof (slice_to_exact 12 (uuid_hex env) Hlen) as Hl.
    rewrite Heq in Hl. vm_compute in Hl. discriminate.
Qed.

Lemma down_command_run_id_witness :
  String.length "3f2a9c0d7b1e" = 12%nat /\ "3f2a9c0d7b1e" <> "cleanup".
Proof.
  destruct (down_command_run_id strict (sample_env 0 0 0)
              (sample_config on_fail) None (initial_world 0 None))
    as [_ Hid].
  apply (Hid ltac:(vm_compute; lia) "3f2a9c0d7b1e" 120 _ eq_refl).
  - change (EvUp "3f2a9c0d7b1e" 120 ∈ [EvUp "3f2a9c0d7b1e" 120]).
    apply list_elem_of_here.
  - change (EvUp "3f2a9c0d7b1e" 120 ∉ []). apply not_elem_of_nil.
Defined.

End CliFacts.

(** ** The paths of [run], with and without a result file that can be read *)

Module RunPaths.
Import Report Workflow RunVocabulary WorkflowFacts ReportMore RunMore Config Cli
  ConfigFacts.

(** Reading the result file returns or raises. *)
Lemma parse_junit_xml_cases junit :
  readable junit \/ exists e, parse_junit_xml junit = Raise e.
Proof.
  destruct (parse_junit_xml junit) as [r|e|code] eqn:Hparse.
  - left. by exists r.
  - right. by exists e.
  - by apply parse_junit_xml_not_exit in Hparse.
Qed.

(** Typing the health checks returns or raises. *)
Lemma dump_health_checks_cases pydantic hcs :
  (exists typed, dump_health_checks pydantic hcs = Ret typed) \/
  dump_health_checks pydantic hcs = Raise ValueError.
Proof.
  unfold dump_health_checks, get_health_checks.
  destruct (get_health_checks_from_cases pydantic hcs []) as [[models ->] | ->];
    eauto.
Qed.

Ltac summary_outcome Hparse :=
  match goal with
  | |- context [generate_summary ?r ?j ?c] =>
      first [ rewrite (generate_summary_returns r j c _ Hparse)
            | rewrite (generate_summary_raises r j c _ Hparse) ]
  end.

(** C7, as the code has it: when the environment came up and the tests
    return nonzero, the artifacts are collected, whatever the policy.  If the
    result file can then be read, the summary, with exit code 1, is written,
    [down] is left out exactly when the retention flag is set, and the run
    exits with code 1.  If reading it raises, the run ends with that
    exception: no summary is written and [down] is not called, with or
    without the flag. *)
Theorem run_test_failure env config suite parallel artifacts_dir timeout keep_on_fail t0 junit0 :
  up_exit env = 0 -> test_exit env <> 0 ->
  exists w,
    (run env config suite parallel artifacts_dir timeout keep_on_fail
         (initial_world t0 junit0)).2 = w /\
    calls_collect (trace w) = true /\
    (readable (test_junit env junit0) \/
     exists e, parse_junit_xml (test_junit env junit0) = Raise e) /\
    (readable (test_junit env junit0) ->
     exists s,
       run env config suite parallel artifacts_dir timeout keep_on_fail
           (initial_world t0 junit0) = (Exit 1, w) /\
       exit_code s = 1 /\
       (calls_down (trace w) = false <-> keep_on_fail = true) /\
       summaries (trace w) = [s] /\
       summary_json w = Some s) /\
    (forall e,
       parse_junit_xml (test_junit env junit0) = Raise e ->
       run env config suite parallel artifacts_dir timeout keep_on_fail
           (initial_world t0 junit0) = (Raise e, w) /\
       summaries (trace w) = [] /\ summary_json w = None /\
       calls_down (trace w) = false).
Proof.
  intros Hup Htest.
  apply Z.eqb_eq in Hup. apply Z.eqb_neq in Htest.
  eexists. split; [reflexivity|].
  split; [|split; [apply parse_junit_xml_cases|split]].
  - unfold_run. rewrite Hup, Htest. cbn.
    destruct (parse_junit_xml (test_junit env junit0)) as [r|e|code] eqn:Hparse;
      [| |by apply parse_junit_xml_not_exit in Hparse];
      summary_outcome Hparse; destruct keep_on_fail; reflexivity.
  - intros [r Hparse]. unfold_run. rewrite Hup, Htest. cbn.
    summary_outcome Hparse. destruct keep_on_fail; cbn; eexists;
      (split; [reflexivity|]); cbn; repeat split; done.
  - intros e Hparse. unfold_run. rewrite Hup, Htest. cbn.
    summary_outcome Hparse. destruct keep_on_fail; cbn; repeat split.
Qed.

Lemma run_test_failure_witness :
  (exists s w,
     run (sample_env 0 1 0) (sample_config on_fail) "smoke" (Some 4) (Some "out")
         None true (initial_world 0 None) = (Exit 1, w) /\
     exit_code s = 1 /\
     calls_down (trace w) = false /\
     calls_collect (trace w) = true /\
     summaries (trace w) = [s]) /\
  (exists w,
     run (truncated_env 1) (sample_config on_fail) "smoke" (Some 4) (Some "out")
         None false (initial_world 0 None) = (Raise ParseError, w) /\
     calls_collect (trace w) = true /\
     summaries (trace w) = [] /\
     calls_down (trace w) = false).
Proof.
  split.
  - destruct (run_test_failure (sample_env 0 1 0) (sample_config on_fail) "smoke"
                (Some 4) (Some "out") None true 0 None)
      as (w & _ & Hcollect & _ & Hread & _); [reflexivity | cbn; lia |].
    destruct (Hread sample_report_readable) as (s & Hrun & Hcode & Hdown & Hs & _).
    exists s, w. split; [exact Hrun|]. split; [exact Hcode|].
    split; [by apply Hdown|]. split; [exact Hcollect | exact Hs].
  - destruct (run_test_failure (truncated_env 1) (sample_config on_fail) "smoke"
                (Some 4) (Some "out") None false 0 None)
      as (w & _ & Hcollect & _ & _ & Hraise); [reflexivity | cbn; lia |].
    destruct (Hraise ParseError eq_refl) as (Hrun & Hs & _ & Hdown).
    exists w. split; [exact Hrun|]. split; [exact Hcollect|].
    split; [exact Hs | exact Hdown].
Defined.

(** C7, as the specification words it, fails when the test engine leaves a
    result file that does not parse: the run ends with the parse error, no
    summary is written, and [down] is not called although the retention flag
    is not set. *)
Lemma test_failure_unreadable_report :
  ~ test_failure_claim (truncated_env 1) (sample_config on_fail) "all"
      None None None false 0 None.
Proof.
  intros Hclaim.
  destruct Hclaim as ([Hdown _] & _); [reflexivity | cbn; lia |].
  specialize (Hdown ltac:(vm_compute; reflexivity)). discriminate.
Qed.

(** C8, as the code has it: once the environment is up and the tests have
    run, the artifacts are collected exactly when the exit code decided on is
    nonzero or the policy is [always]; with passing tests and the policy
    [on_fail] nothing is collected.  If the result file can then be read, the
    run exits with that code, and with passing tests [down] is called and the
    code is 0.  If reading it raises, the run ends with that exception and
    [down] is not called. *)
Theorem run_collects_iff env config suite parallel artifacts_dir timeout keep_on_fail t0 junit0 :
  up_exit env = 0 ->
  exists code w,
    (run env config suite parallel artifacts_dir timeout keep_on_fail
         (initial_world t0 junit0)).2 = w /\
    code = decided_exit_code env /\
    (calls_collect (trace w) = true <->
     code <> 0 \/ artifacts_collect config = always) /\
    (test_exit env = 0 ->
     code = 0 /\
     (artifacts_collect config = on_fail -> calls_collect (trace w) = false)) /\
    (readable (test_junit env junit0) \/
     exists e, parse_junit_xml (test_junit env junit0) = Raise e) /\
    (readable (test_junit env junit0) ->
     run env config suite parallel artifacts_dir timeout keep_on_fail
         (initial_world t0 junit0) = (Exit code, w) /\
     (test_exit env = 0 -> calls_down (trace w) = true)) /\
    (forall e,
       parse_junit_xml (test_junit env junit0) = Raise e ->
       run env config suite parallel artifacts_dir timeout keep_on_fail
           (initial_world t0 junit0) = (Raise e, w) /\
       summaries (trace w) = [] /\
       calls_down (trace w) = false).
Proof.
  intros Hup. apply Z.eqb_eq in Hup.
  eexists _, _. split; [reflexivity|]. split; [reflexivity|].
  unfold decided_exit_code. rewrite Hup. cbn [negb].
  split; [|split; [|split; [apply parse_junit_xml_cases|split]]].
  - unfold_run. rewrite Hup. cbn.
    destruct (parse_junit_xml (test_junit env junit0)) as [r|e|code] eqn:Hparse;
      [| |by apply parse_junit_xml_not_exit in Hparse];
      destruct (Z.eqb_spec (test_exit env) 0) as [Ht|Ht]; cbn;
      try case_bool_decide; cbn; summary_outcome Hparse;
      destruct keep_on_fail; cbn;
      (split; [intros; auto; try discriminate; (by left) || (by right)
              | intros [?|?]; done]).
  - intros Ht. apply Z.eqb_eq in Ht. rewrite Ht. split; [reflexivity|].
    intros Hpol. unfold_run. rewrite Hup, Ht. cbn.
    rewrite bool_decide_eq_false_2 by (rewrite Hpol; discriminate). cbn.
    destruct (parse_junit_xml (test_junit env junit0)) as [r|e|code] eqn:Hparse;
      [| |by apply parse_junit_xml_not_exit in Hparse];
      summary_outcome Hparse; destruct keep_on_fail; cbn; done.
  - intros [r Hparse]. unfold_run. rewrite Hup. cbn.
    destruct (Z.eqb_spec (test_exit env) 0) as [Ht|Ht]; cbn;
      try case_bool_decide; cbn; summary_outcome Hparse;
      destruct keep_on_fail; cbn; (split; [reflexivity|]); done.
  - intros e Hparse. unfold_run. rewrite Hup. cbn.
    destruct (Z.eqb_spec (test_exit env) 0) as [Ht|Ht]; cbn;
      try case_bool_decide; cbn; summary_outcome Hparse;
      destruct keep_on_fail; cbn; repeat split.
Qed.

Lemma run_collects_iff_witness :
  (exists w,
     run (sample_env 0 0 0) (sample_config on_fail) "all" None None None false
         (initial_world 0 None) = (Exit 0, w) /\
     calls_collect (trace w) = false /\ calls_down (trace w) = true) /\
  (exists w,
     run (truncated_env 0) (sample_config on_fail) "all" None None None false
         (initial_world 0 None) = (Raise ParseError, w) /\
     calls_collect (trace w) = false /\ calls_down (trace w) = false).
Proof.
  split.
  - destruct (run_collects_iff (sample_env 0 0 0) (sample_config on_fail) "all"
                None None None false 0 None)
      as (code & w & _ & Hcode & _ & Hpass & _ & Hread & _); [reflexivity|].
    destruct (Hread sample_report_readable) as [Hrun Hdown].
    destruct (Hpass eq_refl) as [_ Hcollect].
    exists w. rewrite Hrun, Hcode. split; [reflexivity|].
    split; [by apply Hcollect | by apply Hdown].
  - destruct (run_collects_iff (truncated_env 0) (sample_config on_fail) "all"
                None None None false 0 None)
      as (code & w & _ & _ & _ & Hpass & _ & _ & Hraise); [reflexivity|].
    destruct (Hraise ParseError eq_refl) as (Hrun & _ & Hdown).
    destruct (Hpass eq_refl) as [_ Hcollect].
    exists w. split; [exact Hrun|]. split; [by apply Hcollect | exact Hdown].
Defined.

(** C8, as the specification words it, fails when the tests pass and leave
    a result file that does not parse: the run does not exit with code 0 and
    [down] is not called. *)
Lemma passing_run_unreadable_report :
  ~ passing_run_claim (truncated_env 0) (sample_config on_fail) "all"
      None None None false 0 None.
Proof.
  intros Hclaim.
  destruct Hclaim as (_ & Hdown & _); [reflexivity | reflexivity | reflexivity |].
  vm_compute in Hdown. discriminate.
Qed.

(** C9, as the code has it.  On no path of the command is the summary
    written twice, and on none does the return code of [down] matter.  On
    the paths on which the health checks are typed and the result file can be
    read when the summary is due, the summary is written exactly once, after
    any collection of artifacts and before any call of [down], with the exit
    code of the run.  On the other paths nothing is written: when typing the
    health checks raises, the command ends before anything is called; when
    reading the result file raises, it ends with that exception and [down] is
    not called. *)
Theorem run_summary_once pydantic env config suite parallel artifacts_dir timeout keep_on_fail t0 junit0 :
  let command env :=
    run_command pydantic env config suite parallel artifacts_dir timeout
      keep_on_fail (initial_world t0 junit0) in
  let typing := dump_health_checks pydantic (health_checks config) in
  let junit := junit_at_summary env junit0 in
  exists w,
    (command env).2 = w /\
    (length (summaries (trace w)) <= 1)%nat /\
    (forall down_code, command (with_down_exit down_code env) = command env) /\
    ((exists e, typing = Raise e) \/
     (exists typed, typing = Ret typed) /\
     (readable junit \/ exists e, parse_junit_xml junit = Raise e)) /\
    (forall typed,
       typing = Ret typed -> readable junit ->
       exists code s pre post,
         command env = (Exit code, w) /\
         trace w = pre ++ EvWriteSummary s :: post /\
         summaries pre = [] /\ calls_down pre = false /\
         summaries post = [] /\ calls_collect post = false /\
         summary_json w = Some s /\
         exit_code s = code) /\
    (forall e,
       typing = Raise e ->
       command env = (Raise e, initial_world t0 junit0)) /\
    (forall typed e,
       typing = Ret typed -> parse_junit_xml junit = Raise e ->
       command env = (Raise e, w) /\
       summaries (trace w) = [] /\ summary_json w = None /\
       calls_down (trace w) = false).
Proof.
  intros command typing junit.
  eexists. split; [reflexivity|].
  assert (Hcommand : forall typed, typing = Ret typed ->
            command env
            = run env config suite parallel artifacts_dir timeout keep_on_fail
                (initial_world t0 junit0)).
  { intros typed Htyped. unfold command, run_command, lift.
    unfold mbind at 1, M_bind at 1. fold typing. by rewrite Htyped. }
  assert (Hraise : forall e, typing = Raise e ->
            command env = (Raise e, initial_world t0 junit0)).
  { intros e Htyped. unfold command, run_command, lift.
    unfold mbind at 1, M_bind at 1. fold typing. by rewrite Htyped. }
  assert (Htyping : (exists e, typing = Raise e) \/ exists typed, typing = Ret typed).
  { destruct (dump_health_checks_cases pydantic (health_checks config))
      as [[typed Ht] | Ht]; [right; by exists typed | left; by eexists]. }
  assert (Hparse : readable junit \/ exists e, parse_junit_xml junit = Raise e)
    by apply parse_junit_xml_cases.
  split; [|split; [reflexivity|split; [|split; [|split; [exact Hraise|]]]]].
  - destruct Htyping as [[e Ht] | [typed Ht]].
    { rewrite (Hraise e Ht). cbn. lia. }
    rewrite (Hcommand typed Ht).
    destruct Hparse as [[r Hr] | [e Hr]]; unfold junit in Hr; split_run;
      summary_outcome Hr; destruct keep_on_fail; cbn; lia.
  - destruct Htyping as [He | Ht]; [by left | right; by split].
  - intros typed Ht [r Hr]. rewrite (Hcommand typed Ht).
    unfold junit in Hr. split_run; summary_outcome Hr;
      destruct keep_on_fail; cbn;
      eexists _, _, _, _; (split; [reflexivity|]); cbn;
      (split; [match goal with
               | |- ?a :: ?b :: ?c :: EvWriteSummary ?s :: ?post = _ =>
                   exact (eq_refl ([a; b; c] ++ EvWriteSummary s :: post))
               | |- ?a :: ?b :: EvWriteSummary ?s :: ?post = _ =>
                   exact (eq_refl ([a; b] ++ EvWriteSummary s :: post))
               end|]);
      repeat split; done.
  - intros typed e Ht Hr. rewrite (Hcommand typed Ht).
    unfold junit in Hr. split_run; summary_outcome Hr;
      destruct keep_on_fail; cbn; repeat split.
Qed.

Lemma run_summary_once_witness :
  exists code s w pre post,
    run_command strict (sample_env 0 1 7) (sample_config always) "all" None
        None (Some 60) false (initial_world 0 None) = (Exit code, w) /\
    trace w = pre ++ EvWriteSummary s :: post /\
    summaries pre = [] /\ calls_down pre = false /\
    summaries post = [] /\ calls_collect post = false /\
    summary_json w = Some s /\
    exit_code s = code.
Proof.
  destruct (run_summary_once strict (sample_env 0 1 7) (sample_config always)
              "all" None None (Some 60) false 0 None)
    as (w & _ & _ & _ & _ & Hwritten & _).
  destruct (Hwritten _ eq_refl sample_report_readable)
    as (code & s & pre & post & H).
  by exists code, s, w, pre, post.
Defined.

(** C9, as the specification words it, fails on two kinds of paths: with a
    result file that does not parse, and with a health check that cannot be
    typed, no summary is written. *)
Lemma summary_not_written :
  ~ summary_once_claim strict (truncated_env 0) (sample_config on_fail) "all"
      None None None false 0 None /\
  ~ summary_once_claim strict (sample_env 0 0 0) grpc_config "all"
      None None None false 0 None.
Proof.
  split; intros [s Hs]; vm_compute in Hs; discriminate.
Qed.

End RunPaths.

(** ** Facts about the playbooks directory and the compose commands *)

Module AnsibleFacts.
Import Runner Ansible.

Lemma first_existing_some exists_ candidates c :
  first_existing exists_ candidates = Some c ->
  exists before after,
    candidates = before ++ c :: after /\
    Forall (fun x => exists_ x = false) before /\ exists_ c = true.
Proof.
  induction candidates as [|x rest IH]; cbn; [discriminate|].
  destruct (exists_ x) eqn:Hx.
  - intros [= <-]. exists [], rest. by repeat split.
  - intros H. destruct (IH H) as (before & after & -> & Hb & Hc).
    exists (x :: before), after. repeat split; [|done]. by constructor.
Qed.

Lemma first_existing_none exists_ candidates :
  first_existing exists_ candidates = None ->
  Forall (fun x => exists_ x = false) candidates.
Proof.
  induction candidates as [|x rest IH]; cbn; [constructor|].
  destruct (exists_ x) eqn:Hx; [discriminate|]. intros H. constructor; auto.
Qed.

(** X18: the playbooks directory found is the first of the three candidates
    (next to the package, two levels above it, under the working directory)
    that exists; when none exists it is the one under the working directory,
    which is returned although it does not exist. *)
Theorem find_playbooks_dir_first_existing (exists_ : path -> bool)
    (pkg_dir cwd : path) :
  let found := _find_playbooks_dir exists_ pkg_dir cwd in
  (exists before after,
     playbook_candidates pkg_dir cwd = before ++ found :: after /\
     Forall (fun c => exists_ c = false) before /\
     (exists_ found = true \/ after = [])) /\
  (exists_ found = false ->
   Forall (fun c => exists_ c = false) (playbook_candidates pkg_dir cwd)).
Proof.
  unfold _find_playbooks_dir.
  destruct (first_existing exists_ (playbook_candidates pkg_dir cwd)) as [c|] eqn:Hf.
  - destruct (first_existing_some _ _ _ Hf) as (before & after & Heq & Hb & Hc).
    split; [by exists before, after; auto|]. congruence.
  - apply first_existing_none in Hf. split; [|done].
    exists [joinpath pkg_dir "playbooks";
            joinpath (parent (parent pkg_dir)) "playbooks"], [].
    split; [done|]. split; [|by right].
    unfold playbook_candidates in Hf.
    apply Forall_cons in Hf as [H1 Hf]. apply Forall_cons in Hf as [H2 _].
    by repeat constructor.
Qed.

Lemma find_playbooks_dir_first_existing_witness :
  Forall (fun c => bool_decide (c = ["/"; "srv"; "playbooks"]) = false)
    (playbook_candidates ["/"; "opt"; "src"; "autoe2e"] ["/"; "work"]).
Proof.
  destruct (find_playbooks_dir_first_existing
              (fun c => bool_decide (c = ["/"; "srv"; "playbooks"]))
              ["/"; "opt"; "src"; "autoe2e"] ["/"; "work"]) as [_ Hnone].
  apply Hnone. vm_compute. reflexivity.
Defined.

End AnsibleFacts.

Module DockerFacts.
Import Report Runner Docker.

(** X19: every compose command of a runner names its project,
    ["autoe2e-"] followed by the run id, so that runners with different run
    ids never issue the same command, whatever the compose files and the
    arguments are. *)
Theorem compose_commands_isolated (file1 file2 run_id1 run_id2 : string)
    (args1 args2 : list string) :
  compose_cmd (DockerRunner_init file1 run_id1) args1
    = compose_cmd (DockerRunner_init file2 run_id2) args2 ->
  run_id1 = run_id2 /\ file1 = file2 /\ args1 = args2.
Proof.
  unfold compose_cmd, DockerRunner_init. cbn.
  intros [= Hfile Hproject Hargs]. repeat split; done.
Qed.

Lemma compose_commands_isolated_witness :
  "a1" = "a1" /\ "f.yml" = "f.yml" /\ down_args true = down_args true.
Proof.
  apply (compose_commands_isolated "f.yml" "f.yml" "a1" "a1"
           (down_args true) (down_args true)).
  reflexivity.
Defined.

(** *** The file system operations *)

Lemma is_dir_grows t t' allowed q :
  grows t t' allowed -> is_dir t q = true -> is_dir t' q = true.
Proof.
  intros [Hkeep _]. unfold is_dir.
  destruct (bool_decide (q = []) || bool_decide (q = ["/"])); [done|]. cbn.
  destruct (t !! q) as [[|c]|] eqn:Hq; try done.
  by rewrite (Hkeep _ _ Hq).
Qed.

Lemma grows_refl t allowed : grows t t allowed.
Proof. split; auto. Qed.

Lemma grows_weaken t t' (a a' : path -> Prop) :
  (forall q, a q -> a' q) -> grows t t' a -> grows t t' a'.
Proof.
  intros Ha [Hk Hn]. split; [done|].
  intros q n Hq. destruct (Hn _ _ Hq) as [? | [-> ?]]; [by left | by right; auto].
Qed.

Lemma grows_trans t1 t2 t3 (a1 a2 a3 : path -> Prop) :
  (forall q, a1 q -> a3 q) -> (forall q, a2 q -> a3 q) ->
  grows t1 t2 a1 -> grows t2 t3 a2 -> grows t1 t3 a3.
Proof.
  intros H1 H2 [Hk1 Hn1] [Hk2 Hn2]. split.
  - intros q n Hq. auto.
  - intros q n Hq. destruct (Hn2 _ _ Hq) as [Hq2 | [-> Ha]]; [|by right; auto].
    destruct (Hn1 _ _ Hq2) as [? | [-> Ha]]; [by left | by right; auto].
Qed.

(** Between [done] and [done ++ part :: rest], a path longer than [done]
    is at or below [done ++ [part]]. *)
Lemma prefix_step (done q rest : path) part :
  done `prefix_of` q -> q <> done -> q `prefix_of` (done ++ part :: rest) ->
  (done ++ [part]) `prefix_of` q.
Proof.
  intros [k ->] Hne Hq.
  apply prefix_app_inv in Hq.
  destruct k as [|x k]; [by rewrite app_nil_r in Hne|].
  apply prefix_cons_inv_1 in Hq as ->.
  exists k. by rewrite <- app_assoc.
Qed.

Lemma mkdir_from_spec todo : forall done t,
  (forall q, q `prefix_of` (done ++ todo) -> done `prefix_of` q -> q <> done ->
             forall c, t !! q <> Some (File c)) ->
  exists t',
    mkdir_from done todo t = inr t' /\
    grows t t' (fun q => q `prefix_of` (done ++ todo) /\ done `prefix_of` q /\ q <> done) /\
    (forall q, q `prefix_of` (done ++ todo) -> done `prefix_of` q -> q <> done ->
               is_dir t' q = true) /\
    ((forall q, q `prefix_of` (done ++ todo) -> done `prefix_of` q -> q <> done ->
                is_dir t q = true) -> t' = t).
Proof.
  induction todo as [|part rest IH]; intros done t Hfree.
  - exists t. split; [done|]. split; [apply grows_refl|]. split; [|done].
    intros q Hq Hd Hne. rewrite app_nil_r in Hq. exfalso. apply Hne.
    by apply (anti_symm prefix).
  - cbn [mkdir_from].
    assert (Happ : done ++ part :: rest = (done ++ [part]) ++ rest)
      by (by rewrite <- app_assoc).
    assert (Hp_prefix : (done ++ [part]) `prefix_of` (done ++ part :: rest))
      by (rewrite Happ; by apply prefix_app_r).
    assert (Hp_done : done `prefix_of` (done ++ [part])) by (by apply prefix_app_r).
    assert (Hp_ne : done ++ [part] <> done).
    { intros Heq. apply (f_equal length) in Heq. rewrite length_app in Heq.
      cbn in Heq. lia. }
    assert (Hbelow : forall q, (done ++ [part]) `prefix_of` q -> q <> done ++ [part] ->
                               done `prefix_of` q /\ q <> done).
    { intros q Hq Hne. split; [by etrans|]. intros ->.
      apply Hp_ne. by apply (anti_symm prefix). }
    destruct (is_dir t (done ++ [part])) eqn:Hdir.
    + destruct (IH (done ++ [part]) t) as (t' & Hrun & Hgrow & Hdirs & Hsame).
      { intros q Hq Hpq Hne. rewrite <- Happ in Hq.
        destruct (Hbelow q Hpq Hne). by apply Hfree. }
      exists t'. split; [done|]. split; [|split].
      * eapply grows_weaken; [|exact Hgrow].
        intros q (Hq & Hpq & Hne). rewrite <- Happ in Hq.
        destruct (Hbelow q Hpq Hne). done.
      * intros q Hq Hd Hne.
        pose proof (prefix_step _ _ _ _ Hd Hne Hq) as Hpq.
        destruct (decide (q = done ++ [part])) as [->|Hne'].
        -- by eapply is_dir_grows.
        -- apply Hdirs; [by rewrite <- Happ | done | done].
      * intros Hall. apply Hsame. intros q Hq Hpq Hne. rewrite <- Happ in Hq.
        destruct (Hbelow q Hpq Hne). by apply Hall.
    + destruct (t !! (done ++ [part])) as [[|c]|] eqn:Hlook.
      * unfold is_dir in Hdir. rewrite Hlook in Hdir.
        by rewrite orb_true_r in Hdir.
      * by destruct (Hfree (done ++ [part]) Hp_prefix Hp_done Hp_ne c).
      * destruct (IH (done ++ [part]) (<[done ++ [part] := Dir]> t))
          as (t' & Hrun & Hgrow & Hdirs & Hsame).
        { intros q Hq Hpq Hne. rewrite <- Happ in Hq.
          rewrite lookup_insert_ne by done.
          destruct (Hbelow q Hpq Hne). by apply Hfree. }
        assert (Hgrow1 : grows t (<[done ++ [part] := Dir]> t)
                  (fun q => q `prefix_of` (done ++ part :: rest) /\
                            done `prefix_of` q /\ q <> done)).
        { split.
          - intros q n Hq. rewrite lookup_insert_ne; [done|]. congruence.
          - intros q n Hq. destruct (decide (done ++ [part] = q)) as [<-|Hne].
            + rewrite lookup_insert_eq in Hq. injection Hq as <-. by right.
            + rewrite lookup_insert_ne in Hq by done. by left. }
        exists t'. split; [done|]. split; [|split].
        -- eapply grows_trans; [| |exact Hgrow1|exact Hgrow]; [done|].
           intros q (Hq & Hpq & Hne). rewrite <- Happ in Hq.
           destruct (Hbelow q Hpq Hne). done.
        -- intros q Hq Hd Hne.
           pose proof (prefix_step _ _ _ _ Hd Hne Hq) as Hpq.
           destruct (decide (q = done ++ [part])) as [->|Hne'].
           ++ eapply is_dir_grows; [exact Hgrow|].
              unfold is_dir. rewrite lookup_insert_eq. by rewrite orb_true_r.
           ++ apply Hdirs; [by rewrite <- Happ | done | done].
        -- intros Hall. rewrite (Hall _ Hp_prefix Hp_done Hp_ne) in Hdir. done.
Qed.

Lemma write_file_ok p c t :
  is_dir t (removelast p) = true -> is_dir t p = false ->
  write_file p c t = inr (<[p := File c]> t).
Proof. intros Hparent Hp. unfold write_file. by rewrite Hparent, Hp. Qed.

Lemma is_dir_insert_file_ne t p c q :
  q <> p -> is_dir (<[p := File c]> t) q = is_dir t q.
Proof. intros Hne. unfold is_dir. by rewrite lookup_insert_ne. Qed.

Lemma joinpath2 (dir : path) a b :
  joinpath (joinpath dir a) b = dir ++ [a; b].
Proof. unfold joinpath. by rewrite <- app_assoc. Qed.

Lemma removelast2 (dir : path) a b : removelast (dir ++ [a; b]) = dir ++ [a].
Proof.
  change (dir ++ [a; b]) with (dir ++ [a] ++ [b]).
  rewrite app_assoc. apply removelast_last.
Qed.

Ltac path_neq :=
  let H := fresh in
  intros H; apply app_inv_head in H; discriminate.

Section Collect.

Variable sh : Shell.
Variable json_loads : string -> option json.
Variable Path_of : string -> path.
Variable datetime_now : Z.
Variable self : DockerRunner.
Variable artifacts_dir : path.

Let src := Path_of (compose_file self).

(** A file of the tree is no directory of the tree, nor above one. *)
Lemma artifact_file_not_tree_dir f :
  f ∈ artifact_files artifacts_dir -> ~ tree_dir artifacts_dir f.
Proof.
  intros Hf (d & Hd & Hpre). apply prefix_length in Hpre.
  unfold artifact_files in Hf. unfold artifact_dirs in Hd.
  rewrite !elem_of_cons, elem_of_nil in Hf, Hd.
  destruct Hf as [-> | [-> | [-> | [-> | []]]]];
    destruct Hd as [-> | [-> | [-> | [-> | []]]]];
    rewrite !length_app in Hpre; cbn in Hpre; lia.
Qed.

Lemma artifact_file_plain f :
  f ∈ artifact_files artifacts_dir -> f <> [] /\ f <> ["/"].
Proof.
  intros Hf. unfold artifact_files in Hf.
  rewrite !elem_of_cons, elem_of_nil in Hf.
  assert (2 <= length f)%nat.
  { destruct Hf as [-> | [-> | [-> | [-> | []]]]]; rewrite length_app; cbn; lia. }
  split; intros ->; cbn in *; lia.
Qed.

(** Directories added to the tree leave the files of the tree free. *)
Lemma artifact_file_free t t' f :
  tree_free t artifacts_dir -> grows t t' (tree_dir artifacts_dir) ->
  f ∈ artifact_files artifacts_dir -> is_dir t' f = false.
Proof.
  intros [_ Hfiles] [_ Hnew] Hf.
  pose proof (Hfiles f Hf) as Hf0.
  destruct (artifact_file_plain f Hf) as [Hne1 Hne2].
  unfold is_dir in *.
  rewrite !bool_decide_eq_false_2 in * by done. cbn in *.
  destruct (t' !! f) as [[|c]|] eqn:Hlook; try done.
  destruct (Hnew _ _ Hlook) as [Hold | [_ Hdir]].
  - by rewrite Hold in Hf0.
  - by apply artifact_file_not_tree_dir in Hdir.
Qed.

(** One [mkdir] of a directory of the tree. *)
Lemma mkdir_step t0 t d :
  d ∈ artifact_dirs artifacts_dir ->
  tree_free t0 artifacts_dir -> grows t0 t (tree_dir artifacts_dir) ->
  exists t',
    change (mkdir_parents d) t = (inr tt, t') /\
    grows t0 t' (tree_dir artifacts_dir) /\
    grows t t' (tree_dir artifacts_dir) /\
    (forall q, q `prefix_of` d -> is_dir t' q = true) /\
    ((forall q, tree_dir artifacts_dir q -> is_dir t q = true) -> t' = t).
Proof.
  intros Hd [Hfree _] Hgrow.
  destruct (mkdir_from_spec d [] t) as (t' & Hrun & Hg & Hdirs & Hsame).
  { intros q Hq _ _ c Hlook. destruct Hgrow as [_ Hnew].
    destruct (Hnew _ _ Hlook) as [Hold | [? _]]; [|done].
    by apply (Hfree d q Hd Hq c). }
  assert (Hg' : grows t t' (tree_dir artifacts_dir)).
  { eapply grows_weaken; [|exact Hg]. intros q (Hq & _). by exists d. }
  exists t'. unfold change, mkdir_parents. rewrite Hrun.
  split; [done|]. split; [|split; [done|split]].
  - eapply grows_trans; [| |exact Hgrow|exact Hg']; done.
  - intros q Hq. destruct (decide (q = [])) as [->|Hne]; [done|].
    apply Hdirs; [done | apply prefix_nil | done].
  - intros Hall. apply Hsame. intros q Hq _ _. apply Hall. by exists d.
Qed.

Lemma grows_lookup_outside t t' (a : path -> Prop) q :
  grows t t' a -> ~ a q -> t' !! q = t !! q.
Proof.
  intros [Hkeep Hnew] Hq.
  destruct (t !! q) as [n|] eqn:Hold; [by apply Hkeep|].
  destruct (t' !! q) as [n|] eqn:Hlook; [|done].
  destruct (Hnew _ _ Hlook) as [? | [_ ?]]; [congruence | done].
Qed.

(** What [collect_artifacts] does when nothing is in the way of the tree:
    the directories are made, the log is written, and then all depends on
    the copy of the compose file. *)
Lemma collect_artifacts_run t services :
  tree_free t artifacts_dir ->
  exists t4,
    grows t t4 (tree_dir artifacts_dir) /\
    (forall q, tree_dir artifacts_dir q -> is_dir t4 q = true) /\
    ((forall q, tree_dir artifacts_dir q -> is_dir t q = true) -> t4 = t) /\
    let t5 := <[artifacts_dir ++ ["logs"; "all.log"] :=
                  File (Text (logs sh self None))]> t4 in
    collect_artifacts sh json_loads Path_of datetime_now self artifacts_dir
      services t
    = match t5 !! src with
      | Some (File c0) =>
          if bool_decide (src = artifacts_dir ++ ["compose"; "docker-compose.yml"])
          then (inl SameFileError, t5)
          else (inr tt,
                with_artifacts artifacts_dir (Text (logs sh self None)) c0
                  (Text (ps sh self))
                  (MetadataJson (metadata_of sh json_loads datetime_now self)) t4)
      | Some Dir => (inl IsADirectoryError, t5)
      | None =>
          (inl (if is_dir t5 src then IsADirectoryError
                else missing_from [] src t5), t5)
      end.
Proof.
  intros Hfree.
  assert (Hd1 : artifacts_dir ++ ["logs"] ∈ artifact_dirs artifacts_dir)
    by (unfold artifact_dirs; rewrite !elem_of_cons; auto).
  assert (Hd2 : artifacts_dir ++ ["reports"] ∈ artifact_dirs artifacts_dir)
    by (unfold artifact_dirs; rewrite !elem_of_cons; auto).
  assert (Hd3 : artifacts_dir ++ ["env"] ∈ artifact_dirs artifacts_dir)
    by (unfold artifact_dirs; rewrite !elem_of_cons; auto).
  assert (Hd4 : artifacts_dir ++ ["compose"] ∈ artifact_dirs artifacts_dir)
    by (unfold artifact_dirs; rewrite !elem_of_cons; auto 10).
  assert (Hf1 : artifacts_dir ++ ["logs"; "all.log"] ∈ artifact_files artifacts_dir)
    by (unfold artifact_files; rewrite !elem_of_cons; auto).
  assert (Hf2 : artifacts_dir ++ ["compose"; "docker-compose.yml"]
                ∈ artifact_files artifacts_dir)
    by (unfold artifact_files; rewrite !elem_of_cons; auto).
  assert (Hf3 : artifacts_dir ++ ["env"; "container_states.txt"]
                ∈ artifact_files artifacts_dir)
    by (unfold artifact_files; rewrite !elem_of_cons; auto).
  assert (Hf4 : artifacts_dir ++ ["env"; "metadata.json"]
                ∈ artifact_files artifacts_dir)
    by (unfold artifact_files; rewrite !elem_of_cons; auto 10).
  destruct (mkdir_step t t _ Hd1 Hfree (grows_refl _ _))
    as (t1 & Hrun1 & Hg1 & _ & Hdir1 & Hsame1).
  destruct (mkdir_step t t1 _ Hd2 Hfree Hg1)
    as (t2 & Hrun2 & Hg2 & Hg12 & Hdir2 & Hsame2).
  destruct (mkdir_step t t2 _ Hd3 Hfree Hg2)
    as (t3 & Hrun3 & Hg3 & Hg23 & Hdir3 & Hsame3).
  destruct (mkdir_step t t3 _ Hd4 Hfree Hg3)
    as (t4 & Hrun4 & Hg4 & Hg34 & Hdir4 & Hsame4).
  assert (Hdirs : forall q, tree_dir artifacts_dir q -> is_dir t4 q = true).
  { intros q (d & Hd & Hq). unfold artifact_dirs in Hd.
    rewrite !elem_of_cons, elem_of_nil in Hd.
    destruct Hd as [-> | [-> | [-> | [-> | []]]]].
    - eapply is_dir_grows; [exact Hg34|]. eapply is_dir_grows; [exact Hg23|].
      eapply is_dir_grows; [exact Hg12|]. by apply Hdir1.
    - eapply is_dir_grows; [exact Hg34|]. eapply is_dir_grows; [exact Hg23|].
      by apply Hdir2.
    - eapply is_dir_grows; [exact Hg34|]. by apply Hdir3.
    - by apply Hdir4. }
  exists t4. split; [exact Hg4|]. split; [exact Hdirs|]. split.
  { intros Hall.
    assert (t1 = t) as E1 by (by apply Hsame1). subst t1.
    assert (t2 = t) as E2 by (by apply Hsame2). subst t2.
    assert (t3 = t) as E3 by (by apply Hsame3). subst t3.
    by apply Hsame4. }
  assert (Hself : forall d, d ∈ artifact_dirs artifacts_dir -> is_dir t4 d = true).
  { intros d Hd. apply Hdirs. by exists d. }
  intros t5.
  unfold collect_artifacts.
  unfold mbind, F_bind.
  unfold joinpath at 1. rewrite Hrun1.
  unfold joinpath at 1. rewrite Hrun2.
  unfold joinpath at 1. rewrite Hrun3.
  unfold joinpath at 1. rewrite Hrun4.
  rewrite !joinpath2.
  (* logs/all.log *)
  unfold change at 1.
  rewrite write_file_ok; cycle 1.
  { rewrite removelast2. by apply Hself. }
  { by apply (artifact_file_free t). }
  fold t5.
  (* compose/docker-compose.yml *)
  unfold change at 1. unfold copy_file. fold src.
  destruct (t5 !! src) as [[|c0]|]; [done | | by destruct (is_dir t5 src)].
  case_bool_decide; [done|].
  assert (Hfile2 : is_dir t5 (artifacts_dir ++ ["compose"; "docker-compose.yml"])
                   = false).
  { unfold t5. rewrite is_dir_insert_file_ne by path_neq.
    by apply (artifact_file_free t). }
  rewrite Hfile2.
  rewrite write_file_ok;
    [|unfold t5; rewrite removelast2, is_dir_insert_file_ne by path_neq;
      by apply Hself | exact Hfile2].
  (* env/container_states.txt *)
  unfold t5.
  unfold change at 1.
  rewrite write_file_ok; cycle 1.
  { rewrite removelast2, !is_dir_insert_file_ne by path_neq. by apply Hself. }
  { rewrite !is_dir_insert_file_ne by path_neq. by apply (artifact_file_free t). }
  (* env/metadata.json *)
  unfold change.
  rewrite write_file_ok; cycle 1.
  { rewrite removelast2, !is_dir_insert_file_ne by path_neq. by apply Hself. }
  { rewrite !is_dir_insert_file_ne by path_neq. by apply (artifact_file_free t). }
  reflexivity.
Qed.

End Collect.

Lemma with_artifacts_outside dir log compose states meta t q :
  q ∉ artifact_files dir ->
  with_artifacts dir log compose states meta t !! q = t !! q.
Proof.
  unfold artifact_files, with_artifacts. rewrite !not_elem_of_cons.
  intros (H1 & H2 & H3 & H4 & _). by rewrite !lookup_insert_ne.
Qed.

Lemma with_artifacts_files dir log compose states meta t :
  let t' := with_artifacts dir log compose states meta t in
  t' !! (dir ++ ["logs"; "all.log"]) = Some (File log) /\
  t' !! (dir ++ ["compose"; "docker-compose.yml"]) = Some (File compose) /\
  t' !! (dir ++ ["env"; "container_states.txt"]) = Some (File states) /\
  t' !! (dir ++ ["env"; "metadata.json"]) = Some (File meta).
Proof.
  unfold with_artifacts. cbn. repeat split.
  - rewrite !lookup_insert_ne by path_neq. apply lookup_insert_eq.
  - rewrite !lookup_insert_ne by path_neq. apply lookup_insert_eq.
  - rewrite !lookup_insert_ne by path_neq. apply lookup_insert_eq.
  - apply lookup_insert_eq.
Qed.

(** Writing the same tree again changes nothing. *)
Lemma with_artifacts_again dir log compose states meta t :
  let t' := with_artifacts dir log compose states meta t in
  with_artifacts dir log compose states meta t' = t'.
Proof.
  intros t'. apply map_eq. intros q.
  destruct (with_artifacts_files dir log compose states meta t')
    as (H1 & H2 & H3 & H4).
  destruct (with_artifacts_files dir log compose states meta t)
    as (G1 & G2 & G3 & G4).
  fold t' in G1, G2, G3, G4.
  destruct (decide (q ∈ artifact_files dir)) as [Hin|Hout].
  - unfold artifact_files in Hin. rewrite !elem_of_cons, elem_of_nil in Hin.
    destruct Hin as [-> | [-> | [-> | [-> | []]]]]; congruence.
  - by rewrite with_artifacts_outside.
Qed.

Lemma reports_outside dir x :
  ((dir ++ ["reports"; x]) ∉ artifact_files dir) /\
  ~ tree_dir dir (dir ++ ["reports"; x]).
Proof.
  split.
  - unfold artifact_files. rewrite !not_elem_of_cons.
    repeat split; try path_neq. apply not_elem_of_nil.
  - intros (d & Hd & Hpre). apply prefix_length in Hpre.
    unfold artifact_dirs in Hd. rewrite !elem_of_cons, elem_of_nil in Hd.
    destruct Hd as [-> | [-> | [-> | [-> | []]]]];
      rewrite !length_app in Hpre; cbn in Hpre; lia.
Qed.

(** X20: when nothing is in the way of the artifact tree and the compose
    file is a file outside it, [collect_artifacts] succeeds whatever
    [services] is: the four directories exist, the four files hold the logs
    (standard output, then standard error), the copy of the compose file,
    the container listing and the metadata of this run; every other path is
    as before, in particular whatever is in [reports] (the result file and
    the summary). *)
Theorem collect_artifacts_tree (sh : Shell) (json_loads : string -> option json)
    (Path_of : string -> path) (datetime_now : Z) (self : DockerRunner)
    (dir : path) (t : fs) (c0 : content) :
  tree_free t dir ->
  t !! Path_of (compose_file self) = Some (File c0) ->
  Path_of (compose_file self) ∉ artifact_files dir ->
  exists t',
    (forall services,
       collect_artifacts sh json_loads Path_of datetime_now self dir services t
       = (inr tt, t')) /\
    t' !! (dir ++ ["logs"; "all.log"]) = Some (File (Text (logs sh self None))) /\
    t' !! (dir ++ ["compose"; "docker-compose.yml"]) = Some (File c0) /\
    t' !! (dir ++ ["env"; "container_states.txt"]) = Some (File (Text (ps sh self))) /\
    t' !! (dir ++ ["env"; "metadata.json"])
      = Some (File (MetadataJson (metadata_of sh json_loads datetime_now self))) /\
    Forall (fun d => is_dir t' d = true) (artifact_dirs dir) /\
    (forall q, q ∉ artifact_files dir -> ~ tree_dir dir q -> t' !! q = t !! q) /\
    (forall x, t' !! (dir ++ ["reports"; x]) = t !! (dir ++ ["reports"; x])).
Proof.
  intros Hfree Hsrc Hout.
  destruct (collect_artifacts_run sh json_loads Path_of datetime_now self dir t
              None Hfree) as (t4 & Hgrow & Hdirs & _ & Hrun).
  cbn zeta in Hrun.
  assert (Hsrc4 : t4 !! Path_of (compose_file self) = Some (File c0))
    by (by apply Hgrow).
  rewrite lookup_insert_ne in Hrun by (intros Heq; apply Hout; rewrite <- Heq;
    unfold artifact_files; rewrite !elem_of_cons; auto).
  rewrite Hsrc4 in Hrun.
  rewrite bool_decide_eq_false_2 in Hrun by (intros Heq; apply Hout; rewrite Heq;
    unfold artifact_files; rewrite !elem_of_cons; auto).
  eexists. split; [intros services; exact Hrun|].
  destruct (with_artifacts_files dir (Text (logs sh self None)) c0
              (Text (ps sh self))
              (MetadataJson (metadata_of sh json_loads datetime_now self)) t4)
    as (H1 & H2 & H3 & H4).
  repeat (split; [done|]).
  assert (Houtside : forall q, q ∉ artifact_files dir -> ~ tree_dir dir q ->
            with_artifacts dir (Text (logs sh self None)) c0 (Text (ps sh self))
              (MetadataJson (metadata_of sh json_loads datetime_now self)) t4 !! q
            = t !! q).
  { intros q Hq Hnd. rewrite with_artifacts_outside by done.
    by eapply grows_lookup_outside. }
  split; [|split; [exact Houtside|]].
  - apply Forall_forall. intros d Hd.
    assert (Hnf : d ∉ artifact_files dir).
    { intros Hf. apply (artifact_file_not_tree_dir dir d Hf). by exists d. }
    unfold is_dir. rewrite with_artifacts_outside by done.
    apply Hdirs. by exists d.
  - intros x. destruct (reports_outside dir x). by apply Houtside.
Qed.

Lemma prefix_of_pair (q : path) a b :
  q `prefix_of` [a; b] -> q = [] \/ q = [a] \/ q = [a; b].
Proof.
  intros [k Hk]. destruct q as [|x [|y [|z q]]]; auto.
  - injection Hk as -> _. auto.
  - injection Hk as -> -> _. auto.
  - discriminate.
Qed.

Lemma sample_fs_tree_free : tree_free sample_fs ["artifacts"].
Proof.
  split.
  - intros d q Hd Hq c. unfold artifact_dirs in Hd. cbn in Hd.
    rewrite !elem_of_cons, elem_of_nil in Hd.
    destruct Hd as [-> | [-> | [-> | [-> | []]]]];
      apply prefix_of_pair in Hq as [-> | [-> | ->]]; by vm_compute.
  - intros f Hf. unfold artifact_files in Hf. cbn in Hf.
    rewrite !elem_of_cons, elem_of_nil in Hf.
    destruct Hf as [-> | [-> | [-> | [-> | []]]]]; by vm_compute.
Defined.

Lemma sample_compose_outside :
  sample_path_of (compose_file sample_runner) ∉ artifact_files ["artifacts"].
Proof.
  unfold artifact_files. cbn. rewrite !not_elem_of_cons.
  repeat split; try discriminate. apply not_elem_of_nil.
Defined.

Lemma collect_artifacts_tree_witness :
  exists t',
    (forall services,
       collect_artifacts sample_shell (fun _ => None) sample_path_of 1700000000
         sample_runner ["artifacts"] services sample_fs = (inr tt, t')) /\
    t' !! ["artifacts"; "env"; "container_states.txt"]
      = Some (File (Text (ps sample_shell sample_runner))) /\
    t' !! ["artifacts"; "reports"; "junit.xml"]
      = sample_fs !! ["artifacts"; "reports"; "junit.xml"].
Proof.
  destruct (collect_artifacts_tree sample_shell (fun _ => None) sample_path_of
              1700000000 sample_runner ["artifacts"] sample_fs
              (Text "services: {}") sample_fs_tree_free)
    as (t' & Hrun & _ & _ & Hstates & _ & _ & _ & Hreports).
  - by vm_compute.
  - apply sample_compose_outside.
  - exists t'. split; [exact Hrun|]. split; [exact Hstates|].
    apply (Hreports "junit.xml").
Defined.

(** The error of opening a missing path is one of two. *)
Lemma missing_from_cases todo : forall done t,
  missing_from done todo t = FileNotFoundError \/
  missing_from done todo t = NotADirectoryError.
Proof.
  induction todo as [|part rest IH]; intros done t; [by left|].
  destruct rest as [|part' rest']; [by left|].
  cbn [missing_from].
  destruct (t !! (done ++ [part])) as [[|c]|]; [apply IH | by right |].
  destruct (is_dir t (done ++ [part])); [apply IH | by left].
Qed.

(** It is a [NotADirectoryError] only if a regular file lies above the
    path. *)
Lemma missing_from_not_a_directory todo : forall done t,
  missing_from done todo t = NotADirectoryError ->
  exists q c, q `prefix_of` done ++ todo /\ q <> done ++ todo /\
              t !! q = Some (File c).
Proof.
  induction todo as [|part rest IH]; intros done t; [discriminate|].
  destruct rest as [|part' rest']; [discriminate|].
  cbn [missing_from].
  assert (Hstep : missing_from (done ++ [part]) (part' :: rest') t
                  = NotADirectoryError ->
                  exists q c, q `prefix_of` done ++ part :: part' :: rest' /\
                              q <> done ++ part :: part' :: rest' /\
                              t !! q = Some (File c)).
  { intros H. apply IH in H as (q & c & Hq & Hne & Hlook).
    rewrite <- app_assoc in Hq, Hne. by exists q, c. }
  destruct (t !! (done ++ [part])) as [[|c]|] eqn:Hlook; [exact Hstep | |].
  - intros _. exists (done ++ [part]), c. split; [|split; [|done]].
    + exists (part' :: rest'). by rewrite <- app_assoc.
    + intros Heq. apply app_inv_head in Heq. discriminate.
  - destruct (is_dir t (done ++ [part])); [exact Hstep | discriminate].
Qed.

(** X21: when the compose file does not exist, [collect_artifacts] raises
    from the copy, with the error of opening the file: [NotADirectoryError]
    only if by then a regular file lies above its path, else
    [FileNotFoundError].  The directories and the log are there by then, the
    copy, the container listing and the metadata are not written, and
    nothing outside the tree has changed. *)
Theorem collect_artifacts_missing_compose_file (sh : Shell)
    (json_loads : string -> option json) (Path_of : string -> path)
    (datetime_now : Z) (self : DockerRunner) (dir : path)
    (services : option (list string)) (t : fs) :
  let src := Path_of (compose_file self) in
  tree_free t dir ->
  t !! src = None -> src <> [] -> src <> ["/"] ->
  ~ tree_dir dir src -> src ∉ artifact_files dir ->
  exists e t',
    collect_artifacts sh json_loads Path_of datetime_now self dir services t
      = (inl e, t') /\
    e = missing_from [] src t' /\
    (e = FileNotFoundError \/ e = NotADirectoryError) /\
    (e = NotADirectoryError ->
     exists q c, q `prefix_of` src /\ q <> src /\ t' !! q = Some (File c)) /\
    (forall q, ~ tree_dir dir q -> q <> dir ++ ["logs"; "all.log"] ->
               t' !! q = t !! q) /\
    t' !! (dir ++ ["logs"; "all.log"]) = Some (File (Text (logs sh self None))) /\
    Forall (fun d => is_dir t' d = true) (artifact_dirs dir) /\
    t' !! (dir ++ ["compose"; "docker-compose.yml"])
      = t !! (dir ++ ["compose"; "docker-compose.yml"]) /\
    t' !! (dir ++ ["env"; "container_states.txt"])
      = t !! (dir ++ ["env"; "container_states.txt"]) /\
    t' !! (dir ++ ["env"; "metadata.json"]) = t !! (dir ++ ["env"; "metadata.json"]).
Proof.
  intros src Hfree Hnone Hne1 Hne2 Hnd Hout.
  destruct (collect_artifacts_run sh json_loads Path_of datetime_now self dir t
              services Hfree) as (t4 & Hgrow & Hdirs & _ & Hrun).
  cbn zeta in Hrun. fold src in Hrun.
  assert (Hf1 : src <> dir ++ ["logs"; "all.log"]).
  { intros Heq. apply Hout. rewrite Heq. unfold artifact_files.
    rewrite !elem_of_cons. auto. }
  assert (Hsrc4 : t4 !! src = None).
  { rewrite (grows_lookup_outside _ _ _ _ Hgrow Hnd). done. }
  rewrite lookup_insert_ne in Hrun by done. rewrite Hsrc4 in Hrun.
  assert (Hnodir : is_dir (<[dir ++ ["logs"; "all.log"] :=
                             File (Text (logs sh self None))]> t4) src = false).
  { rewrite is_dir_insert_file_ne by done. unfold is_dir.
    rewrite Hsrc4. by rewrite !bool_decide_eq_false_2. }
  rewrite Hnodir in Hrun.
  eexists _, _. split; [exact Hrun|]. split; [reflexivity|].
  split; [apply missing_from_cases|].
  split; [intros He; by apply missing_from_not_a_directory in He|].
  assert (Houtside : forall q, ~ tree_dir dir q -> q <> dir ++ ["logs"; "all.log"] ->
            <[dir ++ ["logs"; "all.log"] := File (Text (logs sh self None))]> t4 !! q
            = t !! q).
  { intros q Hq Hne. rewrite lookup_insert_ne by done.
    by eapply grows_lookup_outside. }
  split; [exact Houtside|].
  split; [apply lookup_insert_eq|].
  split.
  - apply Forall_forall. intros d Hd.
    rewrite is_dir_insert_file_ne.
    + apply Hdirs. by exists d.
    + intros ->. apply (artifact_file_not_tree_dir dir (dir ++ ["logs"; "all.log"])).
      * unfold artifact_files. rewrite !elem_of_cons. auto.
      * by exists (dir ++ ["logs"; "all.log"]).
  - repeat split; (apply Houtside; [|path_neq]);
      apply artifact_file_not_tree_dir;
      unfold artifact_files; rewrite !elem_of_cons; auto 10.
Qed.

Lemma sample_fs_less_tree_free :
  tree_free (delete ["docker-compose.yml"] sample_fs) ["artifacts"].
Proof.
  destruct sample_fs_tree_free as [Hdirs Hfiles]. split.
  - intros d q Hd Hq c Hlook.
    apply lookup_delete_Some in Hlook as [_ Hlook]. by apply (Hdirs d q Hd Hq c).
  - intros f Hf. specialize (Hfiles f Hf). unfold is_dir in *.
    destruct (decide (["docker-compose.yml"] = f)) as [<-|Hne].
    + by vm_compute.
    + by rewrite lookup_delete_ne.
Defined.

(** Without the compose file the copy fails with [FileNotFoundError]; with
    a compose file named below a regular file, with [NotADirectoryError]. *)
Lemma collect_artifacts_missing_compose_file_witness :
  (exists t',
     collect_artifacts sample_shell (fun _ => None) sample_path_of 1700000000
       sample_runner ["artifacts"] None (delete ["docker-compose.yml"] sample_fs)
       = (inl FileNotFoundError, t') /\
     t' !! ["artifacts"; "logs"; "all.log"]
       = Some (File (Text (logs sample_shell sample_runner None))) /\
     t' !! ["artifacts"; "env"; "metadata.json"] = None) /\
  (exists t',
     collect_artifacts sample_shell (fun _ => None)
       (fun _ => ["docker-compose.yml"; "override.yml"]) 1700000000
       sample_runner ["artifacts"] None sample_fs
       = (inl NotADirectoryError, t')).
Proof.
  split.
  - destruct (collect_artifacts_missing_compose_file sample_shell (fun _ => None)
                sample_path_of 1700000000 sample_runner ["artifacts"] None
                (delete ["docker-compose.yml"] sample_fs))
      as (e & t' & Hrun & He & _ & _ & _ & Hlog & _ & _ & _ & Hmeta).
    + apply sample_fs_less_tree_free.
    + by vm_compute.
    + discriminate.
    + discriminate.
    + intros (d & Hd & Hq). unfold artifact_dirs in Hd. cbn in Hd.
      rewrite !elem_of_cons, elem_of_nil in Hd.
      destruct Hd as [-> | [-> | [-> | [-> | []]]]];
        apply prefix_of_pair in Hq as [Hq | [Hq | Hq]]; discriminate.
    + apply sample_compose_outside.
    + exists t'. split; [|split; [exact Hlog|]].
      * rewrite Hrun, He. reflexivity.
      * refine (eq_trans Hmeta _). by vm_compute.
  - destruct (collect_artifacts_missing_compose_file sample_shell (fun _ => None)
                (fun _ => ["docker-compose.yml"; "override.yml"]) 1700000000
                sample_runner ["artifacts"] None sample_fs)
      as (e & t' & Hrun & He & _ & _ & Hsame & _).
    + apply sample_fs_tree_free.
    + by vm_compute.
    + discriminate.
    + discriminate.
    + intros (d & Hd & Hq). unfold artifact_dirs in Hd. cbn in Hd.
      rewrite !elem_of_cons, elem_of_nil in Hd.
      destruct Hd as [-> | [-> | [-> | [-> | []]]]];
        apply prefix_of_pair in Hq as [Hq | [Hq | Hq]]; discriminate.
    + unfold artifact_files. cbn. rewrite !elem_of_cons, elem_of_nil.
      intros [H | [H | [H | [H | []]]]]; discriminate.
    + exists t'. rewrite Hrun. f_equal. f_equal. rewrite He. cbn.
      rewrite (Hsame ["docker-compose.yml"]); [by vm_compute | | discriminate].
      intros (d & Hd & Hq). unfold artifact_dirs in Hd. cbn in Hd.
      rewrite !elem_of_cons, elem_of_nil in Hd.
      destruct Hd as [-> | [-> | [-> | [-> | []]]]];
        apply prefix_of_pair in Hq as [Hq | [Hq | Hq]]; discriminate.
Defined.

(** X22: collecting a second time, with the same answers of the commands
    and the same time, succeeds again and leaves the file system as the
    first collection left it. *)
Theorem collect_artifacts_twice (sh : Shell) (json_loads : string -> option json)
    (Path_of : string -> path) (datetime_now : Z) (self : DockerRunner)
    (dir : path) (services services' : option (list string)) (t : fs)
    (c0 : content) :
  tree_free t dir ->
  t !! Path_of (compose_file self) = Some (File c0) ->
  Path_of (compose_file self) ∉ artifact_files dir ->
  exists t',
    collect_artifacts sh json_loads Path_of datetime_now self dir services t
      = (inr tt, t') /\
    collect_artifacts sh json_loads Path_of datetime_now self dir services' t'
      = (inr tt, t').
Proof.
  intros Hfree Hsrc Hout.
  assert (Hf1 : Path_of (compose_file self) <> dir ++ ["logs"; "all.log"]).
  { intros Heq. apply Hout. rewrite Heq. unfold artifact_files.
    rewrite !elem_of_cons. auto. }
  assert (Hf2 : Path_of (compose_file self)
                <> dir ++ ["compose"; "docker-compose.yml"]).
  { intros Heq. apply Hout. rewrite Heq. unfold artifact_files.
    rewrite !elem_of_cons. auto. }
  destruct (collect_artifacts_run sh json_loads Path_of datetime_now self dir t
              services Hfree) as (t4 & Hgrow & Hdirs & _ & Hrun).
  cbn zeta in Hrun.
  rewrite lookup_insert_ne in Hrun by done.
  rewrite (proj1 Hgrow _ _ Hsrc) in Hrun.
  rewrite bool_decide_eq_false_2 in Hrun by done.
  set (t' := with_artifacts dir (Text (logs sh self None)) c0 (Text (ps sh self))
               (MetadataJson (metadata_of sh json_loads datetime_now self)) t4)
    in *.
  exists t'. split; [exact Hrun|].
  destruct (with_artifacts_files dir (Text (logs sh self None)) c0
              (Text (ps sh self))
              (MetadataJson (metadata_of sh json_loads datetime_now self)) t4)
    as (H1 & H2 & H3 & H4).
  fold t' in H1, H2, H3, H4.
  assert (Hfree' : tree_free t' dir).
  { destruct Hfree as [Hfd Hff]. split.
    - intros d q Hd Hq c Hlook.
      assert (Hnf : q ∉ artifact_files dir).
      { intros Hf. apply (artifact_file_not_tree_dir dir q Hf). by exists d. }
      unfold t' in Hlook. rewrite with_artifacts_outside in Hlook by done.
      destruct (proj2 Hgrow _ _ Hlook) as [Hold | [? _]]; [|done].
      by apply (Hfd d q Hd Hq c).
    - intros f Hf. destruct (artifact_file_plain dir f Hf) as [Hn1 Hn2].
      unfold is_dir. rewrite !bool_decide_eq_false_2 by done. cbn.
      unfold artifact_files in Hf. rewrite !elem_of_cons, elem_of_nil in Hf.
      destruct Hf as [-> | [-> | [-> | [-> | []]]]];
        by rewrite ?H1, ?H2, ?H3, ?H4. }
  assert (Hsrc' : t' !! Path_of (compose_file self) = Some (File c0)).
  { unfold t'. rewrite with_artifacts_outside by done. by apply Hgrow. }
  destruct (collect_artifacts_run sh json_loads Path_of datetime_now self dir t'
              services' Hfree') as (t4' & _ & _ & Hsame & Hrun').
  cbn zeta in Hrun'.
  rewrite lookup_insert_ne in Hrun' by done.
  assert (t4' = t') as ->.
  { apply Hsame. intros q Hq.
    assert (Hnf : q ∉ artifact_files dir).
    { intros Hf. by apply (artifact_file_not_tree_dir dir q Hf). }
    unfold is_dir, t'. rewrite with_artifacts_outside by done. by apply Hdirs. }
  rewrite Hsrc' in Hrun'.
  rewrite bool_decide_eq_false_2 in Hrun' by done.
  rewrite Hrun'. f_equal. apply with_artifacts_again.
Qed.

Lemma collect_artifacts_twice_witness :
  exists t',
    collect_artifacts sample_shell (fun _ => None) sample_path_of 1700000000
      sample_runner ["artifacts"] None sample_fs = (inr tt, t') /\
    collect_artifacts sample_shell (fun _ => None) sample_path_of 1700000000
      sample_runner ["artifacts"] (Some ["api"]) t' = (inr tt, t').
Proof.
  apply (collect_artifacts_twice sample_shell (fun _ => None) sample_path_of
           1700000000 sample_runner ["artifacts"] None (Some ["api"]) sample_fs
           (Text "services: {}") sample_fs_tree_free).
  - by vm_compute.
  - apply sample_compose_outside.
Defined.

End DockerFacts.
